(** * machotech-api: a catalogue API of products and categories

    A shallow embedding of the request handlers of the repository
    (category routes, product routes, login route, upload filters and
    the error wrappers) together with the statements of the
    specification that concern them.

    A route is a function from the store and a request to the store
    afterwards and the response. What lies outside the repository is
    kept as small as the handlers allow: the database is a list of rows
    per table, the file system a set of paths, a token the record of
    its claims, and [JSON.parse], [bcrypt.compare] and the database's
    reading of a [numeric] literal are parameters.

    Layout:
    - [JS]       the JavaScript values and built-ins the handlers rely on;
    - [Path]     [path.extname] and the upload filters' pattern;
    - [Errors]   what a handler can throw;
    - [Db]       the tables of [src/db/schema.ts] and the file store;
    - [Jwt]      tokens;
    - [Http]     status codes, response bodies and the [tryCatch] wrappers;
    - [Multer]   the upload middleware as the routes configure it;
    - [Categories], [Products], [Auth]  the routers;
    - [App]      the mounted routes and the reachable stores;
    - the notions the statements use and the sample data;
    - the properties. *)

Set Warnings "-register-all".
From Stdlib Require Import ZArith QArith String Ascii List Lia.
From Stdlib Require Import DecimalString DecimalN.
From stdpp Require Import gmap strings list.

Close Scope Q_scope.
Local Open Scope string_scope.

(* ================================================================== *)
(** * JavaScript values and built-ins *)
(* ================================================================== *)

Module JS.

(** A JavaScript number. Finite numbers are exact rationals: the
    rounding of IEEE doubles (and the sign of zero) is not modelled,
    except where a route prints a number and reads it back
    ([Number_digits] and [ToString] below). *)
Inductive jsnum :=
| NaN
| Inf (negative : bool)
| Fin (q : Q).

(** The values a parsed JSON text or a request body field can hold.
    Objects are ordinary objects used as maps from keys to values. *)
Inductive jsval :=
| VUndefined
| VNull
| VBool (b : bool)
| VNum (n : jsnum)
| VStr (s : string)
| VArr (l : list jsval)
| VObj (m : gmap string jsval).

Definition num_of_Z (z : Z) : jsnum := Fin (inject_Z z).

(** [x == 0] on numbers. *)
Definition num_is_zero (n : jsnum) : bool :=
  match n with
  | Fin q => Qeq_bool q 0
  | _ => false
  end.

(** [isNaN(n)] for a value that is already a number. *)
Definition isNaN (n : jsnum) : bool :=
  match n with NaN => true | _ => false end.

(** Strict equality of a value with a number ([===], and SameValueZero
    as [Array.prototype.includes] uses it, on a number that is not NaN). *)
Definition strict_eq_num (v : jsval) (z : Z) : bool :=
  match v with
  | VNum (Fin q) => Qeq_bool q (inject_Z z)
  | _ => false
  end.

(** ToBoolean. *)
Definition truthy (v : jsval) : bool :=
  match v with
  | VUndefined | VNull => false
  | VBool b => b
  | VNum NaN => false
  | VNum n => negb (num_is_zero n)
  | VStr s => negb (String.eqb s "")
  | VArr _ | VObj _ => true
  end.

(** Truthiness of a text field that is absent ([undefined]) or a string. *)
Definition truthy_text (f : option string) : bool :=
  match f with
  | None => false
  | Some s => negb (String.eqb s "")
  end.

(** ** Characters *)

(** White space and line terminators in the ASCII range (tab, line
    feed, vertical tab, form feed, carriage return, space). Strings are
    byte strings here, so the white space beyond ASCII is not covered. *)
Definition is_space (c : ascii) : bool :=
  let n := nat_of_ascii c in
  ((9 <=? n)%nat && (n <=? 13)%nat) || (n =? 32)%nat.

Definition digit_val (c : ascii) : option Z :=
  let n := Z.of_nat (nat_of_ascii c) in
  if ((48 <=? n) && (n <=? 57))%Z then Some (n - 48)%Z
  else if ((97 <=? n) && (n <=? 122))%Z then Some (n - 87)%Z
  else if ((65 <=? n) && (n <=? 90))%Z then Some (n - 55)%Z
  else None.

(** The value of [c] as a digit of base [radix], if it is one. *)
Definition radix_digit (radix : Z) (c : ascii) : option Z :=
  match digit_val c with
  | Some d => if (d <? radix)%Z then Some d else None
  | None => None
  end.

(** The longest prefix of digits of base [radix], as digit values, and
    what follows it. *)
Fixpoint span_digits (radix : Z) (l : list ascii) : list Z * list ascii :=
  match l with
  | [] => ([], [])
  | c :: l' =>
      match radix_digit radix c with
      | Some d => let '(ds, rest) := span_digits radix l' in (d :: ds, rest)
      | None => ([], l)
      end
  end.

Definition digits_value (radix : Z) (ds : list Z) : Z :=
  fold_left (fun acc d => acc * radix + d)%Z ds 0%Z.

Fixpoint trim_start (l : list ascii) : list ascii :=
  match l with
  | c :: l' => if is_space c then trim_start l' else l
  | [] => []
  end.

Definition trim (l : list ascii) : list ascii :=
  rev (trim_start (rev (trim_start l))).

Definition chars (s : string) : list ascii := list_ascii_of_string s.

(** An optional sign: [true] when negative, and what follows it. *)
Definition take_sign (l : list ascii) : bool * list ascii :=
  match l with
  | "-"%char :: l' => (true, l')
  | "+"%char :: l' => (false, l')
  | _ => (false, l)
  end.

(** The radix prefix [0x]/[0X] (base 16), and with [all = true] also
    [0o]/[0O] and [0b]/[0B]. *)
Definition take_radix_prefix (all : bool) (l : list ascii)
  : option (Z * list ascii) :=
  match l with
  | "0"%char :: c :: l' =>
      if (Ascii.eqb c "x" || Ascii.eqb c "X")%char then Some (16%Z, l')
      else if all && (Ascii.eqb c "o" || Ascii.eqb c "O")%char then Some (8%Z, l')
      else if all && (Ascii.eqb c "b" || Ascii.eqb c "B")%char then Some (2%Z, l')
      else None
  | _ => None
  end.

(** ** parseInt *)

(** [parseInt(s)] without a radix: leading white space is skipped, a
    sign and a [0x] prefix are read, then the longest run of digits;
    what follows the digits is ignored. [None] is NaN; the integer is
    exact. *)
Definition parseInt (s : string) : option Z :=
  let '(neg, l) := take_sign (trim_start (chars s)) in
  let '(radix, l) :=
    match take_radix_prefix false l with
    | Some (r, l') => (r, l')
    | None => (10%Z, l)
    end in
  match span_digits radix l with
  | ([], _) => None
  | (ds, _) => Some (if neg then - digits_value radix ds else digits_value radix ds)%Z
  end.

(** ** Number *)

Definition starts_with (p : string) (l : list ascii) : option (list ascii) :=
  let p := chars p in
  if decide (take (length p) l = p) then Some (drop (length p) l) else None.

(** An exponent part [e±ddd] at the head of [l]: the exponent and what
    follows; [None] when an [e] is not followed by digits. An absent
    exponent part is exponent 0. *)
Definition take_exponent (l : list ascii) : option (Z * list ascii) :=
  match l with
  | c :: l' =>
      if (Ascii.eqb c "e" || Ascii.eqb c "E")%char then
        let '(neg, l'') := take_sign l' in
        match span_digits 10 l'' with
        | ([], _) => None
        | (ds, rest) =>
            Some ((if neg then - digits_value 10 ds else digits_value 10 ds)%Z, rest)
        end
      else Some (0%Z, l)
  | [] => Some (0%Z, [])
  end.

(** An unsigned decimal literal that fills the whole of [l]:
    [Infinity], [ddd], [ddd.], [ddd.ddd], [.ddd], each of the digit
    forms with an optional exponent. *)
Definition unsigned_decimal (l : list ascii) : jsnum :=
  match starts_with "Infinity" l with
  | Some [] => Inf false
  | Some _ => NaN
  | None =>
      let '(ip, rest) := span_digits 10 l in
      let '(fp, rest) :=
        match rest with
        | "."%char :: rest' => span_digits 10 rest'
        | _ => ([], rest)
        end in
      match (ip ++ fp)%list with
      | [] => NaN
      | ds =>
          match take_exponent rest with
          | Some (e, []) =>
              Fin (inject_Z (digits_value 10 ds)
                   * Qpower (inject_Z 10) (e - Z.of_nat (length fp)))%Q
          | _ => NaN
          end
      end
  end.

Definition num_neg (n : jsnum) : jsnum :=
  match n with
  | NaN => NaN
  | Inf b => Inf (negb b)
  | Fin q => Fin (- q)%Q
  end.

(** [Number(s)] on a string: the trimmed string must be empty (zero),
    an unsigned integer with a radix prefix, or a signed decimal
    literal; anything else is NaN. *)
Definition StringToNumber (s : string) : jsnum :=
  let l := trim (chars s) in
  match l with
  | [] => Fin 0
  | _ =>
      match take_radix_prefix true l with
      | Some (radix, l') =>
          match span_digits radix l' with
          | ((_ :: _) as ds, []) => num_of_Z (digits_value radix ds)
          | _ => NaN
          end
      | None =>
          let '(neg, l') := take_sign l in
          if neg then num_neg (unsigned_decimal l') else unsigned_decimal l'
      end
  end.

(** [Number(v)]. An array converts through its string form: the empty
    array is the empty string, a one-element array is the string of its
    element ([null] and [undefined] print as the empty string, and a
    number prints to a string that reads back as itself), and a longer
    array prints with commas, which no numeric literal has. A plain
    object prints as [[object Object]]. *)
Fixpoint Number (v : jsval) : jsnum :=
  match v with
  | VUndefined => NaN
  | VNull => Fin 0
  | VBool b => if b then Fin 1 else Fin 0
  | VNum n => n
  | VStr s => StringToNumber s
  | VArr [] => Fin 0
  | VArr [x] =>
      match x with
      | VUndefined | VNull => Fin 0
      | VBool _ | VObj _ => NaN
      | _ => Number x
      end
  | VArr _ => NaN
  | VObj _ => NaN
  end.

(** [a || b] on numbers: [b] when [a] is falsy (zero or NaN). *)
Definition num_or (a b : jsnum) : jsnum :=
  if isNaN a || num_is_zero a then b else a.

(** Whether a finite number is an integer, and which. *)
Definition num_to_Z (n : jsnum) : option Z :=
  match n with
  | Fin q =>
      let r := Qred q in
      if decide (Qden r = 1%positive) then Some (Qnum r) else None
  | _ => None
  end.

(** Decimal printing of a natural number, as [String(n)] prints an
    integer below 10^21 (from there on JavaScript prints an exponent). *)
Definition show_N (n : N) : string :=
  NilEmpty.string_of_uint (N.to_uint n).

(** ** A run of digits as a number, and the number as text *)

(** What [Number] makes of a run of decimal digits: a double that is a
    natural number, or [Infinity]. *)
Inductive digits_number :=
| Whole (x : N)
| Overflow.

(** The double nearest to a natural number, ties to even, when it is
    finite: [n] is cut to its 53 leading bits and rounded. *)
Definition nearest_double (n : N) : option N :=
  let sh := (N.size n - 53)%N in
  let q := N.shiftr n sh in
  let r := (n - N.shiftl q sh)%N in
  let half := N.shiftr (N.shiftl 1 sh) 1 in
  let q' :=
    if ((half <? r) || ((r =? half) && N.odd q && (0 <? sh)))%N
    then (q + 1)%N else q in
  let x := N.shiftl q' sh in
  if (2 ^ 1024 <=? x)%N then None else Some x.

Definition Number_digits (n : N) : digits_number :=
  match nearest_double n with
  | Some x => Whole x
  | None => Overflow
  end.

(** Whether the real [y4 / 4] rounds to the double [x], for a double
    [x] of at least 53 bits: it lies between the midpoints to the
    neighbours of [x], the midpoints included when the significand of
    [x] is even. *)
Definition rounds_to (x y4 : N) : bool :=
  let sh := (N.size x - 53)%N in
  let m := N.shiftr x sh in
  let ulp := N.shiftl 1 sh in
  let lo4 := (4 * x - (if (m =? 2 ^ 52)%N then ulp else 2 * ulp))%N in
  let hi4 := (4 * x + 2 * ulp)%N in
  if N.even m then ((lo4 <=? y4) && (y4 <=? hi4))%N
  else ((lo4 <? y4) && (y4 <? hi4))%N.

Definition decimal_length (x : N) : nat := String.length (show_N x).

(** The decimals [s * 10^e] with [k] digits [s] that round to [x],
    each as [(s, 10^e)]. *)
Definition candidates (x : N) (k : nat) : list (N * N) :=
  let D := decimal_length x in
  flat_map (fun E : nat =>
              let p := (10 ^ N.of_nat E)%N in
              let s0 := (x / p)%N in
              List.filter
                (fun c : N * N =>
                   ((10 ^ N.of_nat (k - 1) <=? fst c)
                    && (fst c <? 10 ^ N.of_nat k)
                    && rounds_to x (4 * fst c * snd c))%N)
                [(s0, p); ((s0 + 1)%N, p)])
           [(D - k)%nat; (D - k + 1)%nat].

Definition distance (x : N) (c : N * N) : N :=
  let v := (fst c * snd c)%N in if (v <? x)%N then (x - v)%N else (v - x)%N.

Definition closer (x : N) (c1 c2 : N * N) : N * N :=
  if (distance x c1 <? distance x c2)%N then c1
  else if (distance x c2 <? distance x c1)%N then c2
  else if N.even (fst c1) then c1 else c2.

(** The digits [Number::toString] prints for [x]: as few as round to
    [x], and among those the closest to [x]. Seventeen always do. *)
Fixpoint shortest_from (x : N) (k fuel : nat) : N * N :=
  match fuel with
  | O => (x, 1%N)
  | S fuel' =>
      match candidates x k with
      | [] => shortest_from x (S k) fuel'
      | c :: cs => fold_left (closer x) cs c
      end
  end.

Definition shortest (x : N) : N * N := shortest_from x 1 17.

(** [String(x)] for a double that is a natural number: below 2^53 the
    number itself; from there the shortest digits, padded with zeros
    below 10^21 and in exponent form from 10^21. *)
Definition number_text (x : N) : string :=
  if (x <? 2 ^ 53)%N then show_N x
  else
    let '(s, p) := shortest x in
    if (s * p <? 10 ^ 21)%N then show_N (s * p)
    else
      match show_N s with
      | String d rest =>
          String d (if String.eqb rest "" then "" else "." ++ rest)
          ++ "e+" ++ show_N (N.of_nat (decimal_length (s * p) - 1))
      | EmptyString => ""
      end.

Definition ToString (n : digits_number) : string :=
  match n with
  | Whole x => number_text x
  | Overflow => "Infinity"
  end.

(** ** JSON *)

(** What [JSON.parse(JSON.stringify(v))] makes of a value inside an
    array or under a key: a number that is not finite becomes [null],
    an [undefined] array element becomes [null], and a key whose value
    is [undefined] is left out. *)
Fixpoint json_value (v : jsval) : jsval :=
  match v with
  | VUndefined => VNull
  | VNum (Fin _) => v
  | VNum _ => VNull
  | VArr l => VArr (map json_value l)
  | VObj m =>
      VObj (omap (fun x => match x with
                           | VUndefined => None
                           | _ => Some (json_value x)
                           end) m)
  | _ => v
  end.

End JS.
Import JS.


(* ================================================================== *)
(** * Paths and the upload filters' pattern *)
(* ================================================================== *)

Module Path.

(** The scan of [path.extname] (POSIX flavour), from the last character
    to the first. Indices are those of the source; [-1] is "unset". *)
Record ext_state := {
  startDot : Z;
  startPart : Z;
  end_ : Z;
  matchedSlash : bool;
  preDotState : Z }.

Definition ext_init : ext_state :=
  {| startDot := -1; startPart := 0; end_ := -1;
     matchedSlash := true; preDotState := 0 |}.

(** [rev_chars] holds the characters at indices [i], [i-1], ..., 0. *)
Fixpoint ext_scan (rev_chars : list ascii) (i : Z) (st : ext_state) : ext_state :=
  match rev_chars with
  | [] => st
  | c :: rest =>
      if Ascii.eqb c "/" then
        if negb (matchedSlash st) then
          {| startDot := startDot st; startPart := i + 1; end_ := end_ st;
             matchedSlash := matchedSlash st; preDotState := preDotState st |}
        else ext_scan rest (i - 1) st
      else
        let st1 :=
          if (end_ st =? -1)%Z then
            {| startDot := startDot st; startPart := startPart st; end_ := i + 1;
               matchedSlash := false; preDotState := preDotState st |}
          else st in
        let st2 :=
          if Ascii.eqb c "." then
            if (startDot st1 =? -1)%Z then
              {| startDot := i; startPart := startPart st1; end_ := end_ st1;
                 matchedSlash := matchedSlash st1; preDotState := preDotState st1 |}
            else if negb (preDotState st1 =? 1)%Z then
              {| startDot := startDot st1; startPart := startPart st1; end_ := end_ st1;
                 matchedSlash := matchedSlash st1; preDotState := 1 |}
            else st1
          else if negb (startDot st1 =? -1)%Z then
            {| startDot := startDot st1; startPart := startPart st1; end_ := end_ st1;
               matchedSlash := matchedSlash st1; preDotState := -1 |}
          else st1 in
        ext_scan rest (i - 1) st2
  end.

(** [path.slice(from, to)]. *)
Definition slice (s : string) (from to : Z) : string :=
  String.substring (Z.to_nat from) (Z.to_nat (to - from)) s.

Definition extname (path : string) : string :=
  let st := ext_scan (rev (chars path)) (Z.of_nat (String.length path) - 1) ext_init in
  if (startDot st =? -1)%Z || (end_ st =? -1)%Z || (preDotState st =? 0)%Z
     || ((preDotState st =? 1)%Z && (startDot st =? end_ st - 1)%Z
         && (startDot st =? startPart st + 1)%Z)
  then ""
  else slice path (startDot st) (end_ st).

(** [s.toLowerCase()] on ASCII letters. *)
Definition lower_char (c : ascii) : ascii :=
  let n := nat_of_ascii c in
  if ((65 <=? n) && (n <=? 90))%nat then ascii_of_nat (n + 32) else c.

Definition toLowerCase (s : string) : string :=
  string_of_list_ascii (map lower_char (chars s)).

(** [s.includes(p)]: [p] occurs somewhere in [s]. *)
Fixpoint includes (p s : string) : bool :=
  String.prefix p s
  || match s with
     | EmptyString => false
     | String _ s' => includes p s'
     end.

(** [/jpeg|jpg|png|webp/.test(s)]: the pattern is not anchored, so it
    matches when one of the four words occurs anywhere in [s]. *)
Definition allowedTypes_test (s : string) : bool :=
  includes "jpeg" s || includes "jpg" s || includes "png" s || includes "webp" s.

End Path.
Import Path.


(* ================================================================== *)
(** * Thrown errors *)
(* ================================================================== *)

Module Errors.

(** One issue of a zod validation failure. *)
Record zod_issue := {
  issue_path : list string;
  issue_message : string }.

(** What a handler can throw: a [ZodError] with all the issues found,
    or another [Error] (a [TypeError], an error of the database driver
    or of the query builder) with its message. *)
Inductive exn :=
| ZodError (errors : list zod_issue)
| Error (message : string).

(** A step that returns a value or throws. *)
Inductive result (A : Type) :=
| Ok (a : A)
| Throw (e : exn).
Arguments Ok {A} a.
Arguments Throw {A} e.

End Errors.
Import Errors.

(* ================================================================== *)
(** * The tables and the file store *)
(* ================================================================== *)

Module Db.

(** The rows of [src/db/schema.ts]. The model keeps the generated
    identities, the unique constraints, the range of the [integer]
    columns as a lookup by id and an insert meet it, the lengths of
    the [varchar(n)] columns as an insert and a category update meet
    them, and the encoding of the [jsonb] column as an insert meets
    it. The product update writes the values of the request as they
    are: the product columns are held as JavaScript values. *)

Record users_row := {
  users_id : Z;
  users_username : string;
  users_password : string }.

Record category_row := {
  category_id : Z;
  category_name : string;
  category_description : string;
  category_imageUrl : option string }.

Record product_row := {
  product_id : Z;
  product_name : string;
  product_price : option string;
  product_isContactForPrice : jsval;
  product_description : string;
  product_machineData : gmap string jsval;
  product_showInHero : jsval;
  product_heroIndex : jsval }.

(** The range of an [integer()] column. *)
Definition in_int4 (z : Z) : bool :=
  ((-2147483648 <=? z) && (z <=? 2147483647))%Z.

(** Which columns are declared [.unique()]. *)
Definition users_username_unique : bool := true.
Definition category_name_unique : bool := false.

(** The state a request runs against: the three tables the handlers
    use, the next value of the two identity sequences they insert
    through, and the files below [process.cwd()], named by their path
    relative to it. *)
Record store := {
  users : list users_row;
  category : list category_row;
  category_seq : Z;
  product : list product_row;
  product_seq : Z;
  files : gset string }.

Definition empty_store : store :=
  {| users := []; category := []; category_seq := 1;
     product := []; product_seq := 1; files := ∅ |}.

Definition set_files (st : store) (fs : gset string) : store :=
  {| users := users st; category := category st; category_seq := category_seq st;
     product := product st; product_seq := product_seq st; files := fs |}.

Definition set_category (st : store) (rows : list category_row) (seq : Z) : store :=
  {| users := users st; category := rows; category_seq := seq;
     product := product st; product_seq := product_seq st; files := files st |}.

Definition set_product (st : store) (rows : list product_row) (seq : Z) : store :=
  {| users := users st; category := category st; category_seq := category_seq st;
     product := rows; product_seq := seq; files := files st |}.

(** [select().from(category).where(eq(category.name, name)).limit(1)] *)
Definition category_by_name (st : store) (name : string) : option category_row :=
  find (fun c => String.eqb (category_name c) name) (category st).

(** The first row with the identity [id]. *)
Definition find_category (st : store) (id : Z) : option category_row :=
  find (fun c => (category_id c =? id)%Z) (category st).

Definition find_product (st : store) (id : Z) : option product_row :=
  find (fun p => (product_id p =? id)%Z) (product st).

(** The server's error for a parameter that does not fit the [integer]
    column it is compared with. *)
Definition out_of_range_message : string :=
  "value is out of range for type integer".

(** [select().from(category).where(eq(category.id, id)).limit(1)]: the
    parameter is read as a value of the column's type, and the query
    fails when it is outside the range of [integer]. *)
Definition category_by_id (st : store) (id : Z) : result (option category_row) :=
  if in_int4 id then Ok (find_category st id)
  else Throw (Error out_of_range_message).

Definition product_by_id (st : store) (id : Z) : result (option product_row) :=
  if in_int4 id then Ok (find_product st id)
  else Throw (Error out_of_range_message).

(** A value written to a [varchar(n)] column: one of more than [n]
    characters is refused, unless what exceeds [n] characters is
    spaces only, which are cut off. (A character is a character of the
    model's strings: the text is taken to be ASCII.) *)
Definition varchar (n : nat) (s : string) : option string :=
  if (String.length s <=? n)%nat then Some s
  else if forallb (fun c => Ascii.eqb c " ")
                  (chars (String.substring n (String.length s - n) s))
  then Some (String.substring 0 n s)
  else None.

Definition too_long_message (n : string) : string :=
  "value too long for type character varying(" ++ n ++ ")".

Definition users_by_username (st : store) (username : string) : option users_row :=
  find (fun u => String.eqb (users_username u) username) (users st).

(** The message of the driver's error for a violated unique constraint. *)
Definition duplicate_key_message : string :=
  "duplicate key value violates unique constraint".

(** [insert(category).values({name, description, imageUrl}).returning()]:
    the name and the description are written as [varchar(100)] and
    [varchar(300)], and the identity column takes the next value of
    its sequence. With a unique constraint on the name a taken name is
    refused. The values are bound before the statement runs, so a row
    refused for its length takes no value of the sequence. *)
Definition insert_category (st : store) (name description : string)
    (imageUrl : option string) : store * result category_row :=
  match varchar 100 name, varchar 300 description with
  | None, _ => (st, Throw (Error (too_long_message "100")))
  | _, None => (st, Throw (Error (too_long_message "300")))
  | Some name, Some description =>
      if category_name_unique
         && existsb (fun c => String.eqb (category_name c) name) (category st)
      then (st, Throw (Error duplicate_key_message))
      else
        let row := {| category_id := category_seq st; category_name := name;
                      category_description := description;
                      category_imageUrl := imageUrl |} in
        (set_category st (category st ++ [row]) (category_seq st + 1), Ok row)
  end.

(** The partial row of an update: a column is written when present. *)
Record category_set := {
  set_name : option string;
  set_description : option string;
  set_imageUrl : option string }.

Definition apply_category_set (u : category_set) (c : category_row) : category_row :=
  {| category_id := category_id c;
     category_name := default (category_name c) (set_name u);
     category_description := default (category_description c) (set_description u);
     category_imageUrl :=
       match set_imageUrl u with
       | Some url => Some url
       | None => category_imageUrl c
       end |}.

Definition category_set_empty (u : category_set) : bool :=
  match set_name u, set_description u, set_imageUrl u with
  | None, None, None => true
  | _, _, _ => false
  end.

(** The query builder's error for [set({})]. *)
Definition no_values_message : string := "No values to set".

(** A column of type [varchar(n)] in an update: written when present. *)
Definition varchar_set (n : nat) (v : option string) : option (option string) :=
  match v with
  | Some s => Some <$> varchar n s
  | None => Some None
  end.

(** [update(category).set(u).where(eq(category.id, id)).returning()]:
    the query builder throws on an update that sets no column; a name
    and a description are written as [varchar(100)] and
    [varchar(300)]; the result is the first updated row, if there is
    one. *)
Definition update_category (st : store) (id : Z) (u : category_set)
  : store * result (option category_row) :=
  if category_set_empty u then (st, Throw (Error no_values_message))
  else
    match varchar_set 100 (set_name u), varchar_set 300 (set_description u) with
    | None, _ => (st, Throw (Error (too_long_message "100")))
    | _, None => (st, Throw (Error (too_long_message "300")))
    | Some name, Some description =>
        let u := {| set_name := name; set_description := description;
                    set_imageUrl := set_imageUrl u |} in
        if category_name_unique
           && match set_name u with
              | Some name =>
                  existsb (fun c => String.eqb (category_name c) name
                                    && negb (category_id c =? id)%Z) (category st)
              | None => false
              end
        then (st, Throw (Error duplicate_key_message))
        else
          let rows := map (fun c => if (category_id c =? id)%Z
                                    then apply_category_set u c else c)
                          (category st) in
          let st' := set_category st rows (category_seq st) in
          (st', Ok (find_category st' id))
    end.

(** [delete(category).where(eq(category.id, id))] *)
Definition delete_category (st : store) (id : Z) : store :=
  set_category st (List.filter (fun c => negb (category_id c =? id)%Z) (category st))
               (category_seq st).

(** The bag as the [jsonb] column holds it: the driver writes
    [JSON.stringify(machineData)]. *)
Definition jsonb (machineData : gmap string jsval) : gmap string jsval :=
  omap (fun v => match v with
                 | VUndefined => None
                 | _ => Some (json_value v)
                 end) machineData.

(** A number written to an [integer] column: it has to be an integer
    of the column's range. *)
Definition integer_in (v : jsval) : option jsval :=
  match v with
  | VNum n =>
      match num_to_Z n with
      | Some z => if in_int4 z then Some v else None
      | None => None
      end
  | _ => None
  end.

Definition invalid_input_message (type : string) : string :=
  "invalid input syntax for type " ++ type.

Section Numeric.

(** The server's reading of a text as a value of type [numeric]: the
    text it gives back for the value, or [None] when it refuses. *)
Variable numeric_in : string -> option string.

(** [insert(product).values({...}).returning()]: the name is written
    as [varchar(100)], the price as [numeric] or NULL, the bag as
    [jsonb], the hero index as [integer], and the identity column
    takes the next value of its sequence. The row returned is the row
    stored. *)
Definition insert_product (st : store) (name : string) (description : string)
    (price : option string) (isContactForPrice : jsval)
    (machineData : gmap string jsval) (showInHero heroIndex : jsval)
  : store * result product_row :=
  match varchar 100 name with
  | None => (st, Throw (Error (too_long_message "100")))
  | Some name =>
      match match price with
            | Some text => Some <$> numeric_in text
            | None => Some None
            end with
      | None => (st, Throw (Error (invalid_input_message "numeric")))
      | Some price =>
          match integer_in heroIndex with
          | None => (st, Throw (Error (invalid_input_message "integer")))
          | Some heroIndex =>
              let row := {| product_id := product_seq st; product_name := name;
                            product_price := price;
                            product_isContactForPrice := isContactForPrice;
                            product_description := description;
                            product_machineData := jsonb machineData;
                            product_showInHero := showInHero;
                            product_heroIndex := heroIndex |} in
              (set_product st (product st ++ [row]) (product_seq st + 1), Ok row)
          end
      end
  end.

End Numeric.

Record product_set := {
  pset_name : option string;
  pset_description : option string;
  pset_price : option string;
  pset_isContactForPrice : option jsval;
  pset_showInHero : option jsval;
  pset_heroIndex : option jsval;
  pset_machineData : option (gmap string jsval) }.

Definition apply_product_set (u : product_set) (p : product_row) : product_row :=
  {| product_id := product_id p;
     product_name := default (product_name p) (pset_name u);
     product_price :=
       match pset_price u with
       | Some s => Some s
       | None => product_price p
       end;
     product_isContactForPrice :=
       default (product_isContactForPrice p) (pset_isContactForPrice u);
     product_description := default (product_description p) (pset_description u);
     product_machineData := default (product_machineData p) (pset_machineData u);
     product_showInHero := default (product_showInHero p) (pset_showInHero u);
     product_heroIndex := default (product_heroIndex p) (pset_heroIndex u) |}.

Definition product_set_empty (u : product_set) : bool :=
  match pset_name u, pset_description u, pset_price u,
        pset_isContactForPrice u, pset_showInHero u, pset_heroIndex u,
        pset_machineData u with
  | None, None, None, None, None, None, None => true
  | _, _, _, _, _, _, _ => false
  end.

Definition update_product (st : store) (id : Z) (u : product_set)
  : store * result (option product_row) :=
  if product_set_empty u then (st, Throw (Error no_values_message))
  else
    let rows := map (fun p => if (product_id p =? id)%Z
                              then apply_product_set u p else p) (product st) in
    let st' := set_product st rows (product_seq st) in
    (st', Ok (find_product st' id)).

Definition delete_product (st : store) (id : Z) : store :=
  set_product st (List.filter (fun p => negb (product_id p =? id)%Z) (product st))
              (product_seq st).

(** The path [path.join(process.cwd(), url.replace(/^\//, ""))] names,
    relative to [process.cwd()]: the URL without its first slash. The
    URLs the routes store have the form [/uploads/<kind>/<file>], on
    which the join does no further normalisation. *)
Definition image_path (url : string) : string :=
  match url with
  | String "/" rest => rest
  | _ => url
  end.

(** [if (fs.existsSync(p)) fs.unlinkSync(p)] inside a [try] whose
    [catch] only logs: the file is gone afterwards. Files are the only
    entries of the model and removing one succeeds. *)
Definition unlink_if_exists (fs : gset string) (p : string) : gset string :=
  if decide (p ∈ fs) then fs ∖ {[p]} else fs.

End Db.
Import Db.

(* ================================================================== *)
(** * Tokens *)
(* ================================================================== *)

Module Jwt.

Record JWTPayload := {
  userId : Z;
  username : string }.

(** A signed token, symbolically: the claims it carries, when it was
    issued and when it expires (in seconds), and the secret it was
    signed with. Neither the encoding nor the signature algorithm of
    the [jsonwebtoken] library is modelled. *)
Record token := {
  claims : JWTPayload;
  iat : Z;
  exp : Z;
  signed_with : string }.

(** [jwt.sign(payload, secret, { expiresIn })] at time [now]. *)
Definition sign (payload : JWTPayload) (secret : string) (expiresIn now : Z) : token :=
  {| claims := payload; iat := now; exp := now + expiresIn; signed_with := secret |}.

(** [jwt.verify(token, secret)] at time [now]: the claims, or a throw
    on a wrong signature or an expired token. *)
Definition verify (t : token) (secret : string) (now : Z) : result JWTPayload :=
  if negb (String.eqb (signed_with t) secret) then Throw (Error "invalid signature")
  else if (exp t <=? now)%Z then Throw (Error "jwt expired")
  else Ok (claims t).

(** [jwt.decode(token)]: the claims, unchecked. *)
Definition decode (t : token) : JWTPayload := claims t.

End Jwt.

(* ================================================================== *)
(** * Responses and the error wrappers *)
(* ================================================================== *)

Module Http.

Inductive StatusCodes :=
| OK | CREATED | BAD_REQUEST | UNAUTHORIZED | FORBIDDEN | NOT_FOUND
| CONFLICT | INTERNAL_SERVER_ERROR.

Definition status_number (s : StatusCodes) : Z :=
  match s with
  | OK => 200 | CREATED => 201 | BAD_REQUEST => 400 | UNAUTHORIZED => 401
  | FORBIDDEN => 403 | NOT_FOUND => 404 | CONFLICT => 409
  | INTERNAL_SERVER_ERROR => 500
  end.

(** The bodies the routes send. *)
Inductive body :=
| JError (error : string)
    (** [{ error }] *)
| JValidation (details : list (string * string))
    (** [{ error: "Validation error", details: [{ path, message }] }] *)
| JValidationIssues (details : list zod_issue)
    (** [{ error: "Validation error", details: error.errors }] *)
| JCategory (c : option category_row)
    (** a category row; [None] when the updated row is [undefined] *)
| JCategories (l : list category_row)
| JProduct (p : option product_row)
| JProductWithCategories (p : product_row) (categories : list category_row)
    (** [{ ...product, categories }] *)
| JProducts (l : list (product_row * list category_row))
| JDeleted (message : string)
    (** [{ success: true, message }] *)
| JLogin (t : Jwt.token) (id : Z) (username : string)
    (** [{ token, user: { id, username } }] *)
| Html (message : string).
    (** the page of the framework's own error handler *)

Record response := {
  status : StatusCodes;
  json : body }.

Definition respond (s : StatusCodes) (b : body) : response :=
  {| status := s; json := b |}.

(** [tryCatch] as the larger of the two error-handler modules defines
    it: a [ZodError] is a 400 with its issues, an error whose message
    mentions a duplicate key is a 409, anything else a 500. *)
Definition tryCatch (r : result response) : response :=
  match r with
  | Ok resp => resp
  | Throw (ZodError errors) => respond BAD_REQUEST (JValidationIssues errors)
  | Throw (Error message) =>
      if includes "duplicate key" message
      then respond CONFLICT (JError "Resource already exists")
      else respond INTERNAL_SERVER_ERROR (JError "Internal server error")
  end.

(** [tryCatch] as the smaller module defines it: every throw is a 500. *)
Definition tryCatch_plain (r : result response) : response :=
  match r with
  | Ok resp => resp
  | Throw _ => respond INTERNAL_SERVER_ERROR (JError "Internal server error")
  end.

(** An error passed to [next] with no error middleware installed
    reaches the framework's final handler; the errors of this program
    carry no status of their own, so the response is a 500. *)
Definition default_error_handler (message : string) : response :=
  respond INTERNAL_SERVER_ERROR (Html message).

(** [/^\d+$/.test(s)] *)
Definition all_digits (s : string) : bool :=
  negb (String.eqb s "")
  && forallb (fun c => let n := nat_of_ascii c in (48 <=? n)%nat && (n <=? 57)%nat)
             (chars s).

(** [z.object({ id: z.string().regex(/^\d+$/).transform(Number) })]
    applied to the route parameters: the number, or the issue of the
    failed pattern. Both routers define their id schema this way. *)
Definition idSchema_parse (id : string) : result digits_number :=
  if all_digits id
  then Ok (Number_digits (Z.to_N (digits_value 10 (fst (span_digits 10 (chars id))))))
  else Throw (ZodError [{| issue_path := ["id"]; issue_message := "Invalid" |}]).

(** [err.path.join(".")] *)
Definition join_path (path : list string) : string :=
  match path with
  | [] => ""
  | p :: ps => fold_left (fun acc q => acc ++ "." ++ q) ps p
  end.

(** [validateRequest({ params: schema })]: the parsed parameters
    replace the raw ones and the request goes on, or the middleware
    answers 400 with every issue. *)
Definition validateRequest (parse : string -> result digits_number) (id : string)
  : response + digits_number :=
  match parse id with
  | Ok n => inr n
  | Throw (ZodError errors) =>
      inl (respond BAD_REQUEST
             (JValidation (map (fun e => (join_path (issue_path e), issue_message e))
                               errors)))
  | Throw (Error message) => inl (default_error_handler message)
  end.

End Http.
Import Http.

(* ================================================================== *)
(** * The upload middleware *)
(* ================================================================== *)

Module Multer.

(** A file part of a multipart request. [uuid] is the value [uuidv4()]
    yields when the storage engine names this file. *)
Record file_part := {
  fieldname : string;
  originalname : string;
  mimetype : string;
  size : N;
  uuid : string }.

(** A stored file, as the handlers see it in [req.file] / [req.files]. *)
Record File := {
  file_fieldname : string;
  file_originalname : string;
  file_filename : string;
  file_path : string }.

(** The three ways a [fileFilter] answers: [cb(null, true)],
    [cb(null, false)], [cb(new Error(message))]. *)
Inductive verdict :=
| Include
| Skip
| Refuse (message : string).

Inductive upload_error :=
| MulterError (code : string)
| OtherError (message : string).

Definition error_message (e : upload_error) : string :=
  match e with
  | MulterError code =>
      if String.eqb code "LIMIT_FILE_SIZE" then "File too large"
      else if String.eqb code "LIMIT_FILE_COUNT" then "Too many files"
      else if String.eqb code "LIMIT_UNEXPECTED_FILE" then "Unexpected field"
      else code
  | OtherError message => message
  end.

Record options := {
  destination : string;          (** directory, relative to [process.cwd()] *)
  fileSize : N;                  (** [limits.fileSize] *)
  files_limit : option nat;      (** [limits.files] *)
  fileFilter : file_part -> verdict;
  field : string;                (** the one field files are accepted from *)
  maxCount : nat }.

(** [filename]: [`${uuidv4()}${path.extname(file.originalname)}`] *)
Definition filename (p : file_part) : string :=
  uuid p ++ extname (originalname p).

Definition store_file (o : options) (p : file_part) : File :=
  {| file_fieldname := fieldname p;
     file_originalname := originalname p;
     file_filename := filename p;
     file_path := destination o ++ "/" ++ filename p |}.

(** On an error the middleware removes the files it has written for
    the request before passing the error on. *)
Definition abort (fs : gset string) (written : list File) (e : upload_error)
  : gset string * (upload_error + list File) :=
  (fs ∖ list_to_set (map file_path written), inl e).

(** The file parts in arrival order. [seen] counts the parts so far
    (for [limits.files]), [left] what the field may still take, and
    [written] holds the files stored so far, latest first. A part
    without a file name is passed over; a part of another field or
    beyond the field's count is an unexpected file, and this is
    decided before the filter is asked; a file the filter skips is not
    written; a file whose size reaches the size limit aborts the
    request. *)
Fixpoint receive (o : options) (parts : list file_part) (seen left : nat)
    (written : list File) (fs : gset string)
  : gset string * (upload_error + list File) :=
  match parts with
  | [] => (fs, inr (rev written))
  | p :: rest =>
      if match files_limit o with
         | Some n => (n <=? seen)%nat
         | None => false
         end
      then abort fs written (MulterError "LIMIT_FILE_COUNT")
      else if String.eqb (originalname p) "" then
        receive o rest (S seen) left written fs
      else if negb (String.eqb (fieldname p) (field o)) || (left =? 0)%nat then
        abort fs written (MulterError "LIMIT_UNEXPECTED_FILE")
      else
        match fileFilter o p with
        | Refuse message => abort fs written (OtherError message)
        | Skip => receive o rest (S seen) (left - 1) written fs
        | Include =>
            if (fileSize o <=? size p)%N then
              abort fs written (MulterError "LIMIT_FILE_SIZE")
            else
              let f := store_file o p in
              receive o rest (S seen) (left - 1) (f :: written)
                      ({[file_path f]} ∪ fs)
        end
  end.

(** [multer(o).array(field, maxCount)] on the file parts of a request. *)
Definition array (o : options) (parts : list file_part) (fs : gset string)
  : gset string * (upload_error + list File) :=
  receive o parts 0 (maxCount o) [] fs.

(** [multer(o).single(field)]: at most one file, in [req.file]. *)
Definition single (o : options) (parts : list file_part) (fs : gset string)
  : gset string * (upload_error + option File) :=
  match receive o parts 0 1 [] fs with
  | (fs', inl e) => (fs', inl e)
  | (fs', inr fl) => (fs', inr (head fl))
  end.

End Multer.

(* ================================================================== *)
(** * The category router *)
(* ================================================================== *)

Module Categories.

Definition IMAGE_URL_PREFIX : string := "/uploads/categories".

(** The [fileFilter] of the category uploads: the file passes when the
    pattern matches both the lower-cased extension and the MIME type,
    and is refused with an error otherwise. *)
Definition fileFilter (file : Multer.file_part) : Multer.verdict :=
  let extname := allowedTypes_test (toLowerCase (extname (Multer.originalname file))) in
  let mimetype := allowedTypes_test (Multer.mimetype file) in
  if extname && mimetype then Multer.Include
  else Multer.Refuse "Only image files (jpeg, jpg, png, webp) are allowed".

(** [multer({ storage, limits: { fileSize: 5 * 1024 * 1024 }, fileFilter })],
    used as [upload.single("image")]. *)
Definition upload : Multer.options :=
  {| Multer.destination := "uploads/categories";
     Multer.fileSize := 5 * 1024 * 1024;
     Multer.files_limit := None;
     Multer.fileFilter := fileFilter;
     Multer.field := "image";
     Multer.maxCount := 1 |}.

(** A request to the router: the [:id] parameter (unused by the routes
    without one), the text fields of the body, absent or a string, and
    the file parts of a multipart body. *)
Record request := {
  params_id : string;
  body_name : option string;
  body_description : option string;
  file_parts : list Multer.file_part }.

Definition image_url (file : Multer.File) : string :=
  IMAGE_URL_PREFIX ++ "/" ++ Multer.file_filename file.

(** ** POST / *)

Definition create_handler (st : store) (req : request) (file : option Multer.File)
  : store * result response :=
  if negb (truthy_text (body_name req)) || negb (truthy_text (body_description req))
  then (st, Ok (respond BAD_REQUEST (JError "Name and description are required")))
  else
    let name := default "" (body_name req) in
    let description := default "" (body_description req) in
    match category_by_name st name with
    | Some _ => (st, Ok (respond CONFLICT (JError "Category already exists")))
    | None =>
        let imageUrl := image_url <$> file in
        match insert_category st name description imageUrl with
        | (st', Ok newCategory) =>
            (st', Ok (respond CREATED (JCategory (Some newCategory))))
        | (st', Throw e) => (st', Throw e)
        end
    end.

(** The upload middleware runs first and hands its error to the
    framework; the handler runs inside [tryCatch]. *)
Definition post (st : store) (req : request) : store * response :=
  match Multer.single upload (file_parts req) (files st) with
  | (fs, inl e) =>
      (set_files st fs, default_error_handler (Multer.error_message e))
  | (fs, inr file) =>
      let '(st', r) := create_handler (set_files st fs) req file in
      (st', tryCatch r)
  end.

(** ** GET / *)

Definition list_handler (st : store) : store * result response :=
  (st, Ok (respond OK (JCategories (category st)))).

Definition get_all (st : store) : store * response :=
  let '(st', r) := list_handler st in (st', tryCatch r).

(** ** GET /:id *)

Definition get_handler (st : store) (req : request) : store * result response :=
  match parseInt (params_id req) with
  | None => (st, Ok (respond BAD_REQUEST (JError "Invalid category ID format")))
  | Some id =>
      match category_by_id st id with
      | Throw e => (st, Throw e)
      | Ok None => (st, Ok (respond NOT_FOUND (JError "Category not found")))
      | Ok (Some found) => (st, Ok (respond OK (JCategory (Some found))))
      end
  end.

Definition get (st : store) (req : request) : store * response :=
  let '(st', r) := get_handler st req in (st', tryCatch r).

(** ** PUT /:id *)

Definition update_handler (st : store) (req : request) (file : option Multer.File)
  : store * result response :=
  match parseInt (params_id req) with
  | None => (st, Ok (respond BAD_REQUEST (JError "Invalid category ID format")))
  | Some id =>
      match category_by_id st id with
      | Throw e => (st, Throw e)
      | Ok None => (st, Ok (respond NOT_FOUND (JError "Category not found")))
      | Ok (Some existing) =>
          let name := if truthy_text (body_name req) then body_name req else None in
          let description :=
            if truthy_text (body_description req) then body_description req else None in
          let fs :=
            match file, category_imageUrl existing with
            | Some _, Some old =>
                if truthy_text (Some old)
                then unlink_if_exists (files st) (image_path old)
                else files st
            | _, _ => files st
            end in
          let updateData :=
            {| set_name := name; set_description := description;
               set_imageUrl := image_url <$> file |} in
          match update_category (set_files st fs) id updateData with
          | (st', Ok updated) => (st', Ok (respond OK (JCategory updated)))
          | (st', Throw e) => (st', Throw e)
          end
      end
  end.

Definition put (st : store) (req : request) : store * response :=
  match Multer.single upload (file_parts req) (files st) with
  | (fs, inl e) =>
      (set_files st fs, default_error_handler (Multer.error_message e))
  | (fs, inr file) =>
      let '(st', r) := update_handler (set_files st fs) req file in
      (st', tryCatch r)
  end.

(** ** DELETE /:id *)

(** The parameter has been replaced by the number the schema produced;
    [parseInt] reads it back from its text, which is in exponent form
    from 10^21 and [Infinity] beyond the doubles. A NaN is no value
    of the column the query compares it with. *)
Definition delete_handler (st : store) (id_param : digits_number)
  : store * result response :=
  match parseInt (ToString id_param) with
  | None => (st, Throw (Error (invalid_input_message "integer")))
  | Some id =>
      match category_by_id st id with
      | Throw e => (st, Throw e)
      | Ok None => (st, Ok (respond NOT_FOUND (JError "Category not found")))
      | Ok (Some found) =>
          let fs :=
            match category_imageUrl found with
            | Some url =>
                if truthy_text (Some url)
                then unlink_if_exists (files st) (image_path url)
                else files st
            | None => files st
            end in
          let st' := delete_category (set_files st fs) id in
          (st', Ok (respond OK
                      (JDeleted ("Successfully deleted '" ++ category_name found ++ "'"))))
      end
  end.

Definition categoryIdSchema : string -> result digits_number := idSchema_parse.

(** The router imports [validateRequest] from
    [middlewares/category.middleware]; the definition used is the one
    of [middlewares/validate.middleware], which also exports it under
    the name [validateCategoryRequest]. *)
Definition delete (st : store) (req : request) : store * response :=
  match validateRequest categoryIdSchema (params_id req) with
  | inl resp => (st, resp)
  | inr n =>
      let '(st', r) := delete_handler st n in (st', tryCatch r)
  end.

End Categories.

(* ================================================================== *)
(** * The product router *)
(* ================================================================== *)

Module Products.

Definition IMAGE_URL_PREFIX : string := "/uploads/products".

(** The [fileFilter] of the product uploads: a file that does not pass
    is left out of the request, without an error. *)
Definition fileFilter (file : Multer.file_part) : Multer.verdict :=
  let extname := allowedTypes_test (toLowerCase (extname (Multer.originalname file))) in
  let mimetype := allowedTypes_test (Multer.mimetype file) in
  if extname && mimetype then Multer.Include else Multer.Skip.

(** [multer({ storage, limits: { fileSize: 5 * 1024 * 1024, files: 10 },
    fileFilter }).array('images', 10)] *)
Definition upload : Multer.options :=
  {| Multer.destination := "uploads/products";
     Multer.fileSize := 5 * 1024 * 1024;
     Multer.files_limit := Some 10%nat;
     Multer.fileFilter := fileFilter;
     Multer.field := "images";
     Multer.maxCount := 10 |}.

(** A request to the router. The text fields are absent or a string;
    the fields the handlers test against both strings and other values
    are JavaScript values, [VUndefined] when absent. *)
Record request := {
  params_id : string;
  body_name : option string;
  body_description : option string;
  body_price : option string;
  body_isContactForPrice : jsval;
  body_showInHero : jsval;
  body_heroIndex : jsval;
  body_machineData : option string;
  body_categoryIds : jsval;
  file_parts : list Multer.file_part }.

Definition image_url (file : Multer.File) : string :=
  IMAGE_URL_PREFIX ++ "/" ++ Multer.file_filename file.

(** The wrapper around [upload]: a [MulterError] is answered with 400,
    another error with 500, and otherwise the request goes on. *)
Definition upload_step (st : store) (req : request)
  : store * (response + list Multer.File) :=
  match Multer.array upload (file_parts req) (files st) with
  | (fs, inl (Multer.MulterError code)) =>
      (set_files st fs,
       inl (respond BAD_REQUEST
              (JError ("Upload error: "
                       ++ Multer.error_message (Multer.MulterError code)))))
  | (fs, inl (Multer.OtherError message)) =>
      (set_files st fs,
       inl (respond INTERNAL_SERVER_ERROR (JError ("Unknown error: " ++ message))))
  | (fs, inr uploaded) => (set_files st fs, inr uploaded)
  end.

(** Decimal printing of an integer. *)
Definition show_Z (z : Z) : string :=
  if (z <? 0)%Z then "-" ++ show_N (Z.to_N (- z)) else show_N (Z.to_N z).

(** The own enumerable properties an object spread [{ ...v }] copies:
    those of an object, the elements of an array and the characters of
    a string under their indices, nothing for the other values. *)
Definition own_properties (v : jsval) : gmap string jsval :=
  match v with
  | VObj m => m
  | VArr l => list_to_map (imap (fun i x => (show_N (N.of_nat i), x)) l)
  | VStr s =>
      list_to_map (imap (fun i c => (show_N (N.of_nat i), VStr (String c ""))) (chars s))
  | _ => ∅
  end.

(** [x === 'true' || x === true || false] *)
Definition true_or_string_true (x : jsval) : bool :=
  match x with
  | VStr s => String.eqb s "true"
  | VBool b => b
  | _ => false
  end.

(** [ids.map(Number).filter((id) => !isNaN(id))] *)
Definition to_category_ids (ids : list jsval) : list jsnum :=
  List.filter (fun id => negb (isNaN id)) (map Number ids).

(** ** Resolving the categories of a product *)

(** [machineData.categories?.includes(cat.id)], the test of the list
    route's filter: nothing is included when the entry is missing or
    [null]; an array is searched for a number equal to the id; a
    string is searched for the id's decimal form; any other value has
    no [includes] method and the call throws. *)
Definition includes_id (categories : option jsval) (id : Z) : result bool :=
  match categories with
  | None | Some VUndefined | Some VNull => Ok false
  | Some (VArr l) => Ok (existsb (fun v => strict_eq_num v id) l)
  | Some (VStr s) => Ok (includes (show_Z id) s)
  | Some _ => Throw (Error "machineData.categories?.includes is not a function")
  end.

(** [rows.filter(test)] with a test that can throw. *)
Fixpoint filter_rows {A : Type} (test : A -> result bool) (rows : list A)
  : result (list A) :=
  match rows with
  | [] => Ok []
  | x :: rest =>
      match test x with
      | Throw e => Throw e
      | Ok b =>
          match filter_rows test rest with
          | Throw e => Throw e
          | Ok kept => Ok (if b then x :: kept else kept)
          end
      end
  end.

(** [rows.map(f)] with an [f] that can throw. *)
Fixpoint map_rows {A B : Type} (f : A -> result B) (rows : list A)
  : result (list B) :=
  match rows with
  | [] => Ok []
  | x :: rest =>
      match f x with
      | Throw e => Throw e
      | Ok y =>
          match map_rows f rest with
          | Throw e => Throw e
          | Ok ys => Ok (y :: ys)
          end
      end
  end.

(** The categories of one product as the list route resolves them:
    [categories.filter(cat => machineData.categories?.includes(cat.id))]. *)
Definition resolve_by_filter (categories : list category_row) (prod : product_row)
  : result (list category_row) :=
  filter_rows (fun cat => includes_id (product_machineData prod !! "categories")
                                      (category_id cat))
              categories.

(** A value bound as a parameter to a comparison with an integer
    column reaches the server as text and is read as a 32-bit integer:
    [null] stays NULL, a number is read when it is an integer in range,
    a string when it is a decimal integer in range (white space around
    it allowed); everything else is refused by the server. *)
Inductive int4_param :=
| PInt (z : Z)
| PNull
| PInvalid.

Definition decimal_integer (s : string) : option Z :=
  let '(neg, l) := take_sign (trim (chars s)) in
  match span_digits 10 l with
  | ((_ :: _) as ds, []) =>
      Some (if neg then - digits_value 10 ds else digits_value 10 ds)%Z
  | _ => None
  end.

Definition to_int4_param (v : jsval) : int4_param :=
  match v with
  | VUndefined | VNull => PNull
  | VNum n =>
      match num_to_Z n with
      | Some z => if in_int4 z then PInt z else PInvalid
      | None => PInvalid
      end
  | VStr s =>
      match decimal_integer s with
      | Some z => if in_int4 z then PInt z else PInvalid
      | None => PInvalid
      end
  | _ => PInvalid
  end.

Definition param_matches (id : Z) (p : int4_param) : bool :=
  match p with
  | PInt z => (id =? z)%Z
  | _ => false
  end.

Definition invalid_integer_message : string :=
  "invalid input syntax for type integer".

(** [select().from(category).where(inArray(category.id, values))] on
    an array of values: the rows whose id is among the parameters, or
    the server's error when a parameter does not read as an integer. *)
Definition category_in_array (st : store) (values : list jsval)
  : result (list category_row) :=
  let params := map to_int4_param values in
  if existsb (fun p => match p with PInvalid => true | _ => false end) params
  then Throw (Error invalid_integer_message)
  else Ok (List.filter (fun cat => existsb (param_matches (category_id cat)) params)
                  (category st)).

(** The categories of one product as the by-id route resolves them:
    when [machineData.categories?.length] is truthy, the rows selected
    by [inArray(category.id, machineData.categories)], and no rows
    otherwise. Only an array makes a parenthesised list of parameters;
    for another value with a truthy length the query is not well
    formed and the driver throws. *)
Definition resolve_by_inArray (st : store) (prod : product_row)
  : result (list category_row) :=
  match product_machineData prod !! "categories" with
  | Some (VArr l) =>
      match l with
      | [] => Ok []
      | _ => category_in_array st l
      end
  | Some (VStr s) =>
      if String.eqb s "" then Ok [] else Throw (Error "syntax error at or near $1")
  | Some (VObj m) =>
      if truthy (default VUndefined (m !! "length"))
      then Throw (Error "syntax error at or near $1")
      else Ok []
  | _ => Ok []
  end.

Section WithJSON.

(** [JSON.parse], which the handlers call inside [try] blocks: the
    value of a JSON text, or a throw on a text that is not JSON. *)
Variable JSON_parse : string -> result jsval.

(** The server's reading of a [numeric] literal, for the price. *)
Variable numeric_in : string -> option string.

(** [(Array.isArray(categoryIds) ? categoryIds : JSON.parse(categoryIds))
    .map(Number).filter(...)] inside its [try]: [None] stands for the
    [catch]. A value that is neither an array nor a string goes
    through [JSON.parse] as its string form, which is not JSON or is
    JSON for a value without a [map] method: the [catch] either way. *)
Definition parse_category_ids (categoryIds : jsval) : option (list jsnum) :=
  match categoryIds with
  | VArr l => Some (to_category_ids l)
  | VStr s =>
      match JSON_parse s with
      | Ok (VArr l) => Some (to_category_ids l)
      | _ => None
      end
  | _ => None
  end.

(** ** POST / *)

(** [machineData ? JSON.parse(machineData) : {}] inside its [try]. *)
Definition create_machineData (machineData : option string) : result jsval :=
  if truthy_text machineData then JSON_parse (default "" machineData)
  else Ok (VObj ∅).

(** [categoryIds ? (...).map(Number).filter(...) : []] inside its
    [try]; [None] stands for the [catch]. *)
Definition create_categoryIds (categoryIds : jsval) : option (list jsnum) :=
  if truthy categoryIds then parse_category_ids categoryIds else Some [].

Definition create_handler (st : store) (req : request) (uploaded : list Multer.File)
  : store * result response :=
  if negb (truthy_text (body_name req)) || negb (truthy_text (body_description req))
  then (st, Ok (respond BAD_REQUEST (JError "Name and description are required")))
  else
    let name := default "" (body_name req) in
    let description := default "" (body_description req) in
    let imageUrls := map image_url uploaded in
    match create_machineData (body_machineData req) with
    | Throw _ => (st, Ok (respond BAD_REQUEST (JError "Invalid machine data format")))
    | Ok parsedMachineData =>
        match create_categoryIds (body_categoryIds req) with
        | None => (st, Ok (respond BAD_REQUEST (JError "Invalid category IDs format")))
        | Some parsedCategoryIds =>
            match insert_product numeric_in st name description
                    (if truthy_text (body_price req) then body_price req else None)
                    (VBool (true_or_string_true (body_isContactForPrice req)))
                    (<["categories" := VArr (map VNum parsedCategoryIds)]>
                       (<["images" := VArr (map VStr imageUrls)]>
                          (own_properties parsedMachineData)))
                    (VBool (true_or_string_true (body_showInHero req)))
                    (VNum (num_or (Number (body_heroIndex req)) (Fin 0))) with
            | (st', Ok newProduct) =>
                (st', Ok (respond CREATED (JProduct (Some newProduct))))
            | (st', Throw e) => (st', Throw e)
            end
        end
    end.

Definition post (st : store) (req : request) : store * response :=
  match upload_step st req with
  | (st1, inl resp) => (st1, resp)
  | (st1, inr uploaded) =>
      let '(st', r) := create_handler st1 req uploaded in (st', tryCatch r)
  end.

(** ** GET / *)

Definition list_handler (st : store) : store * result response :=
  match map_rows (fun prod =>
                    match resolve_by_filter (category st) prod with
                    | Ok productCategories => Ok (prod, productCategories)
                    | Throw e => Throw e
                    end) (product st) with
  | Ok productsWithCategories =>
      (st, Ok (respond OK (JProducts productsWithCategories)))
  | Throw e => (st, Throw e)
  end.

Definition get_all (st : store) : store * response :=
  let '(st', r) := list_handler st in (st', tryCatch r).

(** ** GET /:id *)

Definition get_handler (st : store) (req : request) : store * result response :=
  match parseInt (params_id req) with
  | None => (st, Ok (respond BAD_REQUEST (JError "Invalid product ID format")))
  | Some id =>
      match product_by_id st id with
      | Throw e => (st, Throw e)
      | Ok None => (st, Ok (respond NOT_FOUND (JError "Product not found")))
      | Ok (Some found) =>
          match resolve_by_inArray st found with
          | Ok productCategories =>
              (st, Ok (respond OK (JProductWithCategories found productCategories)))
          | Throw e => (st, Throw e)
          end
      end
  end.

Definition get (st : store) (req : request) : store * response :=
  let '(st', r) := get_handler st req in (st', tryCatch r).

(** ** PUT /:id *)

(** A field that is written when it is not [undefined]. *)
Definition defined (v : jsval) : option jsval :=
  match v with
  | VUndefined => None
  | _ => Some v
  end.

(** The merged attribute bag:
    [{ ...existing, ...parsedMachineData,
       ...(parsedCategoryIds !== undefined && { categories: parsedCategoryIds }) }] *)
Definition merge_machineData (existing : gmap string jsval)
    (parsedMachineData : option jsval) (parsedCategoryIds : option (list jsnum))
  : gmap string jsval :=
  let merged :=
    match parsedMachineData with
    | Some v => own_properties v ∪ existing
    | None => existing
    end in
  match parsedCategoryIds with
  | Some ids => <["categories" := VArr (map VNum ids)]> merged
  | None => merged
  end.

(** [if (machineData !== undefined) parsedMachineData = JSON.parse(machineData)]
    inside its [try]: [Ok None] when the field is absent. *)
Definition update_machineData (machineData : option string) : result (option jsval) :=
  match machineData with
  | Some text =>
      match JSON_parse text with
      | Ok v => Ok (Some v)
      | Throw e => Throw e
      end
  | None => Ok None
  end.

(** [if (categoryIds !== undefined) parsedCategoryIds = (...)] inside
    its [try]: [None] stands for the [catch], [Some None] for an
    absent field. *)
Definition update_categoryIds (categoryIds : jsval) : option (option (list jsnum)) :=
  match categoryIds with
  | VUndefined => Some None
  | ids => Some <$> parse_category_ids ids
  end.

Definition updateData (req : request) (existing : product_row)
    (parsedMachineData : option jsval) (parsedCategoryIds : option (list jsnum))
  : product_set :=
  {| pset_name := if truthy_text (body_name req) then body_name req else None;
     pset_description :=
       if truthy_text (body_description req) then body_description req else None;
     pset_price := body_price req;
     pset_isContactForPrice := defined (body_isContactForPrice req);
     pset_showInHero := defined (body_showInHero req);
     pset_heroIndex := defined (body_heroIndex req);
     pset_machineData :=
       match parsedMachineData, parsedCategoryIds with
       | None, None => None
       | _, _ =>
           Some (merge_machineData (product_machineData existing)
                                   parsedMachineData parsedCategoryIds)
       end |}.

Definition update_handler (st : store) (req : request) : store * result response :=
  match parseInt (params_id req) with
  | None => (st, Ok (respond BAD_REQUEST (JError "Invalid product ID format")))
  | Some id =>
      match product_by_id st id with
      | Throw e => (st, Throw e)
      | Ok None => (st, Ok (respond NOT_FOUND (JError "Product not found")))
      | Ok (Some existing) =>
          match update_machineData (body_machineData req) with
          | Throw _ =>
              (st, Ok (respond BAD_REQUEST (JError "Invalid machine data format")))
          | Ok parsedMachineData =>
              match update_categoryIds (body_categoryIds req) with
              | None =>
                  (st, Ok (respond BAD_REQUEST (JError "Invalid category IDs format")))
              | Some parsedCategoryIds =>
                  match update_product st id
                          (updateData req existing parsedMachineData
                                      parsedCategoryIds) with
                  | (st', Ok updated) => (st', Ok (respond OK (JProduct updated)))
                  | (st', Throw e) => (st', Throw e)
                  end
              end
          end
      end
  end.

Definition put (st : store) (req : request) : store * response :=
  match upload_step st req with
  | (st1, inl resp) => (st1, resp)
  | (st1, inr _) =>
      let '(st', r) := update_handler st1 req in (st', tryCatch r)
  end.

End WithJSON.

(** ** DELETE /:id *)

Definition delete_handler (st : store) (id_param : digits_number)
  : store * result response :=
  match parseInt (ToString id_param) with
  | None => (st, Throw (Error invalid_integer_message))
  | Some id =>
      match product_by_id st id with
      | Throw e => (st, Throw e)
      | Ok None => (st, Ok (respond NOT_FOUND (JError "Product not found")))
      | Ok (Some found) =>
          (delete_product st id,
           Ok (respond OK
                 (JDeleted ("Successfully deleted '" ++ product_name found ++ "'"))))
      end
  end.

Definition productIdSchema : string -> result digits_number := idSchema_parse.

Definition delete (st : store) (req : request) : store * response :=
  match validateRequest productIdSchema (params_id req) with
  | inl resp => (st, resp)
  | inr n =>
      let '(st', r) := delete_handler st n in (st', tryCatch r)
  end.

End Products.

(* ================================================================== *)
(** * The login route *)
(* ================================================================== *)

Module Auth.

(** The name zod gives to the type of a value in its messages. *)
Definition parsed_type (v : jsval) : string :=
  match v with
  | VUndefined => "undefined"
  | VNull => "null"
  | VBool _ => "boolean"
  | VNum NaN => "nan"
  | VNum _ => "number"
  | VStr _ => "string"
  | VArr _ => "array"
  | VObj _ => "object"
  end.

(** [z.string().min(min, message)] on the field [key]: its issues. *)
Definition string_min (key : string) (min : nat) (message : string) (v : jsval)
  : list zod_issue :=
  match v with
  | VStr s =>
      if (String.length s <? min)%nat
      then [{| issue_path := [key]; issue_message := message |}]
      else []
  | VUndefined => [{| issue_path := [key]; issue_message := "Required" |}]
  | _ => [{| issue_path := [key];
             issue_message := "Expected string, received " ++ parsed_type v |}]
  end.

(** The body of a login request and the clock, in seconds, at which
    it is served. *)
Record request := {
  body_username : jsval;
  body_password : jsval;
  now : Z }.

(** [authSchema.parse(req.body)]: both fields, or a [ZodError] with
    the issues of both. *)
Definition authSchema_parse (req : request) : result (string * string) :=
  match (string_min "username" 3 "Username must be at least 3 characters"
                    (body_username req)
         ++ string_min "password" 6 "Password must be at least 6 characters"
                       (body_password req))%list,
        body_username req, body_password req with
  | [], VStr username, VStr password => Ok (username, password)
  | errors, _, _ => Throw (ZodError errors)
  end.

Section WithEnvironment.

(** [process.env.JWT_SECRET], when set. *)
Variable env_JWT_SECRET : option string.

(** [bcrypt.compare(password, hash)] *)
Variable bcrypt_compare : string -> string -> bool.

Definition JWT_SECRET : string :=
  if truthy_text env_JWT_SECRET then default "" env_JWT_SECRET else "your-secret-key".

(** [jwt.sign({ userId, username }, JWT_SECRET, { expiresIn: "24h" })] *)
Definition generateToken (userId : Z) (username : string) (now : Z) : Jwt.token :=
  Jwt.sign {| Jwt.userId := userId; Jwt.username := username |}
           JWT_SECRET (24 * 60 * 60) now.

Definition login_handler (st : store) (req : request) : store * result response :=
  match authSchema_parse req with
  | Throw e => (st, Throw e)
  | Ok (username, password) =>
      match users_by_username st username with
      | None => (st, Ok (respond UNAUTHORIZED (JError "Invalid credentials")))
      | Some existingUser =>
          if negb (bcrypt_compare password (users_password existingUser))
          then (st, Ok (respond UNAUTHORIZED (JError "Invalid credentials")))
          else
            let token := generateToken (users_id existingUser)
                                       (users_username existingUser) (now req) in
            (st, Ok (respond OK (JLogin token (users_id existingUser)
                                        (users_username existingUser))))
      end
  end.

Definition login (st : store) (req : request) : store * response :=
  let '(st', r) := login_handler st req in (st', tryCatch r).

(** The same route under the smaller error wrapper. *)
Definition login_plain (st : store) (req : request) : store * response :=
  let '(st', r) := login_handler st req in (st', tryCatch_plain r).

End WithEnvironment.

End Auth.

(* ================================================================== *)
(** * The application and its reachable stores *)
(* ================================================================== *)

Module App.

(** The routes [src/index.ts] mounts. *)
Inductive call :=
| CategoriesPost (req : Categories.request)
| CategoriesGetAll
| CategoriesGet (req : Categories.request)
| CategoriesPut (req : Categories.request)
| CategoriesDelete (req : Categories.request)
| ProductsPost (req : Products.request)
| ProductsGetAll
| ProductsGet (req : Products.request)
| ProductsPut (req : Products.request)
| ProductsDelete (req : Products.request).

Section WithJSON.

Variable JSON_parse : string -> result jsval.
Variable numeric_in : string -> option string.

Definition serve (st : store) (c : call) : store * response :=
  match c with
  | CategoriesPost req => Categories.post st req
  | CategoriesGetAll => Categories.get_all st
  | CategoriesGet req => Categories.get st req
  | CategoriesPut req => Categories.put st req
  | CategoriesDelete req => Categories.delete st req
  | ProductsPost req => Products.post JSON_parse numeric_in st req
  | ProductsGetAll => Products.get_all st
  | ProductsGet req => Products.get st req
  | ProductsPut req => Products.put JSON_parse st req
  | ProductsDelete req => Products.delete st req
  end.

(** The stores the application can be in, starting from empty tables. *)
Inductive reachable : store -> Prop :=
| reachable_empty : reachable empty_store
| reachable_serve st c : reachable st -> reachable (fst (serve st c)).

End WithJSON.

(** The identities in a table are distinct and below the sequence. *)
Definition identities_ok (st : store) : Prop :=
  NoDup (map category_id (category st))
  /\ List.Forall (fun c => (category_id c < category_seq st)%Z) (category st)
  /\ NoDup (map product_id (product st))
  /\ List.Forall (fun p => (product_id p < product_seq st)%Z) (product st).

End App.

(* ================================================================== *)
(** * Notions the statements use *)
(* ================================================================== *)

(** The test both filters apply to a file part. *)
Definition passes_filter (p : Multer.file_part) : bool :=
  allowedTypes_test (toLowerCase (extname (Multer.originalname p)))
  && allowedTypes_test (Multer.mimetype p).

Definition without_files (req : Products.request) : Products.request :=
  {| Products.params_id := Products.params_id req;
     Products.body_name := Products.body_name req;
     Products.body_description := Products.body_description req;
     Products.body_price := Products.body_price req;
     Products.body_isContactForPrice := Products.body_isContactForPrice req;
     Products.body_showInHero := Products.body_showInHero req;
     Products.body_heroIndex := Products.body_heroIndex req;
     Products.body_machineData := Products.body_machineData req;
     Products.body_categoryIds := Products.body_categoryIds req;
     Products.file_parts := [] |}.

(** A number that reads as a 32-bit integer. *)
Definition int4_number (v : jsval) : Prop :=
  exists n z, v = VNum n /\ num_to_Z n = Some z /\ in_int4 z = true.

(** The keys of the bag an update payload supplies: the own
    properties of the parsed [machineData] field, and [categories]
    when the [categoryIds] field is supplied. *)
Definition payload_has_key (JSON_parse : string -> result jsval)
    (req : Products.request) (k : string) : Prop :=
  (exists text v, Products.body_machineData req = Some text /\ JSON_parse text = Ok v
                  /\ is_Some (Products.own_properties v !! k))
  \/ (k = "categories" /\ Products.body_categoryIds req <> VUndefined).

(** What an update leaves of a row: its id, and the entries of its bag
    under the keys the payload does not supply. *)
Definition bag_preserved (JSON_parse : string -> result jsval)
    (req : Products.request) (before after : product_row) : Prop :=
  product_id after = product_id before
  /\ forall k, ~ payload_has_key JSON_parse req k ->
       product_machineData after !! k = product_machineData before !! k.


Section DecimalNumerals.

Import Decimal.

(** The value of a decimal numeral, read digit by digit onto [acc]. *)
Fixpoint uint_val (d : uint) (acc : Z) : Z :=
  match d with
  | Nil => acc
  | D0 d => uint_val d (acc * 10 + 0)
  | D1 d => uint_val d (acc * 10 + 1)
  | D2 d => uint_val d (acc * 10 + 2)
  | D3 d => uint_val d (acc * 10 + 3)
  | D4 d => uint_val d (acc * 10 + 4)
  | D5 d => uint_val d (acc * 10 + 5)
  | D6 d => uint_val d (acc * 10 + 6)
  | D7 d => uint_val d (acc * 10 + 7)
  | D8 d => uint_val d (acc * 10 + 8)
  | D9 d => uint_val d (acc * 10 + 9)
  end%Z.

End DecimalNumerals.

(** A decimal digit character. *)
Definition is_digit (c : ascii) : bool :=
  let n := nat_of_ascii c in (48 <=? n)%nat && (n <=? 57)%nat.

(* ================================================================== *)
(** * Sample data *)
(* ================================================================== *)

Module Samples.

Definition category_request (id : string) (name description : option string)
    (parts : list Multer.file_part) : Categories.request :=
  {| Categories.params_id := id; Categories.body_name := name;
     Categories.body_description := description;
     Categories.file_parts := parts |}.

Definition new_pumps : Categories.request :=
  category_request "" (Some "Pumps") (Some "Industrial pumps unit") [].

Definition new_valves : Categories.request :=
  category_request "" (Some "Valves") (Some "Gate and ball valves") [].

Definition pumps : category_row :=
  {| category_id := 1; category_name := "Pumps";
     category_description := "Industrial pumps unit"; category_imageUrl := None |}.

Definition valves : category_row :=
  {| category_id := 2; category_name := "Valves";
     category_description := "Gate and ball valves"; category_imageUrl := None |}.

(** The store after the two categories have been created. *)
Definition two_categories : store :=
  fst (Categories.post (fst (Categories.post empty_store new_pumps)) new_valves).

Definition photo (name mime : string) : Multer.file_part :=
  {| Multer.fieldname := "image"; Multer.originalname := name;
     Multer.mimetype := mime; Multer.size := 2048;
     Multer.uuid := "3f2c1a9e-7b4d-4e0a-9c55-0d6f1b2a8e77" |}.

(** The store after a category has been created with a picture. *)
Definition pumps_with_photo : store :=
  fst (Categories.post empty_store
         (category_request "" (Some "Pumps") (Some "Industrial pumps unit")
                           [photo "pump.png" "image/png"])).

Definition pumps_photo_row : category_row :=
  {| category_id := 1; category_name := "Pumps";
     category_description := "Industrial pumps unit";
     category_imageUrl :=
       Some "/uploads/categories/3f2c1a9e-7b4d-4e0a-9c55-0d6f1b2a8e77.png" |}.

(** A product request with the given parameter and every field absent. *)
Definition product_request (id : string) : Products.request :=
  {| Products.params_id := id; Products.body_name := None;
     Products.body_description := None; Products.body_price := None;
     Products.body_isContactForPrice := VUndefined;
     Products.body_showInHero := VUndefined;
     Products.body_heroIndex := VUndefined;
     Products.body_machineData := None;
     Products.body_categoryIds := VUndefined;
     Products.file_parts := [] |}.

Definition pumps12 : category_row :=
  {| category_id := 12; category_name := "Pumps";
     category_description := "Industrial pumps unit"; category_imageUrl := None |}.

Definition press12 : product_row :=
  {| product_id := 12; product_name := "Hydraulic press";
     product_price := Some "1200.00"; product_isContactForPrice := VBool false;
     product_description := "Four-column hydraulic press";
     product_machineData :=
       <["categories" := VArr []]> (<["images" := VArr []]> ∅);
     product_showInHero := VBool false; product_heroIndex := VNum (Fin 0) |}.

(** A store holding a category and a product with id 12. *)
Definition catalogue : store :=
  {| users := []; category := [pumps12]; category_seq := 13;
     product := [press12]; product_seq := 13; files := ∅ |}.

(** A GIF picture sent under the field [field]. *)
Definition gif (field : string) : Multer.file_part :=
  {| Multer.fieldname := field; Multer.originalname := "pump.gif";
     Multer.mimetype := "image/gif"; Multer.size := 2048;
     Multer.uuid := "9b1d" |}.

(** A product create request with a name, a description and file parts. *)
Definition new_press (parts : list Multer.file_part) : Products.request :=
  {| Products.params_id := ""; Products.body_name := Some "Hydraulic press";
     Products.body_description := Some "Four-column hydraulic press";
     Products.body_price := None;
     Products.body_isContactForPrice := VUndefined;
     Products.body_showInHero := VUndefined;
     Products.body_heroIndex := VUndefined;
     Products.body_machineData := None;
     Products.body_categoryIds := VUndefined;
     Products.file_parts := parts |}.

(** A stand-in for [JSON.parse] that knows the texts of a table. *)
Definition JSON_parse_table (table : list (string * jsval)) (text : string)
  : result jsval :=
  match find (fun entry => String.eqb (fst entry) text) table with
  | Some (_, v) => Ok v
  | None => Throw (Error "Unexpected token")
  end.

(** The double-quote character, for writing JSON texts. *)
Definition quote : string := String (ascii_of_nat 34) "".

(** The JSON text of [{ categories: 5 }] and of
    [{ weight: 5, images: [] }], with what [JSON.parse] makes of them. *)
Definition categories_5_text : string :=
  "{" ++ quote ++ "categories" ++ quote ++ ":5}".

Definition weight_text : string :=
  "{" ++ quote ++ "weight" ++ quote ++ ":5," ++ quote ++ "images" ++ quote ++ ":[]}".

Definition JSON_sample : string -> result jsval :=
  JSON_parse_table
    [(categories_5_text, VObj {["categories" := VNum (num_of_Z 5)]});
     (weight_text, VObj (<["weight" := VNum (num_of_Z 5)]> {["images" := VArr []]}))].

(** A stand-in for the server's reading of a [numeric] literal: plain
    decimals with digits on both sides of the point, given back as
    they are. *)
Definition numeric_sample (text : string) : option string :=
  match span_digits 10 (chars text) with
  | (_ :: _, "."%char :: rest) =>
      match span_digits 10 rest with
      | (_ :: _, []) => Some text
      | _ => None
      end
  | (_ :: _, []) => Some text
  | _ => None
  end.

(** An update of the attribute bag of the product [id]. *)
Definition update_bag (id text : string) : Products.request :=
  {| Products.params_id := id; Products.body_name := None;
     Products.body_description := None; Products.body_price := None;
     Products.body_isContactForPrice := VUndefined;
     Products.body_showInHero := VUndefined;
     Products.body_heroIndex := VUndefined;
     Products.body_machineData := Some text;
     Products.body_categoryIds := VUndefined;
     Products.file_parts := [] |}.

(** An update of the price of the product [id] and nothing else. *)
Definition update_price (id price : string) : Products.request :=
  {| Products.params_id := id; Products.body_name := None;
     Products.body_description := None; Products.body_price := Some price;
     Products.body_isContactForPrice := VUndefined;
     Products.body_showInHero := VUndefined;
     Products.body_heroIndex := VUndefined;
     Products.body_machineData := None;
     Products.body_categoryIds := VUndefined;
     Products.file_parts := [] |}.



(** A stand-in for [bcrypt.compare]: a hash is the password behind
    a salt prefix. *)
Definition bcrypt_compare_sample (password hash : string) : bool :=
  String.eqb hash ("$2b$10$" ++ password).

(** A store with one user. *)
Definition with_admin : store :=
  {| users := [{| users_id := 1; users_username := "admin";
                  users_password := "$2b$10$s3cret-pass" |}];
     category := []; category_seq := 1; product := []; product_seq := 1;
     files := ∅ |}.

Definition credentials (username password : string) : Auth.request :=
  {| Auth.body_username := VStr username; Auth.body_password := VStr password;
     Auth.now := 1700000000 |}.

(** Two categories and a product, created through the routes. *)
Definition with_press : store :=
  fst (Products.post JSON_sample numeric_sample two_categories (new_press [])).

(** The same store after the product's bag was updated with
    [{ categories: 5 }]. *)
Definition bag_with_number : store :=
  fst (Products.put JSON_sample with_press (update_bag "1" categories_5_text)).

Definition press_with_number : product_row :=
  {| product_id := 1; product_name := "Hydraulic press";
     product_price := None; product_isContactForPrice := VBool false;
     product_description := "Four-column hydraulic press";
     product_machineData :=
       <["categories" := VNum (num_of_Z 5)]> (<["images" := VArr []]> ∅);
     product_showInHero := VBool false; product_heroIndex := VNum (Fin 0) |}.

(** A product of the second category. *)
Definition valve_product : product_row :=
  {| product_id := 7; product_name := "Ball valve";
     product_price := Some "35.50"; product_isContactForPrice := VBool false;
     product_description := "Two-piece ball valve";
     product_machineData :=
       <["categories" := VArr [VNum (num_of_Z 2)]]> (<["images" := VArr []]> ∅);
     product_showInHero := VBool false; product_heroIndex := VNum (Fin 0) |}.

End Samples.

(* ================================================================== *)
(** * The token middleware *)
(* ================================================================== *)

Module AuthMiddleware.

(** [s.split(sep)] for a one-character separator. *)
Fixpoint split (sep : ascii) (s : string) : list string :=
  match s with
  | EmptyString => [EmptyString]
  | String c s' =>
      if Ascii.eqb c sep then EmptyString :: split sep s'
      else
        match split sep s' with
        | w :: ws => String c w :: ws
        | [] => [String c EmptyString]
        end
  end.

(** What the middleware does with a request: it answers, or it calls
    [next()] with [req.user] set. *)
Inductive outcome :=
| Answer (resp : response)
| Next (user : Jwt.JWTPayload).

Section WithVerify.

(** [jwt.verify(token, JWT_SECRET)] on the text of a token: the
    payload, or a throw. *)
Variable jwt_verify : string -> result Jwt.JWTPayload.

(** [authHeader && authHeader.split(" ")[1]]: [None] is [undefined]. *)
Definition bearer_token (authHeader : option string) : option string :=
  match authHeader with
  | None => None
  | Some h => if String.eqb h "" then Some "" else split " " h !! 1%nat
  end.

Definition authenticateToken (authHeader : option string) : outcome :=
  let token := bearer_token authHeader in
  if negb (truthy_text token) then
    Answer (respond UNAUTHORIZED (JError "Authentication required"))
  else
    match jwt_verify (default "" token) with
    | Ok user => Next user
    | Throw _ => Answer (respond FORBIDDEN (JError "Invalid or expired token"))
    end.

End WithVerify.

End AuthMiddleware.

(* ================================================================== *)
(** * Runs of the application *)
(* ================================================================== *)

(** The store after a list of calls, served one after the other. *)
Definition serve_all (JSON_parse : string -> result jsval)
    (numeric_in : string -> option string) (st : store)
    (calls : list App.call) : store :=
  fold_left (fun s c => fst (App.serve JSON_parse numeric_in s c)) calls st.

(** An identity the sequence of a table has passed and no row of the
    table carries: never given out, or the identity of a deleted row. *)
Definition spent_category_id (st : store) (i : Z) : Prop :=
  (i < category_seq st)%Z /\ ~ In i (map category_id (category st)).

Definition spent_product_id (st : store) (i : Z) : Prop :=
  (i < product_seq st)%Z /\ ~ In i (map product_id (product st)).

(** From [st] to [st'] the sequences have not gone back, and the rows
    of [st'] with an identity below a sequence of [st] carry an
    identity of a row of [st]. *)
Definition identities_kept (st st' : store) : Prop :=
  (category_seq st <= category_seq st')%Z
  /\ (forall i, In i (map category_id (category st')) -> (i < category_seq st)%Z ->
        In i (map category_id (category st)))
  /\ (product_seq st <= product_seq st')%Z
  /\ (forall i, In i (map product_id (product st')) -> (i < product_seq st)%Z ->
        In i (map product_id (product st))).

(** Whether the body of a login request has the shape the schema
    asks for: a username of at least 3 and a password of at least 6
    characters, both strings. *)
Definition login_body_ok (req : Auth.request) : bool :=
  match Auth.body_username req, Auth.body_password req with
  | VStr username, VStr password =>
      (3 <=? String.length username)%nat && (6 <=? String.length password)%nat
  | _, _ => false
  end.

(** A string without the character [c]. *)
Definition without_char (c : ascii) (s : string) : bool :=
  forallb (fun x => negb (Ascii.eqb x c)) (chars s).

(** The four words of the upload filters' pattern. *)
Definition allowed_words : list string := ["jpeg"; "jpg"; "png"; "webp"].

(** A [categories] entry that is there and has no [includes] method:
    a boolean, a number or an object. *)
Definition no_includes (categories : option jsval) : bool :=
  match categories with
  | Some (VBool _) | Some (VNum _) | Some (VObj _) => true
  | _ => false
  end.

(** Whether a [categories] entry with an [includes] method lists the
    category [id]: an array by one of its numbers, a string by the
    decimal form of the id occurring in it. *)
Definition lists_category (categories : option jsval) (id : Z) : bool :=
  match categories with
  | Some (VArr l) => existsb (fun v => strict_eq_num v id) l
  | Some (VStr s) => includes (Products.show_Z id) s
  | _ => false
  end.

(** A product with the categories its bag lists, in table order. *)
Definition with_listed_categories (st : store) (prod : product_row)
  : product_row * list category_row :=
  (prod,
   List.filter (fun cat => lists_category (product_machineData prod !! "categories")
                                          (category_id cat))
               (category st)).

(* ================================================================== *)
(** * More sample data *)
(* ================================================================== *)

Module Fixtures.

(** A PNG picture sent under the field [field]. *)
Definition png (field : string) : Multer.file_part :=
  {| Multer.fieldname := field; Multer.originalname := "gauge.png";
     Multer.mimetype := "image/png"; Multer.size := 4096;
     Multer.uuid := "7a21" |}.

Definition gauge_file : Multer.File :=
  {| Multer.file_fieldname := "image"; Multer.file_originalname := "gauge.png";
     Multer.file_filename := "7a21.png";
     Multer.file_path := "uploads/categories/7a21.png" |}.

(** A third category, with a picture. *)
Definition new_gauges : Categories.request :=
  Samples.category_request "" (Some "Gauges") (Some "Pressure gauges")
                           [png "image"].

Definition gauges : category_row :=
  {| category_id := 3; category_name := "Gauges";
     category_description := "Pressure gauges";
     category_imageUrl := Some "/uploads/categories/7a21.png" |}.

(** The store with the three categories. *)
Definition three_categories : store :=
  fst (Categories.post Samples.two_categories new_gauges).

(** An update of the third category: a new name, an empty
    description, a new picture. *)
Definition rename_gauges : Categories.request :=
  Samples.category_request "3" (Some "Dials") (Some "")
    [{| Multer.fieldname := "image"; Multer.originalname := "dial.webp";
        Multer.mimetype := "image/webp"; Multer.size := 1024;
        Multer.uuid := "8b32" |}].

Definition dial_file : Multer.File :=
  {| Multer.file_fieldname := "image"; Multer.file_originalname := "dial.webp";
     Multer.file_filename := "8b32.webp";
     Multer.file_path := "uploads/categories/8b32.webp" |}.

Definition dials : category_row :=
  {| category_id := 3; category_name := "Dials";
     category_description := "Pressure gauges";
     category_imageUrl := Some "/uploads/categories/8b32.webp" |}.

(** The [n]-th picture of a batch sent under the field [images]. *)
Definition shot (n : N) : Multer.file_part :=
  {| Multer.fieldname := "images"; Multer.originalname := "shot.jpg";
     Multer.mimetype := "image/jpeg"; Multer.size := 1024;
     Multer.uuid := "c" ++ show_N n |}.

Definition eleven_shots : list Multer.file_part :=
  map shot [1; 2; 3; 4; 5; 6; 7; 8; 9; 10; 11]%N.

(** A store that already holds a file of the product uploads. *)
Definition catalogue_with_file : store :=
  set_files Samples.catalogue {["uploads/products/a0.jpg"]}.

(** A product create request without a name, with file parts. *)
Definition unnamed_product (parts : list Multer.file_part) : Products.request :=
  {| Products.params_id := ""; Products.body_name := None;
     Products.body_description := Some "Four-column hydraulic press";
     Products.body_price := None;
     Products.body_isContactForPrice := VUndefined;
     Products.body_showInHero := VUndefined;
     Products.body_heroIndex := VUndefined;
     Products.body_machineData := None;
     Products.body_categoryIds := VUndefined;
     Products.file_parts := parts |}.

(** An update of the price of the product [id], sent with file parts. *)
Definition reprice (id price : string) (parts : list Multer.file_part)
  : Products.request :=
  {| Products.params_id := id; Products.body_name := None;
     Products.body_description := None; Products.body_price := Some price;
     Products.body_isContactForPrice := VUndefined;
     Products.body_showInHero := VUndefined;
     Products.body_heroIndex := VUndefined;
     Products.body_machineData := None;
     Products.body_categoryIds := VUndefined;
     Products.file_parts := parts |}.


(** A stand-in for [jwt.verify]: one token text is valid. *)
Definition jwt_verify_sample (token : string) : result Jwt.JWTPayload :=
  if String.eqb token "eyJhbGciOi.eyJ1c2VySWQi.c2lnbmF0dXJl"
  then Ok {| Jwt.userId := 1; Jwt.username := "admin" |}
  else Throw (Error "invalid signature").

(** The two sample categories after the second one was deleted. *)
Definition pumps_only : store :=
  fst (Categories.delete Samples.two_categories
         (Samples.category_request "2" None None [])).

(** A second request for a category named [Pumps], with a picture. *)
Definition pumps_again : Categories.request :=
  Samples.category_request "" (Some "Pumps") (Some "Centrifugal pumps")
                           [png "image"].

(** A picture of exactly the size limit, 5 MiB, sent under [field]. *)
Definition full_size (field : string) : Multer.file_part :=
  {| Multer.fieldname := field; Multer.originalname := "panorama.jpg";
     Multer.mimetype := "image/jpeg"; Multer.size := 5 * 1024 * 1024;
     Multer.uuid := "d4" |}.

(** A category name of 100 characters, and a store that holds a
    category of that name. *)
Definition long_name : string :=
  String.concat "" (List.repeat "Pump " 19) ++ "Pumps".

Definition long_named : store :=
  fst (Categories.post empty_store
         (Samples.category_request "" (Some long_name) (Some "Pumps") [])).

End Fixtures.

(* ================================================================== *)
(** * The built-ins at work *)
(* ================================================================== *)

Example parseInt_12abc : parseInt "12abc" = Some 12%Z.
Proof. reflexivity. Qed.
Example parseInt_x : parseInt "x" = None.
Proof. reflexivity. Qed.
Example parseInt_hex : parseInt "  -0x1F" = Some (-31)%Z.
Proof. reflexivity. Qed.
Example Number_12abc : Number (VStr "12abc") = NaN.
Proof. reflexivity. Qed.
Example Number_7 : num_to_Z (Number (VStr " 7 ")) = Some 7%Z.
Proof. reflexivity. Qed.
Example Number_1e3 : num_to_Z (Number (VStr "1.5e3")) = Some 1500%Z.
Proof. vm_compute. reflexivity. Qed.
Example Number_empty : Number (VStr "") = Fin 0.
Proof. reflexivity. Qed.
Example Number_arr : Number (VArr [VArr [VStr "0x10"]]) = num_of_Z 16.
Proof. reflexivity. Qed.

(** A run of digits read by [Number] and printed again: exact below
    2^53, rounded to a double above, in exponent form from 10^21, and
    [Infinity] beyond the doubles. *)
Example ToString_rounded :
  ToString (Number_digits 9007199254740993) = "9007199254740992".
Proof. vm_compute. reflexivity. Qed.
Example ToString_padded :
  ToString (Number_digits 18446744073709551615) = "18446744073709552000".
Proof. vm_compute. reflexivity. Qed.
Example ToString_exponent :
  ToString (Number_digits 123456789012345678901234) = "1.2345678901234569e+23".
Proof. vm_compute. reflexivity. Qed.
Example ToString_overflow : ToString (Number_digits (10 ^ 309)) = "Infinity".
Proof. vm_compute. reflexivity. Qed.
Example parseInt_of_exponent :
  parseInt (ToString (Number_digits 2500000000000000000000)) = Some 2%Z.
Proof. vm_compute. reflexivity. Qed.

(** What the columns make of the values written to them. *)
Example varchar_cut : varchar 3 "abc  " = Some "abc".
Proof. reflexivity. Qed.
Example varchar_refused : varchar 3 "abcd" = None.
Proof. reflexivity. Qed.
Example json_value_array :
  json_value (VArr [VNum (Inf false); VUndefined; VNum (num_of_Z 2); VStr "a"])
  = VArr [VNull; VNull; VNum (num_of_Z 2); VStr "a"].
Proof. reflexivity. Qed.
Example integer_in_fraction : integer_in (VNum (Fin (3 # 2))) = None.
Proof. reflexivity. Qed.

Example extname_png : extname "pump.photo.PNG" = ".PNG".
Proof. reflexivity. Qed.
Example extname_none : extname "README" = "".
Proof. reflexivity. Qed.
Example extname_hidden : extname ".bashrc" = "".
Proof. reflexivity. Qed.
Example extname_trailing : extname "pump." = ".".
Proof. reflexivity. Qed.
Example extname_dir : extname "a.b/pump" = "".
Proof. reflexivity. Qed.
Example allowed_gif : allowedTypes_test (toLowerCase (extname "pump.GIF")) = false.
Proof. reflexivity. Qed.
Example allowed_jpgx : allowedTypes_test (toLowerCase (extname "pump.JPGX")) = true.
Proof. reflexivity. Qed.

(* ================================================================== *)
(** * Reading back a printed identifier *)
(* ================================================================== *)

Section DecimalRoundTrip.

Import Decimal.

Lemma uint_val_acc (d : uint) (p : positive) :
  uint_val d (Z.pos p) = Z.pos (Pos.of_uint_acc d p).
Proof.
  revert p. induction d; intros p; simpl; try reflexivity;
    match goal with
    | |- uint_val _ ?z = Z.pos (Pos.of_uint_acc _ ?q) =>
        replace z with (Z.pos q) by lia
    end; apply IHd.
Qed.

Lemma uint_val_of_uint (d : uint) : uint_val d 0 = Z.of_N (Pos.of_uint d).
Proof.
  induction d; simpl; try reflexivity; try apply IHd;
    match goal with
    | |- uint_val _ ?z = _ =>
        let p := eval vm_compute in (Z.to_pos z) in
        change z with (Z.pos p)
    end; apply uint_val_acc.
Qed.

Lemma digit_not_space c : is_digit c = true -> is_space c = false.
Proof. destruct c as [[] [] [] [] [] [] [] []]; vm_compute; congruence. Qed.

Lemma digit_no_sign c l : is_digit c = true -> take_sign (c :: l) = (false, c :: l).
Proof. destruct c as [[] [] [] [] [] [] [] []]; vm_compute; congruence. Qed.

Lemma digit_no_prefix c l all :
  Forall (fun c => is_digit c = true) (c :: l) -> take_radix_prefix all (c :: l) = None.
Proof.
  intros H. inversion H as [|? ? Hc Hl]; subst.
  destruct l as [|c' l']; [destruct c as [[] [] [] [] [] [] [] []]; reflexivity|].
  inversion Hl as [|? ? Hc' _]; subst.
  destruct c as [[] [] [] [] [] [] [] []]; try reflexivity.
  destruct c' as [[] [] [] [] [] [] [] []]; try discriminate Hc';
    destruct all; reflexivity.
Qed.

(** A printed numeral is a run of digits that reads back as its value. *)
Lemma span_digits_uint (d : uint) :
  exists ds,
    span_digits 10 (chars (NilEmpty.string_of_uint d)) = (ds, [])
    /\ (forall acc, fold_left (fun acc d => acc * 10 + d)%Z ds acc = uint_val d acc)
    /\ (d <> Nil -> ds <> [])
    /\ Forall (fun c => is_digit c = true) (chars (NilEmpty.string_of_uint d)).
Proof.
  induction d as [|d [ds (Hs & Hv & _ & Hd)]|d [ds (Hs & Hv & _ & Hd)]
                  |d [ds (Hs & Hv & _ & Hd)]|d [ds (Hs & Hv & _ & Hd)]
                  |d [ds (Hs & Hv & _ & Hd)]|d [ds (Hs & Hv & _ & Hd)]
                  |d [ds (Hs & Hv & _ & Hd)]|d [ds (Hs & Hv & _ & Hd)]
                  |d [ds (Hs & Hv & _ & Hd)]|d [ds (Hs & Hv & _ & Hd)]].
  { exists []. repeat split; try constructor; congruence. }
  all: match goal with
       | |- context [NilEmpty.string_of_uint (?D _)] =>
           let k := eval vm_compute in (uint_val (D Nil) 0) in
           exists (k :: ds)
       end;
       unfold chars in *; simpl NilEmpty.string_of_uint; simpl list_ascii_of_string;
       repeat split;
       [ change (span_digits 10 (?c :: ?l))
           with (match radix_digit 10 c with
                 | Some d' => let '(ds', rest) := span_digits 10 l in (d' :: ds', rest)
                 | None => ([], c :: l)
                 end);
         rewrite Hs; reflexivity
       | intros acc; simpl; apply Hv
       | congruence
       | constructor; [reflexivity | exact Hd] ].
Qed.

Lemma digits_value_show_N (n : N) :
  exists ds,
    span_digits 10 (chars (show_N n)) = (ds, [])
    /\ digits_value 10 ds = Z.of_N n /\ ds <> []
    /\ Forall (fun c => is_digit c = true) (chars (show_N n))
    /\ chars (show_N n) <> [].
Proof.
  unfold show_N.
  destruct (span_digits_uint (N.to_uint n)) as (ds & Hs & Hv & Hne & Hd).
  assert (Hnil : N.to_uint n <> Nil).
  { destruct n; [discriminate | apply DecimalPos.Unsigned.to_uint_nonnil]. }
  exists ds. repeat split; auto.
  - unfold digits_value. rewrite Hv, uint_val_of_uint.
    change (Pos.of_uint (N.to_uint n)) with (N.of_uint (N.to_uint n)).
    now rewrite DecimalN.Unsigned.of_to.
  - intros E. rewrite E in Hs. simpl in Hs. apply Hne; auto. congruence.
Qed.

(** [parseInt] of the decimal form of a natural number is that number. *)
Lemma parseInt_show_N (n : N) : parseInt (show_N n) = Some (Z.of_N n).
Proof.
  destruct (digits_value_show_N n) as (ds & Hs & Hv & Hne & Hd & Hc).
  unfold parseInt.
  destruct (chars (show_N n)) as [|c l] eqn:E; [congruence|].
  inversion Hd as [|? ? Hc1 Hl]; subst.
  simpl trim_start. rewrite (digit_not_space c Hc1).
  rewrite (digit_no_sign c l Hc1).
  rewrite (digit_no_prefix c l false Hd).
  rewrite Hs. destruct ds; [congruence|]. now rewrite Hv.
Qed.

(** The id schema accepts the decimal form and yields the number. *)
Lemma idSchema_parse_show_N (n : N) :
  idSchema_parse (show_N n) = Ok (Number_digits n).
Proof.
  destruct (digits_value_show_N n) as (ds & Hs & Hv & Hne & Hd & Hc).
  unfold idSchema_parse, all_digits.
  replace (forallb _ (chars (show_N n))) with true.
  - destruct (String.eqb_spec (show_N n) "") as [E|_].
    + rewrite E in Hc. now elim Hc.
    + simpl. now rewrite Hs; simpl; rewrite Hv, N2Z.id.
  - symmetry. apply forallb_forall. intros c Hin.
    rewrite List.Forall_forall in Hd. exact (Hd c Hin).
Qed.

(** A natural number below 2^53 is a double. *)
Lemma nearest_double_small (n : N) : (n < 2 ^ 53)%N -> nearest_double n = Some n.
Proof.
  intros Hn. unfold nearest_double.
  assert (Hsize : (N.size n - 53 = 0)%N).
  { apply N.sub_0_le.
    pose proof (N.size_le n) as H. rewrite N.succ_double_spec in H.
    apply N.lt_succ_r, (N.pow_lt_mono_r_iff 2); [reflexivity|].
    eapply N.le_lt_trans; [exact H|].
    change (2 ^ N.succ 53)%N with (2 * 2 ^ 53)%N. lia. }
  rewrite Hsize. rewrite !N.shiftr_0_r, !N.shiftl_0_r, N.sub_diag.
  change (N.shiftr 1 1) with 0%N. change (0 <? 0)%N with false.
  rewrite andb_false_r. change (false || false) with false. cbv iota.
  destruct (N.leb_spec (2 ^ 1024) n) as [H|_]; [|reflexivity].
  exfalso. assert (2 ^ 53 < 2 ^ 1024)%N by (apply N.pow_lt_mono_r; reflexivity). lia.
Qed.

(** The number the schema yields for an id of the integer column's
    range prints as the decimal form of the id. *)
Lemma ToString_int4 (n : N) :
  in_int4 (Z.of_N n) = true -> ToString (Number_digits n) = show_N n.
Proof.
  intros Hn. unfold in_int4 in Hn. apply andb_true_iff in Hn as [_ Hn].
  apply Z.leb_le in Hn.
  assert (Hsmall : (n < 2 ^ 53)%N).
  { apply N2Z.inj_lt. eapply Z.le_lt_trans; [exact Hn|]. reflexivity. }
  unfold Number_digits. rewrite (nearest_double_small n Hsmall).
  unfold ToString, number_text.
  destruct (N.ltb_spec n (2 ^ 53)); [reflexivity|lia].
Qed.

End DecimalRoundTrip.


Example two_categories_rows : category Samples.two_categories = [Samples.pumps; Samples.valves].
Proof. reflexivity. Qed.

(* ================================================================== *)
(** * Properties of the category router *)
(* ================================================================== *)

Section CategoryFacts.

Import Categories.

Lemma category_by_name_found (st : store) (c : category_row) :
  In c (category st) -> exists c', category_by_name st (category_name c) = Some c'.
Proof.
  unfold category_by_name. intros Hin.
  destruct (find _ (category st)) as [c'|] eqn:E; [eauto|].
  apply (find_none _ _ E) in Hin. now rewrite String.eqb_refl in Hin.
Qed.

Lemma category_by_id_int4 (st : store) (id : Z) :
  in_int4 id = true -> category_by_id st id = Ok (find_category st id).
Proof. unfold category_by_id. now intros ->. Qed.

Lemma product_by_id_int4 (st : store) (id : Z) :
  in_int4 id = true -> product_by_id st id = Ok (find_product st id).
Proof. unfold product_by_id. now intros ->. Qed.

Lemma category_by_id_found (st : store) (c : category_row) :
  NoDup (map category_id (category st)) -> In c (category st) ->
  find_category st (category_id c) = Some c.
Proof.
  unfold find_category. induction (category st) as [|x l IH]; intros Hnd Hin.
  - destruct Hin.
  - simpl in *. apply NoDup_cons in Hnd as [Hx Hl].
    destruct Hin as [->|Hin].
    + now rewrite Z.eqb_refl.
    + destruct (Z.eqb_spec (category_id x) (category_id c)) as [E|_]; [|auto].
      exfalso. apply Hx. rewrite E. apply list_elem_of_In, in_map, Hin.
Qed.

Lemma category_by_id_missing (st : store) (id : Z) :
  (forall c, In c (category st) -> category_id c <> id) ->
  find_category st id = None.
Proof.
  unfold find_category. intros H.
  destruct (find _ (category st)) as [c|] eqn:E; [|reflexivity].
  apply find_some in E as [Hin Heq]. apply Z.eqb_eq in Heq. now elim (H c Hin).
Qed.

Lemma category_by_name_none (st : store) (name : string) :
  category_by_name st name = None -> ~ In name (map category_name (category st)).
Proof.
  unfold category_by_name. intros Hnone (c & Hc & Hin)%in_map_iff.
  apply (find_none _ _ Hnone) in Hin. rewrite Hc, String.eqb_refl in Hin.
  discriminate Hin.
Qed.

Lemma varchar_fits (n : nat) (s : string) :
  (String.length s <= n)%nat -> varchar n s = Some s.
Proof. unfold varchar. intros H. apply Nat.leb_le in H. now rewrite H. Qed.

(** Creating a category under a name of at most 100 characters keeps
    the names distinct. (A longer name that ends in spaces is cut to
    100 characters after the handler has looked it up.) *)
Lemma create_category_keeps_names_distinct (st : store) (req : Categories.request) :
  (forall name, Categories.body_name req = Some name ->
     (String.length name <= 100)%nat) ->
  NoDup (map category_name (category st)) ->
  NoDup (map category_name (category (fst (Categories.post st req)))).
Proof.
  intros Hlen Hnd. unfold Categories.post.
  destruct (Multer.single _ _ _) as [fs [e|file]]; [exact Hnd|].
  unfold Categories.create_handler.
  destruct (_ || _); [exact Hnd|].
  destruct (category_by_name _ _) eqn:Hname; [exact Hnd|].
  apply category_by_name_none in Hname. unfold insert_category.
  assert (Hfits : varchar 100 (default "" (Categories.body_name req))
                  = Some (default "" (Categories.body_name req))).
  { apply varchar_fits. destruct (Categories.body_name req) as [name|]; simpl.
    - now apply Hlen.
    - lia. }
  rewrite Hfits.
  destruct (varchar 300 _) as [description|]; [|exact Hnd].
  simpl in Hname |- *.
  rewrite map_app. apply NoDup_app. split; [exact Hnd|]. split.
  - simpl. intros name Hin ->%list_elem_of_singleton.
    now apply Hname, list_elem_of_In.
  - apply NoDup_singleton.
Qed.

End CategoryFacts.

(** ** Creating a category under a name that is taken *)

(** C1, as the code has it: a create request whose name is that of a
    stored category never changes the category rows; it is answered
    409 when the upload middleware lets the request through and both
    the name and the description are non-empty. (The handler checks
    that both fields are present before it looks the name up.) *)
Theorem create_category_taken_name (st : store) (req : Categories.request)
    (c : category_row) :
  In c (category st) ->
  Categories.body_name req = Some (category_name c) ->
  category (fst (Categories.post st req)) = category st
  /\ (forall fs file,
        Multer.single Categories.upload (Categories.file_parts req) (files st)
          = (fs, inr file) ->
        truthy_text (Categories.body_name req) = true ->
        truthy_text (Categories.body_description req) = true ->
        Categories.post st req
          = (set_files st fs, respond CONFLICT (JError "Category already exists"))).
Proof.
  intros Hin Hname.
  destruct (category_by_name_found (set_files st
              (fst (Multer.single Categories.upload (Categories.file_parts req)
                                  (files st)))) c Hin) as [c' Hc'].
  unfold Categories.post, Categories.create_handler.
  destruct (Multer.single _ _ _) as [fs [e|file]] eqn:Hup; simpl in Hc'.
  - split; [reflexivity|]. intros fs' file' [=].
  - rewrite Hname in *. simpl default. rewrite Hc'.
    destruct (truthy_text (Some (category_name c))),
             (truthy_text (Categories.body_description req)); simpl;
      (split; [reflexivity|]); intros fs' file' [= <- <-] H1 H2;
      try discriminate; reflexivity.
Qed.

(** Creating "Pumps" a second time. *)
Lemma create_category_taken_name_witness :
  In Samples.pumps (category Samples.two_categories)
  /\ Categories.post Samples.two_categories Samples.new_pumps
     = (Samples.two_categories, respond CONFLICT (JError "Category already exists")).
Proof.
  assert (Hin : In Samples.pumps (category Samples.two_categories))
    by (left; reflexivity).
  split; [exact Hin|].
  destruct (create_category_taken_name Samples.two_categories Samples.new_pumps
              Samples.pumps Hin eq_refl) as [_ H].
  exact (H (files Samples.two_categories) None eq_refl eq_refl eq_refl).
Defined.

(** C1 as stated fails: with the description missing, a request under
    a taken name is answered 400, not 409. *)
Lemma create_category_taken_name_without_description :
  let req := Samples.category_request "" (Some "Pumps") None [] in
  In Samples.pumps (category Samples.two_categories)
  /\ Categories.body_name req = Some (category_name Samples.pumps)
  /\ Categories.post Samples.two_categories req
     = (Samples.two_categories,
        respond BAD_REQUEST (JError "Name and description are required"))
  /\ status (snd (Categories.post Samples.two_categories req)) <> CONFLICT.
Proof.
  repeat split; [left; reflexivity | discriminate].
Qed.

(** ** Deleting a category *)

(** C2, as the code has it: for an id [n] of the range of the integer
    column, on a table with distinct ids, deleting the stored category
    with id [n] answers 200 with the success message, removes exactly
    the rows with that id and, when the row has a non-empty image URL,
    the file it names, leaving every other file and table alone; when
    no row has id [n] the answer is 404 and the store is unchanged. *)
Theorem delete_category_spec (st : store) (req : Categories.request) (n : N) :
  in_int4 (Z.of_N n) = true ->
  NoDup (map category_id (category st)) ->
  Categories.params_id req = show_N n ->
  (forall c, In c (category st) -> category_id c = Z.of_N n ->
     exists st',
       Categories.delete st req
         = (st', respond OK (JDeleted ("Successfully deleted '"
                                       ++ category_name c ++ "'")))
       /\ ~ In c (category st')
       /\ (forall c', In c' (category st') <-> In c' (category st) /\ c' <> c)
       /\ (forall f, f ∈ files st' <->
             f ∈ files st
             /\ match category_imageUrl c with
                | Some url => url = "" \/ f <> image_path url
                | None => True
                end)
       /\ product st' = product st /\ users st' = users st)
  /\ ((forall c, In c (category st) -> category_id c <> Z.of_N n) ->
      Categories.delete st req
        = (st, respond NOT_FOUND (JError "Category not found"))).
Proof.
  intros Hrange Hnd Hid.
  unfold Categories.delete, Categories.categoryIdSchema, validateRequest.
  rewrite Hid, idSchema_parse_show_N.
  unfold Categories.delete_handler.
  rewrite (ToString_int4 n Hrange), parseInt_show_N.
  rewrite (category_by_id_int4 st _ Hrange).
  split.
  - intros c Hin Hc. rewrite <- Hc, (category_by_id_found st c Hnd Hin).
    eexists. split; [reflexivity|]. simpl.
    assert (Hrows : forall c', In c' (List.filter (fun c0 => negb (category_id c0 =? category_id c)%Z)
                                   (category st)) <-> In c' (category st) /\ c' <> c).
    { intros c'. rewrite filter_In, negb_true_iff, Z.eqb_neq. split.
      - intros [H1 H2]. split; [auto|]. intros ->. now elim H2.
      - intros [H1 H2]. split; [auto|]. intros E. apply H2.
        pose proof (category_by_id_found st c' Hnd H1) as H3.
        pose proof (category_by_id_found st c Hnd Hin) as H4.
        rewrite E in H3. congruence. }
    split; [intros H; apply Hrows in H; now destruct H|].
    split; [exact Hrows|].
    split; [|split; reflexivity].
    intros f. destruct (category_imageUrl c) as [url|]; [|tauto].
    unfold truthy_text, unlink_if_exists.
    destruct (String.eqb_spec url ""); simpl; [tauto|].
    destruct (decide (image_path url ∈ files st)) as [Hp|Hp].
    + rewrite elem_of_difference, elem_of_singleton. tauto.
    + split; [|tauto]. intros Hf. split; [exact Hf|]. right. congruence.
  - intros Hnone. now rewrite (category_by_id_missing st _ Hnone).
Qed.

Example pumps_with_photo_store :
  category Samples.pumps_with_photo = [Samples.pumps_photo_row]
  /\ "uploads/categories/3f2c1a9e-7b4d-4e0a-9c55-0d6f1b2a8e77.png"
       ∈ files Samples.pumps_with_photo.
Proof.
  split; [vm_compute; reflexivity|].
  apply (bool_decide_unpack _). vm_compute. exact I.
Qed.

(** Deleting the category created with a picture, and a missing one. *)
Lemma delete_category_spec_witness :
  (exists st',
     Categories.delete Samples.pumps_with_photo
       (Samples.category_request "1" None None [])
     = (st', respond OK (JDeleted "Successfully deleted 'Pumps'"))
     /\ ~ In Samples.pumps_photo_row (category st')
     /\ "uploads/categories/3f2c1a9e-7b4d-4e0a-9c55-0d6f1b2a8e77.png" ∉ files st')
  /\ Categories.delete Samples.pumps_with_photo
       (Samples.category_request "7" None None [])
     = (Samples.pumps_with_photo, respond NOT_FOUND (JError "Category not found")).
Proof.
  assert (Hcat : category Samples.pumps_with_photo = [Samples.pumps_photo_row])
    by (vm_compute; reflexivity).
  assert (Hin : In Samples.pumps_photo_row (category Samples.pumps_with_photo))
    by (rewrite Hcat; left; reflexivity).
  assert (Hnd : NoDup (map category_id (category Samples.pumps_with_photo)))
    by (rewrite Hcat; apply NoDup_singleton).
  split.
  - destruct (delete_category_spec Samples.pumps_with_photo
                (Samples.category_request "1" None None []) 1 eq_refl Hnd eq_refl)
      as [H _].
    destruct (H Samples.pumps_photo_row Hin eq_refl)
      as (st' & E & Hnot & _ & Hfiles & _).
    exists st'. split; [exact E|]. split; [exact Hnot|].
    intros Hf. apply Hfiles in Hf as [_ [Hf|Hf]]; [discriminate Hf|].
    apply Hf. reflexivity.
  - destruct (delete_category_spec Samples.pumps_with_photo
                (Samples.category_request "7" None None []) 7 eq_refl Hnd eq_refl)
      as [_ H].
    apply H. rewrite Hcat. intros c [<-|[]]. discriminate.
Defined.

(** C2 as stated fails for ids outside the range of the integer
    column: no category has the id 2147483648, and deleting it is
    answered 500, not 404; and the id 10^21 reaches [parseInt] as the
    text [1e+21], so that deleting it deletes category 1. *)
Lemma delete_category_outside_integer_range :
  (forall c, In c (category Samples.two_categories) ->
     category_id c <> 2147483648%Z /\ category_id c <> (10 ^ 21)%Z)
  /\ Categories.delete Samples.two_categories
       (Samples.category_request "2147483648" None None [])
     = (Samples.two_categories,
        respond INTERNAL_SERVER_ERROR (JError "Internal server error"))
  /\ snd (Categories.delete Samples.two_categories
            (Samples.category_request "1000000000000000000000" None None []))
     = respond OK (JDeleted "Successfully deleted 'Pumps'")
  /\ category (fst (Categories.delete Samples.two_categories
                      (Samples.category_request "1000000000000000000000"
                                                None None [])))
     = [Samples.valves].
Proof.
  split; [|split; [|split]].
  - rewrite two_categories_rows. intros c [<-|[<-|[]]]; split; discriminate.
  - vm_compute. reflexivity.
  - vm_compute. reflexivity.
  - vm_compute. reflexivity.
Qed.


(* ================================================================== *)
(** * The identities of reachable stores *)
(* ================================================================== *)

Section Identities.

Import App.

Lemma identities_ok_empty : identities_ok empty_store.
Proof. repeat split; constructor. Qed.

Lemma identities_ok_set_files st fs : identities_ok st -> identities_ok (set_files st fs).
Proof. exact id. Qed.

Lemma NoDup_snoc_fresh {A} (key : A -> Z) (rows : list A) (row : A) (seq : Z) :
  NoDup (map key rows) -> List.Forall (fun r => (key r < seq)%Z) rows ->
  key row = seq ->
  NoDup (map key (rows ++ [row]))
  /\ List.Forall (fun r => (key r < seq + 1)%Z) (rows ++ [row]).
Proof.
  intros Hnd Hlt Hrow. split.
  - rewrite map_app. apply NoDup_app. split; [exact Hnd|]. split.
    + simpl. intros k Hk ->%list_elem_of_singleton.
      apply list_elem_of_In, in_map_iff in Hk as (r & Hr & Hin).
      rewrite List.Forall_forall in Hlt. specialize (Hlt r Hin). lia.
    + apply NoDup_singleton.
  - apply Forall_app. split.
    + eapply List.Forall_impl; [|exact Hlt]. intros r Hr. simpl in Hr. lia.
    + repeat constructor. lia.
Qed.

Lemma identities_ok_insert_category st name description imageUrl :
  identities_ok st ->
  identities_ok (fst (insert_category st name description imageUrl)).
Proof.
  intros (Hc & Hcs & Hp & Hps). unfold insert_category.
  destruct (varchar 100 name) as [name'|]; [|repeat split; assumption].
  destruct (varchar 300 description) as [description'|]; [|repeat split; assumption].
  destruct (_ && _); [repeat split; assumption|]. simpl.
  destruct (NoDup_snoc_fresh category_id (category st)
              {| category_id := category_seq st; category_name := name';
                 category_description := description';
                 category_imageUrl := imageUrl |} (category_seq st) Hc Hcs eq_refl).
  repeat split; assumption.
Qed.

Lemma map_key_update {A} (key : A -> Z) (f : A -> A) (id : Z) (rows : list A) :
  (forall r, key (f r) = key r) ->
  map key (map (fun r => if (key r =? id)%Z then f r else r) rows) = map key rows.
Proof.
  intros Hf. rewrite List.map_map. apply map_ext. intros r.
  destruct (key r =? id)%Z; auto.
Qed.

Lemma Forall_key_update {A} (key : A -> Z) (f : A -> A) (id seq : Z) (rows : list A) :
  (forall r, key (f r) = key r) ->
  List.Forall (fun r => (key r < seq)%Z) rows ->
  List.Forall (fun r => (key r < seq)%Z)
              (map (fun r => if (key r =? id)%Z then f r else r) rows).
Proof.
  intros Hf H. induction H; simpl; constructor; auto.
  destruct (key x =? id)%Z; rewrite ?Hf; auto.
Qed.

Lemma identities_ok_update_category st id u :
  identities_ok st -> identities_ok (fst (update_category st id u)).
Proof.
  intros (Hc & Hcs & Hp & Hps). unfold update_category.
  destruct (category_set_empty u); [repeat split; assumption|].
  destruct (varchar_set 100 _) as [name|]; [|repeat split; assumption].
  destruct (varchar_set 300 _) as [description|]; [|repeat split; assumption].
  destruct (_ && _); [repeat split; assumption|].
  repeat split; try assumption; unfold set_category; simpl.
  - now rewrite (map_key_update category_id (apply_category_set _)).
  - now apply (Forall_key_update category_id (apply_category_set _)).
Qed.

Lemma NoDup_map_filter {A} (key : A -> Z) (keep : A -> bool) (rows : list A) :
  NoDup (map key rows) -> NoDup (map key (List.filter keep rows)).
Proof.
  induction rows as [|r rows IH]; simpl; [auto|].
  intros [Hr Hnd]%NoDup_cons. destruct (keep r); simpl; [|auto].
  apply NoDup_cons. split; [|auto]. intros Hin. apply Hr.
  apply list_elem_of_In, in_map_iff in Hin as (r' & Hk & Hin').
  apply list_elem_of_In, in_map_iff. exists r'. split; [auto|].
  now apply filter_In in Hin'.
Qed.

Lemma Forall_filter_keep {A} (P : A -> Prop) (keep : A -> bool) (rows : list A) :
  List.Forall P rows -> List.Forall P (List.filter keep rows).
Proof.
  intros H. induction H; simpl; [constructor|]. destruct (keep x); auto.
Qed.

Lemma identities_ok_delete_category st id :
  identities_ok st -> identities_ok (delete_category st id).
Proof.
  intros (Hc & Hcs & Hp & Hps). repeat split; try assumption; simpl.
  - now apply NoDup_map_filter.
  - now apply Forall_filter_keep.
Qed.

Lemma identities_ok_insert_product numeric_in st name description price icp md sih hi :
  identities_ok st ->
  identities_ok (fst (insert_product numeric_in st name description price icp md sih hi)).
Proof.
  intros (Hc & Hcs & Hp & Hps). unfold insert_product.
  destruct (varchar 100 name) as [name'|]; [|repeat split; assumption].
  destruct (match price with Some text => Some <$> numeric_in text | None => Some None end)
    as [price'|]; [|repeat split; assumption].
  destruct (integer_in hi) as [hi'|]; [|repeat split; assumption].
  simpl.
  destruct (NoDup_snoc_fresh product_id (product st)
              {| product_id := product_seq st; product_name := name';
                 product_price := price'; product_isContactForPrice := icp;
                 product_description := description;
                 product_machineData := jsonb md;
                 product_showInHero := sih; product_heroIndex := hi' |}
              (product_seq st) Hp Hps eq_refl).
  repeat split; assumption.
Qed.

Lemma identities_ok_update_product st id u :
  identities_ok st -> identities_ok (fst (update_product st id u)).
Proof.
  intros (Hc & Hcs & Hp & Hps). unfold update_product.
  destruct (product_set_empty u); [repeat split; assumption|].
  repeat split; try assumption; unfold set_product; simpl.
  - now rewrite (map_key_update product_id (apply_product_set u)).
  - now apply (Forall_key_update product_id (apply_product_set u)).
Qed.

Lemma identities_ok_delete_product st id :
  identities_ok st -> identities_ok (delete_product st id).
Proof.
  intros (Hc & Hcs & Hp & Hps). repeat split; try assumption; simpl.
  - now apply NoDup_map_filter.
  - now apply Forall_filter_keep.
Qed.

End Identities.

Section ReachableIdentities.

Import App.

Variable JSON_parse : string -> result jsval.
Variable numeric_in : string -> option string.

Lemma identities_ok_categories_post st req :
  identities_ok st -> identities_ok (fst (Categories.post st req)).
Proof.
  intros H. unfold Categories.post.
  destruct (Multer.single _ _ _) as [fs [e|file]]; [exact H|].
  unfold Categories.create_handler.
  destruct (_ || _); [exact H|].
  destruct (category_by_name _ _); [exact H|].
  match goal with
  | |- context [insert_category ?s ?n ?d ?i] =>
      pose proof (identities_ok_insert_category s n d i H) as H';
      destruct (insert_category s n d i) as [? []]
  end; exact H'.
Qed.

Lemma identities_ok_categories_put st req :
  identities_ok st -> identities_ok (fst (Categories.put st req)).
Proof.
  intros H. unfold Categories.put.
  destruct (Multer.single _ _ _) as [fs [e|file]]; [exact H|].
  unfold Categories.update_handler.
  destruct (parseInt _); [|exact H].
  destruct (category_by_id _ _) as [[?|]|?]; [|exact H|exact H].
  match goal with
  | |- context [update_category ?s ?n ?u] =>
      pose proof (identities_ok_update_category s n u H) as H';
      destruct (update_category s n u) as [? []]
  end; exact H'.
Qed.

Lemma identities_ok_categories_delete st req :
  identities_ok st -> identities_ok (fst (Categories.delete st req)).
Proof.
  intros H. unfold Categories.delete.
  destruct (validateRequest _ _); [exact H|].
  unfold Categories.delete_handler.
  destruct (parseInt _); [|exact H].
  destruct (category_by_id _ _) as [[?|]|?]; [|exact H|exact H].
  apply identities_ok_delete_category, H.
Qed.

Lemma identities_ok_upload_step st req :
  identities_ok st -> identities_ok (fst (Products.upload_step st req)).
Proof.
  intros H. unfold Products.upload_step.
  destruct (Multer.array _ _ _) as [fs [[code|message]|uploaded]]; exact H.
Qed.

Lemma identities_ok_products_post st req :
  identities_ok st -> identities_ok (fst (Products.post JSON_parse numeric_in st req)).
Proof.
  intros H. unfold Products.post.
  pose proof (identities_ok_upload_step st req H) as H1.
  destruct (Products.upload_step st req) as [st1 [resp|uploaded]]; [exact H1|].
  simpl in H1. unfold Products.create_handler.
  destruct (_ || _); [exact H1|].
  destruct (Products.create_machineData _ _); [|exact H1].
  destruct (Products.create_categoryIds _ _); [|exact H1].
  match goal with
  | |- context [insert_product ?ni ?s ?n ?d ?p ?i ?m ?h ?x] =>
      pose proof (identities_ok_insert_product ni s n d p i m h x H1) as H';
      destruct (insert_product ni s n d p i m h x) as [? []]
  end; exact H'.
Qed.

Lemma identities_ok_products_put st req :
  identities_ok st -> identities_ok (fst (Products.put JSON_parse st req)).
Proof.
  intros H. unfold Products.put.
  pose proof (identities_ok_upload_step st req H) as H1.
  destruct (Products.upload_step st req) as [st1 [resp|uploaded]]; [exact H1|].
  simpl in H1. unfold Products.update_handler.
  destruct (parseInt _); [|exact H1].
  destruct (product_by_id _ _) as [[?|]|?]; [|exact H1|exact H1].
  destruct (Products.update_machineData _ _); [|exact H1].
  destruct (Products.update_categoryIds _ _); [|exact H1].
  match goal with
  | |- context [update_product ?s ?n ?u] =>
      pose proof (identities_ok_update_product s n u H1) as H';
      destruct (update_product s n u) as [? []]
  end; exact H'.
Qed.

Lemma identities_ok_products_delete st req :
  identities_ok st -> identities_ok (fst (Products.delete st req)).
Proof.
  intros H. unfold Products.delete.
  destruct (validateRequest _ _); [exact H|].
  unfold Products.delete_handler.
  destruct (parseInt _); [|exact H].
  destruct (product_by_id _ _) as [[?|]|?]; [|exact H|exact H].
  apply identities_ok_delete_product, H.
Qed.

Lemma products_get_store st req : fst (Products.get st req) = st.
Proof.
  unfold Products.get, Products.get_handler.
  destruct (parseInt _); [|reflexivity].
  destruct (product_by_id _ _) as [[?|]|?]; [|reflexivity|reflexivity].
  destruct (Products.resolve_by_inArray _ _); reflexivity.
Qed.

Lemma products_get_all_store st : fst (Products.get_all st) = st.
Proof.
  unfold Products.get_all, Products.list_handler.
  destruct (Products.map_rows _ _); reflexivity.
Qed.

Lemma categories_get_store st req : fst (Categories.get st req) = st.
Proof.
  unfold Categories.get, Categories.get_handler.
  destruct (parseInt _); [|reflexivity].
  destruct (category_by_id _ _) as [[?|]|?]; reflexivity.
Qed.

(** Every reachable store has distinct identities in both tables. *)
Lemma reachable_identities_ok st : reachable JSON_parse numeric_in st -> identities_ok st.
Proof.
  induction 1 as [|st c _ IH]; [apply identities_ok_empty|].
  destruct c; simpl.
  - now apply identities_ok_categories_post.
  - exact IH.
  - now rewrite categories_get_store.
  - now apply identities_ok_categories_put.
  - now apply identities_ok_categories_delete.
  - now apply identities_ok_products_post.
  - now rewrite products_get_all_store.
  - now rewrite products_get_store.
  - now apply identities_ok_products_put.
  - now apply identities_ok_products_delete.
Qed.

End ReachableIdentities.

(* ================================================================== *)
(** * Identifiers in the path *)
(* ================================================================== *)

(** C3 fails on the routes that read the parameter with [parseInt]:
    [12abc] is read as 12. The category and product [GET /:id] routes
    answer 200 with row 12, and [PUT /:id] updates row 12; only
    parameters without a leading number, such as [x], are answered
    400. The [DELETE /:id] routes, which validate the parameter
    against [/^\d+$/], do answer 400. *)
Theorem by_id_routes_read_numeric_prefix :
  Categories.get Samples.catalogue (Samples.category_request "12abc" None None [])
  = (Samples.catalogue, respond OK (JCategory (Some Samples.pumps12)))
  /\ Products.get Samples.catalogue (Samples.product_request "12abc")
     = (Samples.catalogue,
        respond OK (JProductWithCategories Samples.press12 []))
  /\ (let '(st', resp) :=
         Categories.put Samples.catalogue
           (Samples.category_request "12abc" (Some "Valves") None []) in
       status resp = OK
       /\ map category_name (category st') = ["Valves"])
  /\ Categories.get Samples.catalogue (Samples.category_request "x" None None [])
     = (Samples.catalogue,
        respond BAD_REQUEST (JError "Invalid category ID format"))
  /\ status (snd (Categories.delete Samples.catalogue
                    (Samples.category_request "12abc" None None [])))
     = BAD_REQUEST.
Proof.
  repeat split; vm_compute; reflexivity.
Qed.

(* ================================================================== *)
(** * Names of categories under update *)
(* ================================================================== *)

(** C10: the name column of the category table carries no unique
    constraint and the update route checks no name, so there is a
    reachable store with distinct category names in which an update
    answered 200 leaves two categories with the same name. *)
Theorem update_category_duplicates_name :
  category_name_unique = false
  /\ exists (st : store) (req : Categories.request),
       (forall JSON_parse numeric_in, App.reachable JSON_parse numeric_in st)
       /\ NoDup (map category_name (category st))
       /\ status (snd (Categories.put st req)) = OK
       /\ ~ NoDup (map category_name (category (fst (Categories.put st req)))).
Proof.
  split; [reflexivity|].
  exists Samples.two_categories,
         (Samples.category_request "2" (Some "Pumps") None []).
  split; [|split; [|split]].
  - intros JSON_parse numeric_in.
    apply (App.reachable_serve JSON_parse numeric_in _
             (App.CategoriesPost Samples.new_valves)).
    apply (App.reachable_serve JSON_parse numeric_in _
             (App.CategoriesPost Samples.new_pumps)).
    apply App.reachable_empty.
  - change (NoDup ["Pumps"; "Valves"]). apply (bool_decide_unpack _). reflexivity.
  - reflexivity.
  - change (~ NoDup ["Pumps"; "Pumps"]).
    intros [H _]%NoDup_cons. apply H. left.
Qed.

(* ================================================================== *)
(** * What the upload middleware writes *)
(* ================================================================== *)

Section UploadFacts.

Import Multer.

(** A file present after the upload was present before it or was
    written for a part the filter included. *)
Lemma receive_files (o : options) (parts : list file_part) :
  forall seen left written fs fs' r,
    receive o parts seen left written fs = (fs', r) ->
    forall f, f ∈ fs' ->
      f ∈ fs \/ exists p, In p parts /\ fileFilter o p = Include
                          /\ f = file_path (store_file o p).
Proof.
  induction parts as [|p rest IH]; intros seen left written fs fs' r; simpl.
  - intros [= <- _] f Hf. now left.
  - assert (Habort : forall e, abort fs written e = (fs', r) ->
              forall f, f ∈ fs' -> f ∈ fs \/ exists q, (p = q \/ In q rest)
                /\ fileFilter o q = Include /\ f = file_path (store_file o q)).
    { intros e [= <- _] f Hf. left. apply elem_of_difference in Hf. tauto. }
    assert (Hnext : forall seen' left' written' fs0,
              receive o rest seen' left' written' fs0 = (fs', r) ->
              (forall f, f ∈ fs0 -> f ∈ fs \/ (fileFilter o p = Include
                                             /\ f = file_path (store_file o p))) ->
              forall f, f ∈ fs' -> f ∈ fs \/ exists q, (p = q \/ In q rest)
                /\ fileFilter o q = Include /\ f = file_path (store_file o q)).
    { intros seen' left' written' fs0 Hr Hfs0 f Hf.
      destruct (IH _ _ _ _ _ _ Hr f Hf) as [H0|(q & Hq & Hinc & ->)].
      - destruct (Hfs0 f H0) as [?|[? ?]]; [now left|right; exists p; auto].
      - right. exists q. auto. }
    destruct (match files_limit o with Some n => (n <=? seen)%nat | None => false end);
      [apply Habort|].
    destruct (String.eqb (originalname p) "");
      [intros Hr; apply (Hnext _ _ _ _ Hr); auto|].
    destruct (negb _ || _); [apply Habort|].
    destruct (fileFilter o p) eqn:Hverdict; [| |apply Habort].
    + destruct (fileSize o <=? size p)%N; [apply Habort|].
      intros Hr. apply (Hnext _ _ _ _ Hr).
      intros f [->%elem_of_singleton|Hf]%elem_of_union; auto.
    + intros Hr; apply (Hnext _ _ _ _ Hr); auto.
Qed.

(** An upload whose single part is refused by the filter writes
    nothing and ends with the filter's error or, for a part under
    another field, with an unexpected-file error. *)
Lemma receive_refused (o : options) (p : file_part) (message : string)
    (left : nat) (fs : gset string) :
  files_limit o = None ->
  originalname p <> "" ->
  fileFilter o p = Refuse message ->
  exists e, receive o [p] 0 left [] fs = (fs, inl e).
Proof.
  intros Hlimit Hname Hrefuse. simpl. rewrite Hlimit, Hrefuse.
  destruct (String.eqb_spec (originalname p) ""); [contradiction|].
  unfold abort. simpl. rewrite difference_empty_L.
  destruct (negb _ || _); eauto.
Qed.

(** An upload whose single part is skipped by the filter, or has no
    file name, writes nothing and yields no file. *)
Lemma receive_skipped (o : options) (p : file_part) (n : nat) (fs : gset string) :
  files_limit o = Some (S n) ->
  fieldname p = field o ->
  fileFilter o p = Skip ->
  receive o [p] 0 (S n) [] fs = (fs, inr []).
Proof.
  intros Hlimit Hfield Hskip. simpl. rewrite Hlimit, Hskip, Hfield. simpl.
  rewrite String.eqb_refl. simpl. now destruct (String.eqb (originalname p) "").
Qed.

End UploadFacts.

(* ================================================================== *)
(** * Uploads the filters do not let through *)
(* ================================================================== *)

Section FilterFacts.

Lemma set_files_same (st : store) : set_files st (files st) = st.
Proof. now destruct st. Qed.

Lemma categories_filter_include p :
  Categories.fileFilter p = Multer.Include -> passes_filter p = true.
Proof.
  unfold Categories.fileFilter, passes_filter. now destruct (_ && _).
Qed.

Lemma products_filter_include p :
  Products.fileFilter p = Multer.Include -> passes_filter p = true.
Proof.
  unfold Products.fileFilter, passes_filter. now destruct (_ && _).
Qed.

Lemma files_insert_category st name description imageUrl :
  files (fst (insert_category st name description imageUrl)) = files st.
Proof.
  unfold insert_category.
  destruct (varchar 100 name), (varchar 300 description); reflexivity.
Qed.

Lemma files_update_category st id u :
  files (fst (update_category st id u)) = files st.
Proof.
  unfold update_category. destruct (category_set_empty u); [reflexivity|].
  destruct (varchar_set 100 _) as [name|]; [|reflexivity].
  destruct (varchar_set 300 _) as [description|]; [|reflexivity].
  now destruct (_ && _).
Qed.

Lemma files_update_product st id u :
  files (fst (update_product st id u)) = files st.
Proof. unfold update_product. now destruct (product_set_empty u). Qed.

Lemma files_create_handler st req file :
  files (fst (Categories.create_handler st req file)) = files st.
Proof.
  unfold Categories.create_handler.
  destruct (_ || _); [reflexivity|].
  destruct (category_by_name _ _); [reflexivity|].
  match goal with
  | |- context [insert_category ?s ?n ?d ?i] =>
      pose proof (files_insert_category s n d i) as H;
      destruct (insert_category s n d i) as [? []]
  end; exact H.
Qed.

Lemma unlink_if_exists_subseteq fs p f : f ∈ unlink_if_exists fs p -> f ∈ fs.
Proof.
  unfold unlink_if_exists. destruct (decide (p ∈ fs)); [|auto].
  rewrite elem_of_difference. tauto.
Qed.

Lemma files_update_handler st req file f :
  f ∈ files (fst (Categories.update_handler st req file)) -> f ∈ files st.
Proof.
  unfold Categories.update_handler.
  destruct (parseInt _); [|auto].
  destruct (category_by_id _ _) as [[existing|]|?]; [|auto|auto].
  match goal with
  | |- context [update_category ?s ?n ?u] =>
      pose proof (files_update_category s n u) as H;
      destruct (update_category s n u) as [? []]
  end; simpl in *; rewrite H;
    (destruct file, (category_imageUrl existing) as [old|]; auto;
     destruct (negb (String.eqb old "")); auto; apply unlink_if_exists_subseteq).
Qed.

Lemma files_insert_product numeric_in st name description price icp md sih hi :
  files (fst (insert_product numeric_in st name description price icp md sih hi))
  = files st.
Proof.
  unfold insert_product.
  destruct (varchar 100 name); [|reflexivity].
  destruct (match price with Some text => Some <$> numeric_in text | None => Some None end);
    [|reflexivity].
  destruct (integer_in hi); reflexivity.
Qed.

Lemma files_products_create_handler JSON_parse numeric_in st req uploaded :
  files (fst (Products.create_handler JSON_parse numeric_in st req uploaded))
  = files st.
Proof.
  unfold Products.create_handler.
  destruct (_ || _); [reflexivity|].
  destruct (Products.create_machineData _ _); [|reflexivity].
  destruct (Products.create_categoryIds _ _); [|reflexivity].
  match goal with
  | |- context [insert_product ?ni ?s ?n ?d ?p ?i ?m ?h ?x] =>
      pose proof (files_insert_product ni s n d p i m h x) as H;
      destruct (insert_product ni s n d p i m h x) as [? []]
  end; exact H.
Qed.

Lemma files_products_update_handler JSON_parse st req :
  files (fst (Products.update_handler JSON_parse st req)) = files st.
Proof.
  unfold Products.update_handler.
  destruct (parseInt _); [|reflexivity].
  destruct (product_by_id _ _) as [[?|]|?]; [|reflexivity|reflexivity].
  destruct (Products.update_machineData _ _); [|reflexivity].
  destruct (Products.update_categoryIds _ _); [|reflexivity].
  match goal with
  | |- context [update_product ?s ?n ?u] =>
      pose proof (files_update_product s n u) as H;
      destruct (update_product s n u) as [? []]
  end; exact H.
Qed.

(** The files a category create or update leaves behind were there
    before or belong to a part that passes the filter. *)
Lemma categories_upload_files st req f :
  f ∈ files (fst (Categories.post st req))
  \/ f ∈ files (fst (Categories.put st req)) ->
  f ∈ files st
  \/ exists q, In q (Categories.file_parts req) /\ passes_filter q = true
               /\ f = "uploads/categories/" ++ Multer.filename q.
Proof.
  assert (Hw : forall fs' r,
            Multer.receive Categories.upload (Categories.file_parts req) 0 1 []
                           (files st) = (fs', r) ->
            f ∈ fs' ->
            f ∈ files st
            \/ exists q, In q (Categories.file_parts req) /\ passes_filter q = true
                         /\ f = "uploads/categories/" ++ Multer.filename q).
  { intros fs' r Hr Hf.
    destruct (receive_files _ _ _ _ _ _ _ _ Hr f Hf) as [?|(q & Hq & Hinc & ->)];
      [now left|right].
    exists q. auto using categories_filter_include. }
  unfold Categories.post, Categories.put, Multer.single.
  destruct (Multer.receive _ _ _ _ _ _) as [fs' [e|fl]] eqn:Hr;
    intros [Hf|Hf]; try (apply (Hw _ _ eq_refl); exact Hf).
  - apply (Hw _ _ eq_refl).
    pose proof (files_create_handler (set_files st fs') req (head fl)) as H.
    destruct (Categories.create_handler _ _ _). simpl in *. now rewrite H in Hf.
  - apply (Hw _ _ eq_refl).
    pose proof (files_update_handler (set_files st fs') req (head fl) f) as H.
    destruct (Categories.update_handler _ _ _). simpl in *. auto.
Qed.

Lemma products_upload_step_files st req f :
  f ∈ files (fst (Products.upload_step st req)) ->
  f ∈ files st
  \/ exists q, In q (Products.file_parts req) /\ passes_filter q = true
               /\ f = "uploads/products/" ++ Multer.filename q.
Proof.
  unfold Products.upload_step, Multer.array.
  destruct (Multer.receive _ _ _ _ _ _) as [fs' r] eqn:Hr. intros Hf.
  assert (Hf' : f ∈ fs') by (destruct r as [[code|message]|uploaded]; exact Hf).
  destruct (receive_files _ _ _ _ _ _ _ _ Hr f Hf') as [?|(q & Hq & Hinc & ->)];
    [now left|right].
  exists q. auto using products_filter_include.
Qed.

Lemma products_upload_files JSON_parse numeric_in st req f :
  f ∈ files (fst (Products.post JSON_parse numeric_in st req))
  \/ f ∈ files (fst (Products.put JSON_parse st req)) ->
  f ∈ files st
  \/ exists q, In q (Products.file_parts req) /\ passes_filter q = true
               /\ f = "uploads/products/" ++ Multer.filename q.
Proof.
  intros H. apply products_upload_step_files.
  unfold Products.post, Products.put in H.
  destruct (Products.upload_step st req) as [st1 [resp|uploaded]]; [tauto|].
  pose proof (files_products_create_handler JSON_parse numeric_in st1 req uploaded)
    as H1.
  pose proof (files_products_update_handler JSON_parse st1 req) as H2.
  destruct (Products.create_handler _ _ _ _ _), (Products.update_handler _ _ _).
  simpl in *. rewrite H1, H2 in H. tauto.
Qed.

End FilterFacts.

(** C4, as the code has it: a file part whose lower-cased extension or
    MIME type contains none of [jpeg], [jpg], [png], [webp] is never
    written: whatever a create or update request carrying it leaves in
    the file store was there before or belongs to a part that passes
    the filter. A category request whose only part is such a file is
    answered 500 (the filter's error reaches the framework's handler)
    with the store unchanged; a product request whose only part is
    such a file, sent under [images], is served as if it carried no
    file. *)
Theorem filtered_upload_is_not_stored (JSON_parse : string -> result jsval)
    (numeric_in : string -> option string)
    (st : store) (p : Multer.file_part) :
  passes_filter p = false ->
  (forall req f,
     In p (Categories.file_parts req) ->
     f ∈ files (fst (Categories.post st req))
     \/ f ∈ files (fst (Categories.put st req)) ->
     f ∈ files st
     \/ exists q, In q (Categories.file_parts req) /\ passes_filter q = true
                  /\ f = "uploads/categories/" ++ Multer.filename q)
  /\ (forall req f,
        In p (Products.file_parts req) ->
        f ∈ files (fst (Products.post JSON_parse numeric_in st req))
        \/ f ∈ files (fst (Products.put JSON_parse st req)) ->
        f ∈ files st
        \/ exists q, In q (Products.file_parts req) /\ passes_filter q = true
                     /\ f = "uploads/products/" ++ Multer.filename q)
  /\ (forall req,
        Categories.file_parts req = [p] -> Multer.originalname p <> "" ->
        fst (Categories.post st req) = st
        /\ status (snd (Categories.post st req)) = INTERNAL_SERVER_ERROR
        /\ fst (Categories.put st req) = st
        /\ status (snd (Categories.put st req)) = INTERNAL_SERVER_ERROR)
  /\ (forall req,
        Products.file_parts req = [p] -> Multer.fieldname p = "images" ->
        Products.post JSON_parse numeric_in st req
        = Products.post JSON_parse numeric_in st (without_files req)
        /\ Products.put JSON_parse st req
           = Products.put JSON_parse st (without_files req)).
Proof.
  intros Hp. split; [|split; [|split]].
  - intros req f _. apply categories_upload_files.
  - intros req f _. apply products_upload_files.
  - intros req Hparts Hname.
    assert (Hrefuse : Multer.fileFilter Categories.upload p
                      = Multer.Refuse "Only image files (jpeg, jpg, png, webp) are allowed").
    { simpl. unfold Categories.fileFilter. unfold passes_filter in Hp. now rewrite Hp. }
    destruct (receive_refused Categories.upload p _ 1 (files st) eq_refl Hname Hrefuse)
      as [e He].
    unfold Categories.post, Categories.put, Multer.single.
    rewrite Hparts, He. simpl. now rewrite set_files_same.
  - intros req Hparts Hfield.
    assert (Hskip : Multer.fileFilter Products.upload p = Multer.Skip).
    { simpl. unfold Products.fileFilter. unfold passes_filter in Hp. now rewrite Hp. }
    pose proof (receive_skipped Products.upload p 9 (files st) eq_refl Hfield Hskip)
      as Hr.
    unfold Products.post, Products.put, Products.upload_step, Multer.array.
    rewrite Hparts. change (Multer.maxCount Products.upload) with 10%nat.
    rewrite Hr. split; reflexivity.
Qed.

(** A GIF sent with a category and with a product. *)
Lemma filtered_upload_is_not_stored_witness :
  passes_filter (Samples.gif "image") = false
  /\ fst (Categories.post empty_store
            (Samples.category_request "" (Some "Pumps") (Some "Industrial pumps unit")
                                      [Samples.gif "image"]))
     = empty_store
  /\ Products.post (Samples.JSON_parse_table []) Samples.numeric_sample
       empty_store (Samples.new_press [Samples.gif "images"])
     = Products.post (Samples.JSON_parse_table []) Samples.numeric_sample
         empty_store (without_files (Samples.new_press [Samples.gif "images"])).
Proof.
  split; [reflexivity|]. split.
  - destruct (filtered_upload_is_not_stored (Samples.JSON_parse_table [])
                Samples.numeric_sample empty_store
                (Samples.gif "image") eq_refl) as (_ & _ & H & _).
    apply (H (Samples.category_request "" (Some "Pumps")
                (Some "Industrial pumps unit") [Samples.gif "image"]) eq_refl).
    discriminate.
  - destruct (filtered_upload_is_not_stored (Samples.JSON_parse_table [])
                Samples.numeric_sample empty_store
                (Samples.gif "images") eq_refl) as (_ & _ & _ & H).
    apply (H (Samples.new_press [Samples.gif "images"]) eq_refl eq_refl).
Defined.

(** C4 as stated fails: a GIF sent with a product is dropped and the
    product is created (201), and a GIF sent with a category is
    answered 500; neither is a 400. *)
Lemma gif_upload_is_not_answered_400 :
  passes_filter (Samples.gif "images") = false
  /\ status (snd (Products.post (Samples.JSON_parse_table [])
                    Samples.numeric_sample empty_store
                    (Samples.new_press [Samples.gif "images"])))
     = CREATED
  /\ status (snd (Categories.post empty_store
                    (Samples.category_request "" (Some "Pumps")
                       (Some "Industrial pumps unit") [Samples.gif "image"])))
     = INTERNAL_SERVER_ERROR
  /\ CREATED <> BAD_REQUEST /\ INTERNAL_SERVER_ERROR <> BAD_REQUEST.
Proof.
  repeat split; try discriminate; vm_compute; reflexivity.
Qed.

(* ================================================================== *)
(** * Resolving a product's categories *)
(* ================================================================== *)

Section Resolution.

Import Products.

Lemma filter_rows_total {A} (test : A -> result bool) (keep : A -> bool) rows :
  (forall x, test x = Ok (keep x)) ->
  filter_rows test rows = Ok (List.filter keep rows).
Proof.
  intros H. induction rows as [|x rows IH]; simpl; [reflexivity|].
  now rewrite H, IH.
Qed.

Lemma filter_none {A} (rows : list A) : List.filter (fun _ => false) rows = [].
Proof. induction rows; auto. Qed.

Lemma strict_eq_num_int4 v id :
  int4_number v ->
  to_int4_param v <> PInvalid
  /\ strict_eq_num v id = param_matches id (to_int4_param v).
Proof.
  intros (n & z & -> & Hz & Hr). simpl. rewrite Hz, Hr. split; [discriminate|].
  destruct n as [| |q]; try discriminate. simpl in *.
  destruct (decide (Qden (Qred q) = 1%positive)) as [Hden|]; [|discriminate].
  injection Hz as <-.
  assert (Hq : (q == inject_Z (Qnum (Qred q)))%Q).
  { rewrite <- (Qred_correct q) at 1. unfold inject_Z, Qeq. simpl. rewrite Hden. lia. }
  apply Bool.eq_iff_eq_true. rewrite Qeq_bool_iff, Z.eqb_eq. split.
  - intros H. unfold Qeq in Hq, H. simpl in Hq, H.
    assert (Hpos : (0 < Z.pos (Qden q))%Z) by lia. nia.
  - intros ->. exact Hq.
Qed.

Lemma existsb_int4 l id :
  List.Forall int4_number l ->
  existsb (fun p => match p with PInvalid => true | _ => false end)
          (map to_int4_param l) = false
  /\ existsb (fun v => strict_eq_num v id) l
     = existsb (param_matches id) (map to_int4_param l).
Proof.
  induction 1 as [|v l Hv _ [IH1 IH2]]; simpl; [auto|].
  destruct (strict_eq_num_int4 v id Hv) as [Hne ->]. rewrite IH1, IH2.
  split; [|reflexivity]. now destruct (to_int4_param v).
Qed.

End Resolution.

(** C5, as the code has it: for a product whose attribute bag has no
    [categories] entry, or has an array of integers there, the list
    route's filter and the by-id route's query resolve the same
    category rows. *)
Theorem category_resolution_agrees (st : store) (prod : product_row) :
  (product_machineData prod !! "categories" = None
   \/ exists l, product_machineData prod !! "categories" = Some (VArr l)
                /\ List.Forall int4_number l) ->
  exists rows,
    Products.resolve_by_filter (category st) prod = Ok rows
    /\ Products.resolve_by_inArray st prod = Ok rows.
Proof.
  unfold Products.resolve_by_filter, Products.resolve_by_inArray.
  intros [->|(l & -> & Hl)].
  - exists []. split; [|reflexivity].
    rewrite (filter_rows_total _ (fun _ => false)) by reflexivity.
    now rewrite filter_none.
  - exists (List.filter (fun cat => existsb (fun v => strict_eq_num v (category_id cat)) l)
                        (category st)).
    split; [now apply filter_rows_total|].
    destruct l as [|v l]; [simpl; now rewrite filter_none|].
    unfold Products.category_in_array.
    destruct (existsb_int4 (v :: l) 0 Hl) as [-> _].
    f_equal. apply filter_ext. intros cat.
    now destruct (existsb_int4 (v :: l) (category_id cat) Hl) as [_ ->].
Qed.

(** A product of the second category, resolved both ways. *)
Lemma category_resolution_agrees_witness :
  Products.resolve_by_filter (category Samples.two_categories) Samples.valve_product
  = Ok [Samples.valves]
  /\ Products.resolve_by_inArray Samples.two_categories Samples.valve_product
     = Ok [Samples.valves].
Proof.
  assert (H : product_machineData Samples.valve_product !! "categories" = None
              \/ exists l, product_machineData Samples.valve_product !! "categories"
                           = Some (VArr l)
                           /\ List.Forall int4_number l).
  { right. exists [VNum (num_of_Z 2)]. split; [vm_compute; reflexivity|].
    repeat constructor. exists (num_of_Z 2), 2%Z. repeat split; reflexivity. }
  destruct (category_resolution_agrees Samples.two_categories Samples.valve_product H)
    as (rows & H1 & H2).
  assert (E : Products.resolve_by_filter (category Samples.two_categories)
                Samples.valve_product = Ok [Samples.valves])
    by (vm_compute; reflexivity).
  rewrite E in H1. injection H1 as <-. split; [exact E | exact H2].
Defined.

(** C5 as stated fails: after an update has put a number under
    [categories], the list route's filter throws (the list is answered
    500) while the by-id route resolves no category (and answers 200). *)
Lemma category_resolution_differs :
  App.reachable Samples.JSON_sample Samples.numeric_sample Samples.bag_with_number
  /\ product Samples.bag_with_number = [Samples.press_with_number]
  /\ Products.resolve_by_filter (category Samples.bag_with_number)
       Samples.press_with_number
     = Throw (Error "machineData.categories?.includes is not a function")
  /\ Products.resolve_by_inArray Samples.bag_with_number Samples.press_with_number
     = Ok []
  /\ status (snd (Products.get_all Samples.bag_with_number)) = INTERNAL_SERVER_ERROR
  /\ status (snd (Products.get Samples.bag_with_number (Samples.product_request "1")))
     = OK.
Proof.
  split.
  { apply (App.reachable_serve _ _ _
             (App.ProductsPut (Samples.update_bag "1" Samples.categories_5_text))).
    apply (App.reachable_serve _ _ _ (App.ProductsPost (Samples.new_press []))).
    apply (App.reachable_serve _ _ _ (App.CategoriesPost Samples.new_valves)).
    apply (App.reachable_serve _ _ _ (App.CategoriesPost Samples.new_pumps)).
    apply App.reachable_empty. }
  repeat split; vm_compute; reflexivity.
Qed.

(** The two resolutions also part on an array that holds an id as a
    string: the filter compares strictly and finds nothing, the query
    reads the parameter as an integer and finds the category. *)
Example category_resolution_differs_on_strings :
  let prod :=
    {| product_id := 7; product_name := "Ball valve"; product_price := None;
       product_isContactForPrice := VBool false;
       product_description := "Two-piece ball valve";
       product_machineData := {["categories" := VArr [VStr "2"]]};
       product_showInHero := VBool false; product_heroIndex := VNum (Fin 0) |} in
  Products.resolve_by_filter (category Samples.two_categories) prod = Ok []
  /\ Products.resolve_by_inArray Samples.two_categories prod = Ok [Samples.valves].
Proof. split; vm_compute; reflexivity. Qed.

(* ================================================================== *)
(** * Partial updates of a product's attribute bag *)
(* ================================================================== *)

Section UpdateFrame.

Import Products.

Variable JSON_parse : string -> result jsval.

Lemma bag_preserved_refl req rows : Forall2 (bag_preserved JSON_parse req) rows rows.
Proof. induction rows; constructor; auto. now split. Qed.

Lemma product_by_id_found (st : store) (p : product_row) :
  NoDup (map product_id (product st)) -> In p (product st) ->
  find_product st (product_id p) = Some p.
Proof.
  unfold find_product. induction (product st) as [|x l IH]; intros Hnd Hin.
  - destruct Hin.
  - simpl in *. apply NoDup_cons in Hnd as [Hx Hl].
    destruct Hin as [->|Hin].
    + now rewrite Z.eqb_refl.
    + destruct (Z.eqb_spec (product_id x) (product_id p)) as [E|_]; [|auto].
      exfalso. apply Hx. rewrite E. apply list_elem_of_In, in_map, Hin.
Qed.

Lemma merge_preserves req existing pm pc k :
  update_machineData JSON_parse (body_machineData req) = Ok pm ->
  update_categoryIds JSON_parse (body_categoryIds req) = Some pc ->
  ~ payload_has_key JSON_parse req k ->
  merge_machineData existing pm pc !! k = existing !! k.
Proof.
  intros Hpm Hpc Hk. unfold merge_machineData.
  assert (Hcat : pc <> None -> k <> "categories").
  { intros Hsome ->. apply Hk. right. split; [reflexivity|].
    intros E. rewrite E in Hpc. simpl in Hpc. congruence. }
  assert (Hmerged : match pm with
                    | Some v => own_properties v ∪ existing
                    | None => existing
                    end !! k = existing !! k).
  { destruct pm as [v|]; [|reflexivity].
    apply lookup_union_r. destruct (own_properties v !! k) eqn:E; [|reflexivity].
    exfalso. apply Hk. left. unfold update_machineData in Hpm.
    destruct (body_machineData req) as [text|]; [|discriminate].
    exists text, v. destruct (JSON_parse text); [|discriminate].
    injection Hpm as ->. rewrite E. eauto. }
  destruct pc; [|exact Hmerged].
  rewrite lookup_insert_ne; [exact Hmerged|]. intros E. now apply Hcat.
Qed.

Lemma update_product_preserves (st : store) req id existing pm pc :
  NoDup (map product_id (product st)) ->
  find_product st id = Some existing ->
  update_machineData JSON_parse (body_machineData req) = Ok pm ->
  update_categoryIds JSON_parse (body_categoryIds req) = Some pc ->
  Forall2 (bag_preserved JSON_parse req) (product st)
          (product (fst (update_product st id (updateData req existing pm pc)))).
Proof.
  intros Hnd Hfound Hpm Hpc. unfold update_product.
  destruct (product_set_empty _); [apply bag_preserved_refl|].
  unfold set_product. simpl.
  assert (Hrow : forall p, In p (product st) -> product_id p = id -> p = existing).
  { intros p Hin Hp. pose proof (product_by_id_found st p Hnd Hin) as H.
    rewrite Hp in H. congruence. }
  revert Hrow. clear Hnd Hfound.
  induction (product st) as [|p rows IH]; intros Hrow; simpl; constructor.
  - destruct (Z.eqb_spec (product_id p) id) as [Hp|_]; [|now split].
    rewrite (Hrow p (or_introl eq_refl) Hp). split; [reflexivity|].
    intros k Hk. simpl.
    destruct pm, pc; simpl; try reflexivity;
      now apply (merge_preserves req _ _ _ k Hpm Hpc).
  - apply IH. intros q Hq. apply Hrow. now right.
Qed.

Lemma product_upload_step st req : product (fst (upload_step st req)) = product st.
Proof.
  unfold upload_step.
  destruct (Multer.array _ _ _) as [fs [[code|message]|uploaded]]; reflexivity.
Qed.

End UpdateFrame.

(** C6: on a table with distinct ids, whatever an update request
    does, every stored product keeps its id and, under every key the
    payload does not supply, the value its attribute bag had before;
    when the payload supplies neither [machineData] nor [categoryIds]
    (only a price, say) the whole bag of every product is unchanged. *)
Theorem product_update_preserves_bag (JSON_parse : string -> result jsval)
    (st : store) (req : Products.request) :
  NoDup (map product_id (product st)) ->
  Forall2 (bag_preserved JSON_parse req) (product st)
          (product (fst (Products.put JSON_parse st req)))
  /\ (Products.body_machineData req = None ->
      Products.body_categoryIds req = VUndefined ->
      Forall2 (fun before after =>
                 product_machineData after = product_machineData before)
              (product st) (product (fst (Products.put JSON_parse st req)))).
Proof.
  intros Hnd.
  assert (H : Forall2 (bag_preserved JSON_parse req) (product st)
                      (product (fst (Products.put JSON_parse st req)))).
  { unfold Products.put.
    pose proof (product_upload_step st req) as Hup.
    destruct (Products.upload_step st req) as [st1 [resp|uploaded]]; simpl in Hup;
      [simpl; rewrite Hup; apply bag_preserved_refl|].
    rewrite <- Hup in Hnd |- *. unfold Products.update_handler.
    destruct (parseInt _) as [id|]; [|apply bag_preserved_refl].
    unfold product_by_id.
    destruct (in_int4 id); [|apply bag_preserved_refl].
    destruct (find_product st1 id) as [existing|] eqn:Hfound;
      [|apply bag_preserved_refl].
    destruct (Products.update_machineData _ _) as [pm|] eqn:Hpm;
      [|apply bag_preserved_refl].
    destruct (Products.update_categoryIds _ _) as [pc|] eqn:Hpc;
      [|apply bag_preserved_refl].
    pose proof (update_product_preserves JSON_parse st1 req id existing pm pc
                  Hnd Hfound Hpm Hpc) as Hrows.
    destruct (update_product _ _ _) as [st' [updated|e]]; exact Hrows. }
  split; [exact H|]. intros Hmd Hids.
  eapply Forall2_impl; [exact H|]. intros before after [_ Hkeys].
  apply map_eq. intros k. apply Hkeys.
  intros [(text & v & Htext & _)|[_ Hne]]; congruence.
Qed.

(** An update of the bag and an update of the price alone. *)
Lemma product_update_preserves_bag_witness :
  Forall2 (bag_preserved Samples.JSON_sample
             (Samples.update_bag "1" Samples.weight_text))
          (product Samples.with_press)
          (product (fst (Products.put Samples.JSON_sample Samples.with_press
                           (Samples.update_bag "1" Samples.weight_text))))
  /\ Forall2 (fun before after =>
                product_machineData after = product_machineData before)
             (product Samples.with_press)
             (product (fst (Products.put Samples.JSON_sample Samples.with_press
                              (Samples.update_price "1" "99.00")))).
Proof.
  assert (Hnd : NoDup (map product_id (product Samples.with_press))).
  { replace (map product_id (product Samples.with_press)) with [1%Z]
      by (vm_compute; reflexivity).
    apply NoDup_singleton. }
  split.
  - apply (product_update_preserves_bag Samples.JSON_sample Samples.with_press
             (Samples.update_bag "1" Samples.weight_text) Hnd).
  - apply (product_update_preserves_bag Samples.JSON_sample Samples.with_press
             (Samples.update_price "1" "99.00") Hnd); reflexivity.
Defined.

(** The update with [{ weight: 5, images: [] }] at work: the bag gains
    [weight], and [categories], which the payload does not name, stays. *)
Example update_bag_weight :
  map (fun p => (product_machineData p !! "weight",
                 product_machineData p !! "categories",
                 product_price p))
      (product (fst (Products.put Samples.JSON_sample Samples.with_press
                       (Samples.update_bag "1" Samples.weight_text))))
  = [(Some (VNum (num_of_Z 5)), Some (VArr []), None)].
Proof. vm_compute. reflexivity. Qed.

(* ================================================================== *)
(** * The row a product create stores *)
(* ================================================================== *)

Section CreateFacts.

Import Products.

Variable JSON_parse : string -> result jsval.
Variable numeric_in : string -> option string.



(** A request with a name and a description, whose upload goes
    through, whose [machineData] and [categoryIds] fields parse and
    whose row the table takes, is answered 201. *)
Lemma post_creates (st st1 : store) (req : request) uploaded parsed ids st' row :
  upload_step st req = (st1, inr uploaded) ->
  truthy_text (body_name req) = true ->
  truthy_text (body_description req) = true ->
  create_machineData JSON_parse (body_machineData req) = Ok parsed ->
  create_categoryIds JSON_parse (body_categoryIds req) = Some ids ->
  insert_product numeric_in st1 (default "" (body_name req))
    (default "" (body_description req))
    (if truthy_text (body_price req) then body_price req else None)
    (VBool (true_or_string_true (body_isContactForPrice req)))
    (<["categories" := VArr (map VNum ids)]>
       (<["images" := VArr (map VStr (map image_url uploaded))]>
          (own_properties parsed)))
    (VBool (true_or_string_true (body_showInHero req)))
    (VNum (num_or (Number (body_heroIndex req)) (Fin 0))) = (st', Ok row) ->
  post JSON_parse numeric_in st req = (st', respond CREATED (JProduct (Some row))).
Proof.
  intros Hup Hname Hdescription Hparsed Hids Hins.
  unfold post, create_handler.
  rewrite Hup, Hname, Hdescription, Hparsed, Hids. simpl. now rewrite Hins.
Qed.










End CreateFacts.






(* ================================================================== *)
(** * Logging in *)
(* ================================================================== *)

Section LoginFacts.

Import Auth.

Lemma authSchema_parse_valid (req : request) (username password : string) :
  body_username req = VStr username -> (3 <= String.length username)%nat ->
  body_password req = VStr password -> (6 <= String.length password)%nat ->
  authSchema_parse req = Ok (username, password).
Proof.
  intros Hu Hlu Hp Hlp. unfold authSchema_parse, string_min. rewrite Hu, Hp.
  destruct (Nat.ltb_spec (String.length username) 3); [lia|].
  destruct (Nat.ltb_spec (String.length password) 6); [lia|].
  reflexivity.
Qed.

End LoginFacts.

(** C8, as the code has it: for a login request whose body passes the
    schema (a username of at least 3 characters and a password of at
    least 6), the answer is 401 with [Invalid credentials] when no user
    has the username or the hash comparison fails, and otherwise 200
    with a token that decodes to the user's id and name and verifies
    under the secret for the next 24 hours. The store is never
    changed. *)
Theorem login_spec (env_JWT_SECRET : option string)
    (bcrypt_compare : string -> string -> bool)
    (st : store) (req : Auth.request) (username password : string) :
  Auth.body_username req = VStr username -> (3 <= String.length username)%nat ->
  Auth.body_password req = VStr password -> (6 <= String.length password)%nat ->
  (users_by_username st username = None
   \/ (exists user, users_by_username st username = Some user
                    /\ bcrypt_compare password (users_password user) = false) ->
   Auth.login env_JWT_SECRET bcrypt_compare st req
   = (st, respond UNAUTHORIZED (JError "Invalid credentials")))
  /\ (forall user,
        users_by_username st username = Some user ->
        bcrypt_compare password (users_password user) = true ->
        exists t,
          Auth.login env_JWT_SECRET bcrypt_compare st req
          = (st, respond OK (JLogin t (users_id user) (users_username user)))
          /\ Jwt.decode t = {| Jwt.userId := users_id user;
                               Jwt.username := users_username user |}
          /\ users_username user = username
          /\ forall later, (Auth.now req <= later < Auth.now req + 86400)%Z ->
               Jwt.verify t (Auth.JWT_SECRET env_JWT_SECRET) later
               = Ok {| Jwt.userId := users_id user;
                       Jwt.username := users_username user |}).
Proof.
  intros Hu Hlu Hp Hlp. unfold Auth.login, Auth.login_handler.
  rewrite (authSchema_parse_valid req username password Hu Hlu Hp Hlp). split.
  - intros [->|(user & -> & ->)]; reflexivity.
  - intros user Huser Hok. rewrite Huser, Hok. simpl. eexists.
    split; [reflexivity|]. split; [reflexivity|]. split.
    + unfold users_by_username in Huser. apply find_some in Huser as [_ E].
      now apply String.eqb_eq in E.
    + intros later Hlater. unfold Jwt.verify, Auth.generateToken, Jwt.sign. simpl.
      rewrite String.eqb_refl. simpl.
      change (24 * 60 * 60)%Z with 86400%Z.
      destruct (Z.leb_spec (Auth.now req + 86400) later); [lia|reflexivity].
Qed.

(** A wrong password, an unknown user and the right credentials. *)
Lemma login_spec_witness :
  Auth.login None Samples.bcrypt_compare_sample Samples.with_admin
    (Samples.credentials "admin" "wrong-pass")
  = (Samples.with_admin, respond UNAUTHORIZED (JError "Invalid credentials"))
  /\ Auth.login None Samples.bcrypt_compare_sample Samples.with_admin
       (Samples.credentials "nobody" "s3cret-pass")
     = (Samples.with_admin, respond UNAUTHORIZED (JError "Invalid credentials"))
  /\ exists t,
       Auth.login None Samples.bcrypt_compare_sample Samples.with_admin
         (Samples.credentials "admin" "s3cret-pass")
       = (Samples.with_admin, respond OK (JLogin t 1 "admin"))
       /\ Jwt.decode t = {| Jwt.userId := 1; Jwt.username := "admin" |}.
Proof.
  assert (H3 : (3 <= 5)%nat) by lia. assert (H6 : (6 <= 10)%nat) by lia.
  assert (H6' : (6 <= 11)%nat) by lia. assert (H3' : (3 <= 6)%nat) by lia.
  split; [|split].
  - apply (login_spec None Samples.bcrypt_compare_sample Samples.with_admin
             (Samples.credentials "admin" "wrong-pass") "admin" "wrong-pass"
             eq_refl H3 eq_refl H6).
    right. eexists. split; reflexivity.
  - apply (login_spec None Samples.bcrypt_compare_sample Samples.with_admin
             (Samples.credentials "nobody" "s3cret-pass") "nobody" "s3cret-pass"
             eq_refl H3' eq_refl H6').
    left. reflexivity.
  - destruct (login_spec None Samples.bcrypt_compare_sample Samples.with_admin
                (Samples.credentials "admin" "s3cret-pass") "admin" "s3cret-pass"
                eq_refl H3 eq_refl H6') as [_ H].
    destruct (H _ eq_refl eq_refl) as (t & Hlogin & Hdecode & _).
    exists t. split; [exact Hlogin | exact Hdecode].
Defined.

(** C8 as stated fails: a request whose username is too short for the
    schema is answered 400 by the larger error wrapper and 500 by the
    smaller one, although no user has that name. *)
Lemma login_short_username_is_not_401 :
  users_by_username Samples.with_admin "ab" = None
  /\ Auth.login None Samples.bcrypt_compare_sample Samples.with_admin
       (Samples.credentials "ab" "s3cret-pass")
     = (Samples.with_admin,
        respond BAD_REQUEST
          (JValidationIssues
             [{| issue_path := ["username"];
                 issue_message := "Username must be at least 3 characters" |}]))
  /\ Auth.login_plain None Samples.bcrypt_compare_sample Samples.with_admin
       (Samples.credentials "ab" "s3cret-pass")
     = (Samples.with_admin,
        respond INTERNAL_SERVER_ERROR (JError "Internal server error"))
  /\ BAD_REQUEST <> UNAUTHORIZED /\ INTERNAL_SERVER_ERROR <> UNAUTHORIZED.
Proof.
  repeat split; try discriminate; vm_compute; reflexivity.
Qed.

(* ================================================================== *)
(** * Further properties of the category router *)
(* ================================================================== *)

Section CategoryLifecycle.

Import Categories.

Lemma category_by_id_fresh (st : store) (rows : list category_row) (row : category_row) :
  List.Forall (fun c => (category_id c < category_id row)%Z) rows ->
  find (fun c => (category_id c =? category_id row)%Z) (rows ++ [row]) = Some row.
Proof.
  induction 1 as [|c rows Hc _ IH]; simpl.
  - now rewrite Z.eqb_refl.
  - destruct (Z.eqb_spec (category_id c) (category_id row)); [lia|exact IH].
Qed.

Lemma filter_fresh (rows : list category_row) (row : category_row) :
  List.Forall (fun c => (category_id c < category_id row)%Z) rows ->
  List.filter (fun c => negb (category_id c =? category_id row)%Z) (rows ++ [row]) = rows.
Proof.
  induction 1 as [|c rows Hc _ IH]; simpl.
  - now rewrite Z.eqb_refl.
  - destruct (Z.eqb_spec (category_id c) (category_id row)); [lia|]. simpl. now rewrite IH.
Qed.

(** What a create that passes every check does. *)
Lemma categories_post_created (st : store) (req : request) fs file name description :
  Multer.single upload (file_parts req) (files st) = (fs, inr file) ->
  body_name req = Some name -> name <> "" ->
  body_description req = Some description -> description <> "" ->
  (String.length name <= 100)%nat -> (String.length description <= 300)%nat ->
  category_by_name st name = None ->
  post st req
  = (set_category (set_files st fs)
       (category st ++ [{| category_id := category_seq st; category_name := name;
                           category_description := description;
                           category_imageUrl := image_url <$> file |}])
       (category_seq st + 1),
     respond CREATED
       (JCategory (Some {| category_id := category_seq st; category_name := name;
                           category_description := description;
                           category_imageUrl := image_url <$> file |}))).
Proof.
  intros Hup Hname Hn Hdescription Hd Hlname Hldescription Hfree.
  unfold post, create_handler. rewrite Hup, Hname, Hdescription. simpl.
  destruct (String.eqb_spec name ""); [contradiction|].
  destruct (String.eqb_spec description ""); [contradiction|]. simpl.
  unfold category_by_name in *. simpl. rewrite Hfree.
  unfold insert_category.
  rewrite (varchar_fits 100 name Hlname).
  now rewrite (varchar_fits 300 description Hldescription).
Qed.

End CategoryLifecycle.

(** A category that was created is returned by [GET /:id] under the id
    the create answered: the row has the next value of the sequence as
    its id, the name and description of the request (within the
    lengths of their columns), and the URL of the uploaded picture or
    [null]. *)
Theorem create_category_then_get (st : store) (req : Categories.request)
    fs file name description :
  App.identities_ok st ->
  (0 <= category_seq st)%Z -> in_int4 (category_seq st) = true ->
  Multer.single Categories.upload (Categories.file_parts req) (files st)
    = (fs, inr file) ->
  Categories.body_name req = Some name -> name <> "" ->
  Categories.body_description req = Some description -> description <> "" ->
  (String.length name <= 100)%nat -> (String.length description <= 300)%nat ->
  category_by_name st name = None ->
  exists st' row,
    Categories.post st req = (st', respond CREATED (JCategory (Some row)))
    /\ row = {| category_id := category_seq st; category_name := name;
                category_description := description;
                category_imageUrl := Categories.image_url <$> file |}
    /\ category st' = (category st ++ [row])%list
    /\ forall get_req,
         Categories.params_id get_req = show_N (Z.to_N (category_id row)) ->
         Categories.get st' get_req = (st', respond OK (JCategory (Some row))).
Proof.
  intros (_ & Hlt & _) Hseq Hrange Hup Hname Hn Hdescription Hd Hlname
         Hldescription Hfree.
  eexists. eexists. split.
  { exact (categories_post_created st req fs file name description
             Hup Hname Hn Hdescription Hd Hlname Hldescription Hfree). }
  split; [reflexivity|]. split; [reflexivity|].
  intros get_req Hid. unfold Categories.get, Categories.get_handler.
  simpl in Hid. rewrite Hid, parseInt_show_N. rewrite Z2N.id by exact Hseq.
  rewrite (category_by_id_int4 _ _ Hrange).
  unfold find_category. simpl.
  now rewrite (category_by_id_fresh st (category st)
                 {| category_id := category_seq st; category_name := name;
                    category_description := description;
                    category_imageUrl := Categories.image_url <$> file |} Hlt).
Qed.

Lemma two_categories_identities : App.identities_ok Samples.two_categories.
Proof.
  apply (reachable_identities_ok (Samples.JSON_parse_table []) Samples.numeric_sample).
  apply (App.reachable_serve _ _ _ (App.CategoriesPost Samples.new_valves)).
  apply (App.reachable_serve _ _ _ (App.CategoriesPost Samples.new_pumps)).
  apply App.reachable_empty.
Qed.

Lemma new_gauges_upload :
  Multer.single Categories.upload (Categories.file_parts Fixtures.new_gauges)
                (files Samples.two_categories)
  = (fst (Multer.single Categories.upload
            (Categories.file_parts Fixtures.new_gauges)
            (files Samples.two_categories)),
     inr (Some Fixtures.gauge_file)).
Proof.
  assert (E : snd (Multer.single Categories.upload
                     (Categories.file_parts Fixtures.new_gauges)
                     (files Samples.two_categories))
              = inr (Some Fixtures.gauge_file)) by (vm_compute; reflexivity).
  rewrite <- E. apply surjective_pairing.
Qed.

(** Creating "Gauges" and reading it back under id 3. *)
Lemma create_category_then_get_witness :
  exists st',
    Categories.post Samples.two_categories Fixtures.new_gauges
    = (st', respond CREATED (JCategory (Some Fixtures.gauges)))
    /\ Categories.get st' (Samples.category_request "3" None None [])
       = (st', respond OK (JCategory (Some Fixtures.gauges))).
Proof.
  destruct (create_category_then_get Samples.two_categories Fixtures.new_gauges
              _ _ "Gauges" "Pressure gauges" two_categories_identities
              ltac:(vm_compute; discriminate) eq_refl new_gauges_upload
              eq_refl ltac:(discriminate) eq_refl ltac:(discriminate)
              ltac:(simpl; lia) ltac:(simpl; lia) eq_refl)
    as (st' & row & Hpost & -> & _ & Hget).
  exists st'. split; [exact Hpost|]. apply Hget. reflexivity.
Defined.

Lemma unlink_if_exists_gone (fs : gset string) (p : string) :
  p ∉ unlink_if_exists fs p.
Proof.
  unfold unlink_if_exists. destruct (decide (p ∈ fs)); [|assumption].
  rewrite elem_of_difference, elem_of_singleton. tauto.
Qed.

(** Deleting a category that was just created undoes the create: the
    table holds the rows it held before, the picture the create stored
    is no longer in the file store, no other file has appeared, and
    the id is answered 404 from then on. (The sequence has moved on:
    the id is not given out again.) *)
Theorem create_category_then_delete (st : store)
    (req by_id : Categories.request) fs file name description :
  App.identities_ok st ->
  (0 <= category_seq st)%Z -> in_int4 (category_seq st) = true ->
  Multer.single Categories.upload (Categories.file_parts req) (files st)
    = (fs, inr file) ->
  Categories.body_name req = Some name -> name <> "" ->
  Categories.body_description req = Some description -> description <> "" ->
  (String.length name <= 100)%nat -> (String.length description <= 300)%nat ->
  category_by_name st name = None ->
  Categories.params_id by_id = show_N (Z.to_N (category_seq st)) ->
  exists st' row st'',
    Categories.post st req = (st', respond CREATED (JCategory (Some row)))
    /\ Categories.delete st' by_id
       = (st'', respond OK (JDeleted ("Successfully deleted '" ++ name ++ "'")))
    /\ category st'' = category st
    /\ category_seq st'' = (category_seq st + 1)%Z
    /\ (forall f, file = Some f ->
          "uploads/categories/" ++ Multer.file_filename f ∉ files st'')
    /\ (forall f, f ∈ files st'' -> f ∈ fs)
    /\ Categories.get st'' by_id
       = (st'', respond NOT_FOUND (JError "Category not found")).
Proof.
  intros (_ & Hlt & _) Hseq Hrange Hup Hname Hn Hdescription Hd Hlname
         Hldescription Hfree Hid.
  set (row := {| category_id := category_seq st; category_name := name;
                 category_description := description;
                 category_imageUrl := Categories.image_url <$> file |}).
  pose proof (categories_post_created st req fs file name description
                Hup Hname Hn Hdescription Hd Hlname Hldescription Hfree) as Hpost.
  fold row in Hpost.
  eexists. exists row. eexists. split; [exact Hpost|].
  unfold Categories.delete, Categories.categoryIdSchema, validateRequest,
    Categories.delete_handler.
  assert (Hn' : in_int4 (Z.of_N (Z.to_N (category_seq st))) = true)
    by (now rewrite Z2N.id by exact Hseq).
  rewrite Hid, idSchema_parse_show_N, (ToString_int4 _ Hn'), parseInt_show_N.
  rewrite Z2N.id by exact Hseq.
  rewrite (category_by_id_int4 _ _ Hrange).
  unfold find_category. simpl category.
  pose proof (category_by_id_fresh st (category st) row Hlt) as Hfind.
  pose proof (filter_fresh (category st) row Hlt) as Hfilter.
  change (category_id row) with (category_seq st) in Hfind, Hfilter.
  rewrite Hfind.
  split; [reflexivity|]. unfold delete_category. simpl category.
  rewrite Hfilter.
  split; [reflexivity|]. split; [reflexivity|]. split; [|split].
  - intros f ->. simpl. apply unlink_if_exists_gone.
  - intros f. simpl. destruct file as [f0|]; simpl; [|auto].
    apply unlink_if_exists_subseteq.
  - unfold Categories.get, Categories.get_handler.
    rewrite Hid, parseInt_show_N. rewrite Z2N.id by exact Hseq.
    rewrite (category_by_id_int4 _ _ Hrange).
    rewrite category_by_id_missing; [reflexivity|]. simpl.
    intros c Hin Hc. rewrite List.Forall_forall in Hlt.
    specialize (Hlt c Hin). lia.
Qed.

(** Creating "Gauges" and deleting it again. *)
Lemma create_category_then_delete_witness :
  exists st' st'',
    Categories.post Samples.two_categories Fixtures.new_gauges
    = (st', respond CREATED (JCategory (Some Fixtures.gauges)))
    /\ Categories.delete st' (Samples.category_request "3" None None [])
       = (st'', respond OK (JDeleted "Successfully deleted 'Gauges'"))
    /\ category st'' = category Samples.two_categories
    /\ "uploads/categories/7a21.png" ∉ files st''.
Proof.
  destruct (create_category_then_delete Samples.two_categories Fixtures.new_gauges
              (Samples.category_request "3" None None [])
              _ _ "Gauges" "Pressure gauges" two_categories_identities
              ltac:(vm_compute; discriminate) eq_refl new_gauges_upload
              eq_refl ltac:(discriminate) eq_refl ltac:(discriminate)
              ltac:(simpl; lia) ltac:(simpl; lia) eq_refl eq_refl)
    as (st' & row & st'' & Hpost & Hdelete & Hrows & _ & Hfile & _).
  exists st', st''.
  assert (Hrow : row = Fixtures.gauges).
  { assert (E : snd (Categories.post Samples.two_categories Fixtures.new_gauges)
                = respond CREATED (JCategory (Some Fixtures.gauges)))
      by (vm_compute; reflexivity).
    rewrite Hpost in E. simpl in E. now injection E. }
  subst row. split; [exact Hpost|]. split; [exact Hdelete|]. split; [exact Hrows|].
  apply (Hfile Fixtures.gauge_file eq_refl).
Defined.

(** The names of the two sample categories stay distinct when a third
    is created. *)
Lemma create_category_keeps_names_distinct_witness :
  NoDup (map category_name
           (category (fst (Categories.post Samples.two_categories
                             Fixtures.new_gauges)))).
Proof.
  apply (create_category_keeps_names_distinct Samples.two_categories
           Fixtures.new_gauges).
  { intros name [= <-]. simpl. lia. }
  change (NoDup ["Pumps"; "Valves"]). apply (bool_decide_unpack _). reflexivity.
Defined.

(** A name of 101 characters that ends in a space is not the stored
    name the handler looks up, and is cut to it when the row is
    written: the create is answered 201 and two rows have the name. *)
Example create_category_name_cut_to_a_taken_name :
  status (snd (Categories.post Fixtures.long_named
                 (Samples.category_request "" (Some (Fixtures.long_name ++ " "))
                                           (Some "Pumps again") [])))
  = CREATED
  /\ map category_name
       (category (fst (Categories.post Fixtures.long_named
                         (Samples.category_request ""
                            (Some (Fixtures.long_name ++ " "))
                            (Some "Pumps again") []))))
     = [Fixtures.long_name; Fixtures.long_name].
Proof. split; vm_compute; reflexivity. Qed.

Section CategoryUpdate.

Import Categories.

Lemma varchar_set_fits (n : nat) (v : option string) :
  (forall s, v = Some s -> (String.length s <= n)%nat) -> varchar_set n v = Some v.
Proof.
  intros H. destruct v as [s|]; [|reflexivity]. simpl.
  now rewrite (varchar_fits n s (H s eq_refl)).
Qed.

Lemma find_updated {A} (key : A -> Z) (g : A -> A) (id : Z) (rows : list A) :
  (forall r, key (g r) = key r) ->
  find (fun r => (key r =? id)%Z)
       (map (fun r => if (key r =? id)%Z then g r else r) rows)
  = g <$> find (fun r => (key r =? id)%Z) rows.
Proof.
  intros Hg. induction rows as [|r rows IH]; simpl; [reflexivity|].
  destruct (key r =? id)%Z eqn:E.
  - now rewrite Hg, E.
  - now rewrite E.
Qed.

Lemma map_updated_row (st : store) (existing : category_row) (g : category_row -> category_row) :
  NoDup (map category_id (category st)) -> In existing (category st) ->
  map (fun c => if (category_id c =? category_id existing)%Z then g c else c)
      (category st)
  = map (fun c => if (category_id c =? category_id existing)%Z then g existing else c)
        (category st).
Proof.
  intros Hnd Hin. apply map_ext_in. intros c Hc.
  destruct (Z.eqb_spec (category_id c) (category_id existing)) as [E|_]; [|reflexivity].
  pose proof (category_by_id_found st c Hnd Hc) as H1.
  pose proof (category_by_id_found st existing Hnd Hin) as H2.
  rewrite E in H1. congruence.
Qed.

End CategoryUpdate.

(** An update of a stored category (its id a value of the integer
    column) that sets something (a non-empty
    name, a non-empty description or a picture; name and description
    within the lengths of their columns) is answered 200 with
    the updated row: the id is kept, an absent or empty name or
    description keeps the stored one, and the image URL is that of the
    new picture or, without one, the stored URL. No other row and no
    sequence changes. With a new picture the file of a non-empty old
    URL is removed; no other file is. *)
Theorem update_category_spec (st : store) (req : Categories.request)
    fs file (existing : category_row) :
  NoDup (map category_id (category st)) ->
  In existing (category st) ->
  in_int4 (category_id existing) = true ->
  parseInt (Categories.params_id req) = Some (category_id existing) ->
  Multer.single Categories.upload (Categories.file_parts req) (files st)
    = (fs, inr file) ->
  truthy_text (Categories.body_name req) = true
  \/ truthy_text (Categories.body_description req) = true
  \/ file <> None ->
  (forall s, Categories.body_name req = Some s -> (String.length s <= 100)%nat) ->
  (forall s, Categories.body_description req = Some s ->
     (String.length s <= 300)%nat) ->
  exists st' updated,
    Categories.put st req = (st', respond OK (JCategory (Some updated)))
    /\ updated =
       {| category_id := category_id existing;
          category_name :=
            if truthy_text (Categories.body_name req)
            then default "" (Categories.body_name req)
            else category_name existing;
          category_description :=
            if truthy_text (Categories.body_description req)
            then default "" (Categories.body_description req)
            else category_description existing;
          category_imageUrl :=
            match file with
            | Some f => Some (Categories.image_url f)
            | None => category_imageUrl existing
            end |}
    /\ category st'
       = map (fun c => if (category_id c =? category_id existing)%Z
                       then updated else c) (category st)
    /\ category_seq st' = category_seq st
    /\ product st' = product st
    /\ forall f, f ∈ files st' <->
         f ∈ fs
         /\ match file, category_imageUrl existing with
            | Some _, Some old => old = "" \/ f <> image_path old
            | _, _ => True
            end.
Proof.
  intros Hnd Hin Hrange Hid Hup Hset Hlname Hldescription.
  unfold Categories.put, Categories.update_handler. rewrite Hup, Hid.
  rewrite (category_by_id_int4 _ _ Hrange).
  change (find_category (set_files st fs) (category_id existing))
    with (find_category st (category_id existing)).
  rewrite (category_by_id_found st existing Hnd Hin).
  unfold update_category.
  match goal with
  | |- context [category_set_empty ?u] =>
      assert (Hne : category_set_empty u = false);
      [ unfold category_set_empty; simpl;
        destruct (Categories.body_name req) as [n|], (Categories.body_description req) as [d|],
                 file; simpl in *;
        repeat match goal with
               | |- context [String.eqb ?x ""] => destruct (String.eqb x "")
               end; simpl in *; try reflexivity;
        destruct Hset as [H|[H|H]]; try discriminate H; now elim H
      | rewrite Hne ]
  end.
  cbn [set_name set_description set_imageUrl].
  rewrite (varchar_set_fits 100), (varchar_set_fits 300);
    [|destruct (truthy_text (Categories.body_description req));
      [exact Hldescription|discriminate]
     |destruct (truthy_text (Categories.body_name req));
      [exact Hlname|discriminate]].
  cbv beta iota zeta. cbn [set_name set_description set_imageUrl].
  change (category_name_unique && _) with false. cbv iota.
  unfold find_category, set_category. simpl category.
  match goal with
  | |- context [apply_category_set ?u] =>
      rewrite (find_updated category_id (apply_category_set u)) by reflexivity;
      rewrite (map_updated_row st existing (apply_category_set u) Hnd Hin)
  end.
  pose proof (category_by_id_found st existing Hnd Hin) as Hfound.
  unfold find_category in Hfound. rewrite Hfound. simpl.
  eexists. eexists. split; [reflexivity|].
  split.
  { unfold apply_category_set. simpl.
    destruct (truthy_text (Categories.body_name req)) eqn:Hn,
             (truthy_text (Categories.body_description req)) eqn:Hd;
      destruct (Categories.body_name req), (Categories.body_description req), file;
      simpl in *; try discriminate; reflexivity. }
  split; [reflexivity|]. split; [reflexivity|]. split; [reflexivity|].
  intros f. destruct file as [f0|], (category_imageUrl existing) as [old|]; simpl;
    try tauto.
  unfold unlink_if_exists. destruct (String.eqb_spec old ""); simpl; [tauto|].
  destruct (decide (image_path old ∈ fs)) as [Hp|Hp].
  - rewrite elem_of_difference, elem_of_singleton. tauto.
  - split; [|tauto]. intros Hf. split; [exact Hf|]. right. congruence.
Qed.

(** Renaming "Gauges" with an empty description and a new picture: the
    description stays, the old picture goes. *)
Lemma update_category_spec_witness :
  exists st',
    Categories.put Fixtures.three_categories Fixtures.rename_gauges
    = (st', respond OK (JCategory (Some Fixtures.dials)))
    /\ "uploads/categories/7a21.png" ∉ files st'.
Proof.
  assert (Hrows : category Fixtures.three_categories
                  = [Samples.pumps; Samples.valves; Fixtures.gauges])
    by (vm_compute; reflexivity).
  assert (Hnd : NoDup (map category_id (category Fixtures.three_categories))).
  { rewrite Hrows. apply (bool_decide_unpack _). vm_compute. exact I. }
  assert (Hin : In Fixtures.gauges (category Fixtures.three_categories)).
  { rewrite Hrows. right. right. left. reflexivity. }
  assert (Hup : Multer.single Categories.upload
                  (Categories.file_parts Fixtures.rename_gauges)
                  (files Fixtures.three_categories)
                = (fst (Multer.single Categories.upload
                          (Categories.file_parts Fixtures.rename_gauges)
                          (files Fixtures.three_categories)),
                   inr (Some Fixtures.dial_file))).
  { assert (E : snd (Multer.single Categories.upload
                       (Categories.file_parts Fixtures.rename_gauges)
                       (files Fixtures.three_categories))
                = inr (Some Fixtures.dial_file)) by (vm_compute; reflexivity).
    rewrite <- E. apply surjective_pairing. }
  destruct (update_category_spec Fixtures.three_categories Fixtures.rename_gauges
              _ _ Fixtures.gauges Hnd Hin eq_refl eq_refl Hup
              (or_introl eq_refl))
    as (st' & updated & Hput & -> & _ & _ & _ & Hfiles).
  { intros s [= <-]. simpl. lia. }
  { intros s [= <-]. simpl. lia. }
  exists st'. split; [exact Hput|].
  intros Hf. apply Hfiles in Hf as [_ [Hf|Hf]]; [discriminate Hf|].
  apply Hf. reflexivity.
Defined.

(* ================================================================== *)
(** * Identifiers the delete routes refuse *)
(* ================================================================== *)

Section DeleteValidation.

Lemma categories_delete_handler_status (st : store) (n : digits_number) :
  status (tryCatch (snd (Categories.delete_handler st n))) <> BAD_REQUEST.
Proof.
  unfold Categories.delete_handler.
  destruct (parseInt _); [|vm_compute; discriminate].
  unfold category_by_id. destruct (in_int4 _); [|vm_compute; discriminate].
  destruct (find_category _ _); discriminate.
Qed.

Lemma products_delete_handler_status (st : store) (n : digits_number) :
  status (tryCatch (snd (Products.delete_handler st n))) <> BAD_REQUEST.
Proof.
  unfold Products.delete_handler.
  destruct (parseInt _); [|vm_compute; discriminate].
  unfold product_by_id. destruct (in_int4 _); [|vm_compute; discriminate].
  destruct (find_product _ _); discriminate.
Qed.

End DeleteValidation.

(** The delete routes answer 400 exactly when the parameter is not a
    non-empty run of decimal digits; the answer then lists the issue
    of the [id] parameter and the store is unchanged. *)
Theorem delete_validates_id (st : store) (creq : Categories.request)
    (preq : Products.request) :
  (status (snd (Categories.delete st creq)) = BAD_REQUEST
   <-> all_digits (Categories.params_id creq) = false)
  /\ (status (snd (Products.delete st preq)) = BAD_REQUEST
      <-> all_digits (Products.params_id preq) = false)
  /\ (all_digits (Categories.params_id creq) = false ->
      Categories.delete st creq
      = (st, respond BAD_REQUEST (JValidation [("id", "Invalid")])))
  /\ (all_digits (Products.params_id preq) = false ->
      Products.delete st preq
      = (st, respond BAD_REQUEST (JValidation [("id", "Invalid")]))).
Proof.
  unfold Categories.delete, Products.delete, Categories.categoryIdSchema,
    Products.productIdSchema, validateRequest, idSchema_parse.
  destruct (all_digits (Categories.params_id creq)),
           (all_digits (Products.params_id preq)); simpl;
    repeat split; try discriminate; try reflexivity; intros H; exfalso;
    revert H;
    match goal with
    | |- context [Categories.delete_handler ?s ?n] =>
        pose proof (categories_delete_handler_status s n) as Hs;
        destruct (Categories.delete_handler s n); exact Hs
    | |- context [Products.delete_handler ?s ?n] =>
        pose proof (products_delete_handler_status s n) as Hs;
        destruct (Products.delete_handler s n); exact Hs
    end.
Qed.

(** The parameters [12abc] and [-1] against both delete routes. *)
Lemma delete_validates_id_witness :
  Categories.delete Samples.catalogue (Samples.category_request "12abc" None None [])
  = (Samples.catalogue, respond BAD_REQUEST (JValidation [("id", "Invalid")]))
  /\ Products.delete Samples.catalogue (Samples.product_request "-1")
     = (Samples.catalogue, respond BAD_REQUEST (JValidation [("id", "Invalid")])).
Proof.
  destruct (delete_validates_id Samples.catalogue
              (Samples.category_request "12abc" None None [])
              (Samples.product_request "-1")) as (_ & _ & Hc & Hp).
  split; [apply Hc | apply Hp]; reflexivity.
Defined.

(* ================================================================== *)
(** * Deleting a product *)
(* ================================================================== *)

Lemma product_by_id_missing (st : store) (id : Z) :
  (forall p, In p (product st) -> product_id p <> id) ->
  find_product st id = None.
Proof.
  unfold find_product. intros H.
  destruct (find _ (product st)) as [p|] eqn:E; [|reflexivity].
  apply find_some in E as [Hin Heq]. apply Z.eqb_eq in Heq. now elim (H p Hin).
Qed.

(** Deleting the stored product with id [n] (an id of the integer
    column, on a table with distinct ids) answers 200 with the success
    message and removes that row and no other; the file store is left
    as it is, the pictures of the product included, and so is the
    category table. When no product has id [n] the answer is 404 and
    the store is unchanged. *)
Theorem delete_product_spec (st : store) (req : Products.request) (n : N) :
  in_int4 (Z.of_N n) = true ->
  NoDup (map product_id (product st)) ->
  Products.params_id req = show_N n ->
  (forall p, In p (product st) -> product_id p = Z.of_N n ->
     exists st',
       Products.delete st req
         = (st', respond OK (JDeleted ("Successfully deleted '"
                                       ++ product_name p ++ "'")))
       /\ (forall p', In p' (product st') <-> In p' (product st) /\ p' <> p)
       /\ files st' = files st
       /\ category st' = category st)
  /\ ((forall p, In p (product st) -> product_id p <> Z.of_N n) ->
      Products.delete st req
        = (st, respond NOT_FOUND (JError "Product not found"))).
Proof.
  intros Hrange Hnd Hid.
  unfold Products.delete, Products.productIdSchema, validateRequest.
  rewrite Hid, idSchema_parse_show_N.
  unfold Products.delete_handler.
  rewrite (ToString_int4 n Hrange), parseInt_show_N.
  rewrite (product_by_id_int4 st _ Hrange).
  split.
  - intros p Hin Hp. rewrite <- Hp, (product_by_id_found st p Hnd Hin).
    eexists. split; [reflexivity|]. simpl.
    split; [|split; reflexivity].
    intros p'. rewrite filter_In, negb_true_iff, Z.eqb_neq. split.
    + intros [H1 H2]. split; [auto|]. intros ->. now elim H2.
    + intros [H1 H2]. split; [auto|]. intros E. apply H2.
      pose proof (product_by_id_found st p' Hnd H1) as H3.
      pose proof (product_by_id_found st p Hnd Hin) as H4.
      rewrite E in H3. congruence.
  - intros Hnone. now rewrite (product_by_id_missing st _ Hnone).
Qed.

(** Deleting product 12 of the sample catalogue, and a missing one. *)
Lemma delete_product_spec_witness :
  (exists st',
     Products.delete Samples.catalogue (Samples.product_request "12")
     = (st', respond OK (JDeleted "Successfully deleted 'Hydraulic press'"))
     /\ ~ In Samples.press12 (product st')
     /\ files st' = files Samples.catalogue)
  /\ Products.delete Samples.catalogue (Samples.product_request "13")
     = (Samples.catalogue, respond NOT_FOUND (JError "Product not found")).
Proof.
  assert (Hnd : NoDup (map product_id (product Samples.catalogue)))
    by apply NoDup_singleton.
  split.
  - destruct (delete_product_spec Samples.catalogue (Samples.product_request "12")
                12 eq_refl Hnd eq_refl) as [H _].
    destruct (H Samples.press12 (or_introl eq_refl) eq_refl)
      as (st' & E & Hrows & Hfiles & _).
    exists st'. split; [exact E|]. split; [|exact Hfiles].
    intros Hin. apply Hrows in Hin as [_ Hne]. now apply Hne.
  - destruct (delete_product_spec Samples.catalogue (Samples.product_request "13")
                13 eq_refl Hnd eq_refl) as [_ H].
    apply H. intros p [<-|[]]. discriminate.
Defined.

(** Outside the range of the integer column: 2147483648 is no id of
    a product and is answered 500; 10^21 is printed as [1e+21], read as
    1, and product 1 is deleted. *)
Example delete_product_outside_integer_range :
  Products.delete Samples.catalogue (Samples.product_request "2147483648")
  = (Samples.catalogue,
     respond INTERNAL_SERVER_ERROR (JError "Internal server error"))
  /\ map product_id (product Samples.with_press) = [1%Z]
  /\ snd (Products.delete Samples.with_press
            (Samples.product_request "1000000000000000000000"))
     = respond OK (JDeleted "Successfully deleted 'Hydraulic press'")
  /\ product (fst (Products.delete Samples.with_press
                     (Samples.product_request "1000000000000000000000"))) = [].
Proof. repeat split; vm_compute; reflexivity. Qed.

(* ================================================================== *)
(** * Uploads that end in an error *)
(* ================================================================== *)

Section UploadErrors.

Import Multer.

(** After an upload that ended in an error, the file store holds
    nothing but files it held before, and none the request wrote. *)
Lemma receive_error_sub (o : options) (parts : list file_part) :
  forall seen left written fs fs' e,
    receive o parts seen left written fs = (fs', inl e) ->
    forall f, f ∈ fs' -> f ∈ fs /\ ~ In f (map file_path written).
Proof.
  induction parts as [|p rest IH]; intros seen left written fs fs' e; simpl.
  - intros [=].
  - assert (Habort : forall e0, abort fs written e0 = (fs', inl e) ->
              forall f, f ∈ fs' -> f ∈ fs /\ ~ In f (map file_path written)).
    { intros e0 [= <- _] f Hf. apply elem_of_difference in Hf as [H1 H2].
      split; [exact H1|]. intros Hin. apply H2.
      apply elem_of_list_to_set, list_elem_of_In, Hin. }
    set (limit := match files_limit o with
                  | Some n => (n <=? seen)%nat
                  | None => false
                  end).
    destruct limit; [apply Habort|].
    destruct (String.eqb (originalname p) ""); [apply IH|].
    destruct (negb _ || _); [apply Habort|].
    destruct (fileFilter o p); [|apply IH|apply Habort].
    destruct (fileSize o <=? size p)%N; [apply Habort|].
    intros Hr f Hf. destruct (IH _ _ _ _ _ _ Hr f Hf) as [H1 H2].
    simpl in H2. split.
    + apply elem_of_union in H1 as [->%elem_of_singleton|H1]; [|exact H1].
      elim H2. now left.
    + intros Hin. apply H2. now right.
Qed.

(** A file held before, that the request had not written and that is
    not the target of one of its parts, is still there. *)
Lemma receive_error_keep (o : options) (parts : list file_part) :
  forall seen left written fs fs' e,
    receive o parts seen left written fs = (fs', inl e) ->
    forall f, f ∈ fs -> ~ In f (map file_path written) ->
      (forall q, In q parts -> f <> file_path (store_file o q)) ->
      f ∈ fs'.
Proof.
  induction parts as [|p rest IH]; intros seen left written fs fs' e; simpl.
  - intros [=].
  - assert (Habort : forall e0, abort fs written e0 = (fs', inl e) ->
              forall f, f ∈ fs -> ~ In f (map file_path written) ->
                (forall q, p = q \/ In q rest -> f <> file_path (store_file o q)) ->
                f ∈ fs').
    { intros e0 [= <- _] f Hf Hw _. apply elem_of_difference. split; [exact Hf|].
      intros Hin. apply Hw. apply elem_of_list_to_set in Hin.
      now apply list_elem_of_In. }
    assert (Hnext : forall seen' left',
              receive o rest seen' left' written fs = (fs', inl e) ->
              forall f, f ∈ fs -> ~ In f (map file_path written) ->
                (forall q, p = q \/ In q rest -> f <> file_path (store_file o q)) ->
                f ∈ fs').
    { intros seen' left' Hr f Hf Hw Hq. apply (IH _ _ _ _ _ _ Hr f Hf Hw). auto. }
    set (limit := match files_limit o with
                  | Some n => (n <=? seen)%nat
                  | None => false
                  end).
    destruct limit; [apply Habort|].
    destruct (String.eqb (originalname p) ""); [apply Hnext|].
    destruct (negb _ || _); [apply Habort|].
    destruct (fileFilter o p); [|apply Hnext|apply Habort].
    destruct (fileSize o <=? size p)%N; [apply Habort|].
    intros Hr f Hf Hw Hq. apply (IH _ _ _ _ _ _ Hr f).
    + apply elem_of_union. now right.
    + simpl. intros [E|Hin]; [|now apply Hw].
      apply (Hq p); [now left|now symmetry].
    + intros q Hin. apply Hq. now right.
Qed.

(** With more parts than [limits.files] allows, and a filter that
    raises no error of its own, the upload ends in a [MulterError]. *)
Lemma receive_over_count (o : options) (n : nat) (parts : list file_part) :
  files_limit o = Some n ->
  (forall p message, fileFilter o p <> Refuse message) ->
  forall seen left written fs,
    (seen <= n)%nat ->
    (n < seen + length parts)%nat ->
    exists fs' code,
      receive o parts seen left written fs = (fs', inl (MulterError code)).
Proof.
  intros Hlimit Hfilter.
  induction parts as [|p rest IH]; intros seen left written fs Hseen Hlen; simpl in *.
  - lia.
  - rewrite Hlimit. destruct (Nat.leb_spec n seen); [unfold abort; do 2 eexists; reflexivity|].
    destruct (String.eqb (originalname p) ""); [apply IH; lia|].
    destruct (negb _ || _); [unfold abort; do 2 eexists; reflexivity|].
    destruct (fileFilter o p) eqn:Hv; [|apply IH; lia|now elim (Hfilter p message)].
    destruct (fileSize o <=? size p)%N; [unfold abort; do 2 eexists; reflexivity|].
    apply IH; lia.
Qed.

(** With two named parts, an upload that takes a single file ends in
    an error. *)
Lemma receive_second_file (o : options) (p1 p2 : file_part)
    (rest : list file_part) (fs : gset string) :
  originalname p1 <> "" -> originalname p2 <> "" ->
  exists fs' e, receive o (p1 :: p2 :: rest) 0 1 [] fs = (fs', inl e).
Proof.
  intros H1 H2. simpl.
  destruct (String.eqb_spec (originalname p1) ""); [contradiction|].
  destruct (String.eqb_spec (originalname p2) ""); [contradiction|].
  set (limit0 := match files_limit o with
                 | Some n => (n <=? 0)%nat
                 | None => false
                 end).
  set (limit1 := match files_limit o with
                 | Some n => (n <=? 1)%nat
                 | None => false
                 end).
  destruct limit0; [unfold abort; do 2 eexists; reflexivity|].
  destruct (negb (String.eqb (fieldname p1) (field o))); simpl; [unfold abort; do 2 eexists; reflexivity|].
  destruct (fileFilter o p1); [|destruct limit1|]; try (unfold abort; do 2 eexists; reflexivity; fail).
  - destruct (fileSize o <=? size p1)%N; [unfold abort; do 2 eexists; reflexivity|].
    destruct limit1; [unfold abort; do 2 eexists; reflexivity|].
    rewrite orb_true_r. unfold abort; do 2 eexists; reflexivity.
  - rewrite orb_true_r. unfold abort; do 2 eexists; reflexivity.
Qed.

End UploadErrors.

(** A product create or update carrying more than ten file parts is
    answered 400 with an upload error. No table is touched, no file of
    the request is left in the file store, and every file that was
    there and is not the target of one of the parts stays. *)
Theorem product_upload_over_ten_parts (JSON_parse : string -> result jsval)
    (numeric_in : string -> option string)
    (st : store) (req : Products.request) :
  (10 < length (Products.file_parts req))%nat ->
  exists st' message,
    Products.post JSON_parse numeric_in st req
      = (st', respond BAD_REQUEST (JError ("Upload error: " ++ message)))
    /\ Products.put JSON_parse st req
       = (st', respond BAD_REQUEST (JError ("Upload error: " ++ message)))
    /\ st' = set_files st (files st')
    /\ (forall f, f ∈ files st' -> f ∈ files st)
    /\ (forall f, f ∈ files st ->
          (forall q, In q (Products.file_parts req) ->
             f <> "uploads/products/" ++ Multer.filename q) ->
          f ∈ files st').
Proof.
  intros Hlen.
  destruct (receive_over_count Products.upload 10 (Products.file_parts req) eq_refl)
    with (seen := 0%nat) (left := 10%nat) (written := @nil Multer.File)
         (fs := files st) as (fs' & code & Hr).
  { intros p message. unfold Products.upload, Products.fileFilter. simpl.
    destruct (_ && _); discriminate. }
  { lia. }
  { simpl. exact Hlen. }
  exists (set_files st fs'), (Multer.error_message (Multer.MulterError code)).
  unfold Products.post, Products.put, Products.upload_step, Multer.array.
  change (Multer.maxCount Products.upload) with 10%nat. rewrite Hr.
  split; [reflexivity|]. split; [reflexivity|]. split; [reflexivity|].
  split.
  - intros f Hf. apply (receive_error_sub _ _ _ _ _ _ _ _ Hr f Hf).
  - intros f Hf Hq.
    apply (receive_error_keep _ _ _ _ _ _ _ _ Hr f Hf); [intros []|exact Hq].
Qed.

(** Eleven pictures sent to a store that holds a file: the answer
    names the limit, and the file store is as it was. *)
Lemma product_upload_over_ten_parts_witness :
  exists st',
    Products.post Samples.JSON_sample Samples.numeric_sample Fixtures.catalogue_with_file
                  (Samples.new_press Fixtures.eleven_shots)
      = (st', respond BAD_REQUEST (JError "Upload error: Too many files"))
    /\ product st' = [Samples.press12]
    /\ "uploads/products/a0.jpg" ∈ files st'
    /\ "uploads/products/c1.jpg" ∉ files st'.
Proof.
  destruct (product_upload_over_ten_parts Samples.JSON_sample Samples.numeric_sample
              Fixtures.catalogue_with_file (Samples.new_press Fixtures.eleven_shots))
    as (st' & message & Hpost & _ & Hst & Hsub & Hkeep).
  { simpl. lia. }
  assert (E : snd (Products.post Samples.JSON_sample Samples.numeric_sample Fixtures.catalogue_with_file
                     (Samples.new_press Fixtures.eleven_shots))
              = respond BAD_REQUEST (JError "Upload error: Too many files"))
    by (vm_compute; reflexivity).
  exists st'. split; [rewrite Hpost in E |- *; simpl in E; now rewrite E|].
  split; [rewrite Hst; reflexivity|]. split.
  - apply Hkeep.
    + apply (bool_decide_unpack _). vm_compute. exact I.
    + intros q Hq. apply (bool_decide_unpack _).
      repeat (destruct Hq as [<-|Hq]; [vm_compute; exact I|]). destruct Hq.
  - intros Hin. apply Hsub in Hin. revert Hin.
    apply (bool_decide_unpack _). vm_compute. exact I.
Defined.

(** A category create or update carrying two or more named file parts
    is answered 500 by the framework's error handler, whatever the
    files are. No table is touched and no file of the request is left
    in the file store. *)
Theorem category_upload_second_file (st : store) (req : Categories.request)
    (p1 p2 : Multer.file_part) (rest : list Multer.file_part) :
  Categories.file_parts req = p1 :: p2 :: rest ->
  Multer.originalname p1 <> "" -> Multer.originalname p2 <> "" ->
  exists st' message,
    Categories.post st req = (st', respond INTERNAL_SERVER_ERROR (Html message))
    /\ Categories.put st req = (st', respond INTERNAL_SERVER_ERROR (Html message))
    /\ st' = set_files st (files st')
    /\ (forall f, f ∈ files st' -> f ∈ files st)
    /\ (forall f, f ∈ files st ->
          (forall q, In q (Categories.file_parts req) ->
             f <> "uploads/categories/" ++ Multer.filename q) ->
          f ∈ files st').
Proof.
  intros Hparts H1 H2.
  destruct (receive_second_file Categories.upload p1 p2 rest (files st) H1 H2)
    as (fs' & e & Hr).
  exists (set_files st fs'), (Multer.error_message e).
  unfold Categories.post, Categories.put, Multer.single.
  rewrite Hparts, Hr.
  split; [reflexivity|]. split; [reflexivity|]. split; [reflexivity|].
  split.
  - intros f Hf. apply (receive_error_sub _ _ _ _ _ _ _ _ Hr f Hf).
  - intros f Hf Hq.
    apply (receive_error_keep _ _ _ _ _ _ _ _ Hr f Hf); [intros []|exact Hq].
Qed.

(** Two pictures sent with a new category: the first is written and
    removed again. *)
Lemma category_upload_second_file_witness :
  exists st',
    Categories.post Samples.two_categories
      (Samples.category_request "" (Some "Gauges") (Some "Pressure gauges")
         [Fixtures.png "image"; Samples.photo "pump.png" "image/png"])
    = (st', respond INTERNAL_SERVER_ERROR (Html "Unexpected field"))
    /\ category st' = category Samples.two_categories
    /\ "uploads/categories/7a21.png" ∉ files st'.
Proof.
  destruct (category_upload_second_file Samples.two_categories
              (Samples.category_request "" (Some "Gauges") (Some "Pressure gauges")
                 [Fixtures.png "image"; Samples.photo "pump.png" "image/png"])
              (Fixtures.png "image") (Samples.photo "pump.png" "image/png") []
              eq_refl)
    as (st' & message & Hpost & _ & Hst & Hsub & _).
  { simpl. discriminate. }
  { simpl. discriminate. }
  assert (E : snd (Categories.post Samples.two_categories
                     (Samples.category_request "" (Some "Gauges")
                        (Some "Pressure gauges")
                        [Fixtures.png "image"; Samples.photo "pump.png" "image/png"]))
              = respond INTERNAL_SERVER_ERROR (Html "Unexpected field"))
    by (vm_compute; reflexivity).
  exists st'. split; [rewrite Hpost in E |- *; simpl in E; now rewrite E|].
  split; [rewrite Hst; reflexivity|].
  intros Hin. apply Hsub in Hin. revert Hin.
  apply (bool_decide_unpack _). vm_compute. exact I.
Defined.

(* ================================================================== *)
(** * Uploads that go through *)
(* ================================================================== *)

Section UploadSuccess.

Import Multer.

(** Parts of the right field, within the size limit and few enough,
    under a filter that raises no error, make an upload go through. *)
Lemma receive_goes_through (o : options) (parts : list file_part) :
  (forall p message, fileFilter o p <> Refuse message) ->
  List.Forall (fun p => fieldname p = field o /\ (size p < fileSize o)%N) parts ->
  forall seen left written fs,
    match files_limit o with
    | Some n => (seen + length parts <= n)%nat
    | None => True
    end ->
    (length parts <= left)%nat ->
    exists fs' fl, receive o parts seen left written fs = (fs', inr fl).
Proof.
  intros Hfilter Hparts.
  induction Hparts as [|p rest [Hfield Hsize] _ IH];
    intros seen left written fs Hlimit Hleft; simpl in *.
  - eauto.
  - assert (Hnext : match files_limit o with
                    | Some n => (S seen + length rest <= n)%nat
                    | None => True
                    end)
      by (destruct (files_limit o); [lia|exact I]).
    assert (Hnow : match files_limit o with
                   | Some n => (n <=? seen)%nat
                   | None => false
                   end = false)
      by (destruct (files_limit o); [apply Nat.leb_gt; lia|reflexivity]).
    rewrite Hnow.
    destruct (String.eqb (originalname p) ""); [apply IH; [exact Hnext|lia]|].
    rewrite Hfield, String.eqb_refl. simpl.
    destruct left as [|left']; [lia|]. simpl.
    destruct (fileFilter o p) eqn:Hv;
      [|apply IH; [exact Hnext|lia]|now elim (Hfilter p message)].
    destruct (N.leb_spec (fileSize o) (size p)); [lia|].
    apply IH; [exact Hnext|lia].
Qed.

(** After an upload that went through, the file store holds what it
    held before and the files of the named parts the filter included. *)
Lemma receive_ok_files (o : options) (parts : list file_part) :
  forall seen left written fs fs' fl,
    receive o parts seen left written fs = (fs', inr fl) ->
    forall f, f ∈ fs' <->
      f ∈ fs \/ exists p, In p parts /\ originalname p <> ""
                          /\ fileFilter o p = Include
                          /\ f = file_path (store_file o p).
Proof.
  induction parts as [|p rest IH]; intros seen left written fs fs' fl; simpl.
  - intros [= <- _] f. split; [auto|]. intros [H|(p & [] & _)]. exact H.
  - set (limit := match files_limit o with
                  | Some n => (n <=? seen)%nat
                  | None => false
                  end).
    destruct limit; [intros [=]|].
    destruct (String.eqb_spec (originalname p) "") as [Hname|Hname].
    + intros Hr f. rewrite (IH _ _ _ _ _ _ Hr f). split.
      * intros [H|(q & Hq & H)]; [now left|].
        right. exists q. split; [now right|exact H].
      * intros [H|(q & [<-|Hq] & Hn & H)]; [now left|contradiction|].
        right. exists q. auto.
    + destruct (negb _ || _); [intros [=]|].
      destruct (fileFilter o p) eqn:Hv; [| |intros [=]].
      * destruct (fileSize o <=? size p)%N; [intros [=]|].
        intros Hr f.
        rewrite (IH _ _ _ _ _ _ Hr f), elem_of_union, elem_of_singleton. split.
        -- intros [[->|H]|(q & Hq & H)].
           ++ right. exists p. auto.
           ++ now left.
           ++ right. exists q. split; [now right|exact H].
        -- intros [H|(q & [<-|Hq] & Hn & Hi & ->)].
           ++ left. now right.
           ++ left. now left.
           ++ right. exists q. auto.
      * intros Hr f. rewrite (IH _ _ _ _ _ _ Hr f). split.
        -- intros [H|(q & Hq & H)]; [now left|].
           right. exists q. split; [now right|exact H].
        -- intros [H|(q & [<-|Hq] & Hn & Hi & H)]; [now left|congruence|].
           right. exists q. auto.
Qed.

Lemma products_filter_spec (p : file_part) :
  Products.fileFilter p = Include <-> passes_filter p = true.
Proof.
  unfold Products.fileFilter, passes_filter.
  destruct (_ && _); split; auto; discriminate.
Qed.

Lemma categories_filter_spec (p : file_part) :
  Categories.fileFilter p = Include <-> passes_filter p = true.
Proof.
  unfold Categories.fileFilter, passes_filter.
  destruct (_ && _); split; auto; discriminate.
Qed.

(** The upload step of the product routes on up to ten parts of the
    field [images] within the size limit: it goes through, touches no
    table and writes the named parts that pass the filter. *)
Lemma products_upload_step_through (st : store) (req : Products.request) :
  (length (Products.file_parts req) <= 10)%nat ->
  List.Forall (fun p => fieldname p = "images" /\ (size p < 5 * 1024 * 1024)%N)
              (Products.file_parts req) ->
  exists fs uploaded,
    Products.upload_step st req = (set_files st fs, inr uploaded)
    /\ forall f, f ∈ fs <->
         f ∈ files st
         \/ exists p, In p (Products.file_parts req) /\ originalname p <> ""
                      /\ passes_filter p = true
                      /\ f = "uploads/products/" ++ filename p.
Proof.
  intros Hlen Hparts.
  destruct (receive_goes_through Products.upload (Products.file_parts req))
    with (seen := 0%nat) (left := 10%nat) (written := @nil File) (fs := files st)
    as (fs & fl & Hr).
  { intros p message. unfold Products.upload, Products.fileFilter. simpl.
    destruct (_ && _); discriminate. }
  { exact Hparts. }
  { simpl. exact Hlen. }
  { exact Hlen. }
  exists fs, fl. unfold Products.upload_step, Multer.array.
  change (maxCount Products.upload) with 10%nat. rewrite Hr.
  split; [reflexivity|]. intros f.
  rewrite (receive_ok_files _ _ _ _ _ _ _ _ Hr f).
  split; (intros [H|(p & Hp & Hn & Hi & H)]; [now left|]);
    right; exists p; (split; [exact Hp|]); (split; [exact Hn|]);
    (split; [apply products_filter_spec, Hi|exact H]).
Qed.

End UploadSuccess.

(** A product create whose upload goes through (up to ten parts, all
    of the field [images] and within the size limit) leaves the files
    of its named parts that pass the filter in the file store whatever
    the handler answers. In particular a request without a name or
    without a description is answered 400 with no row stored, and its
    files stay. *)
Theorem product_create_keeps_files (JSON_parse : string -> result jsval)
    (numeric_in : string -> option string)
    (st : store) (req : Products.request) :
  (length (Products.file_parts req) <= 10)%nat ->
  List.Forall (fun p => Multer.fieldname p = "images"
                        /\ (Multer.size p < 5 * 1024 * 1024)%N)
              (Products.file_parts req) ->
  (forall f, f ∈ files (fst (Products.post JSON_parse numeric_in st req)) <->
     f ∈ files st
     \/ exists p, In p (Products.file_parts req) /\ Multer.originalname p <> ""
                  /\ passes_filter p = true
                  /\ f = "uploads/products/" ++ Multer.filename p)
  /\ (truthy_text (Products.body_name req)
      && truthy_text (Products.body_description req) = false ->
      snd (Products.post JSON_parse numeric_in st req)
        = respond BAD_REQUEST (JError "Name and description are required")
      /\ fst (Products.post JSON_parse numeric_in st req)
         = set_files st (files (fst (Products.post JSON_parse numeric_in st req)))).
Proof.
  intros Hlen Hparts.
  destruct (products_upload_step_through st req Hlen Hparts)
    as (fs & uploaded & Hup & Hfs).
  split.
  - intros f. rewrite <- Hfs. unfold Products.post. rewrite Hup.
    pose proof (files_products_create_handler JSON_parse numeric_in
                  (set_files st fs) req uploaded) as H.
    destruct (Products.create_handler _ _ _ _ _). simpl in *. now rewrite H.
  - intros Hmissing. unfold Products.post, Products.create_handler. rewrite Hup.
    rewrite <- negb_andb, Hmissing. simpl. auto.
Qed.

(** A create without a name, sent with a picture. *)
Lemma product_create_keeps_files_witness :
  snd (Products.post Samples.JSON_sample Samples.numeric_sample Samples.catalogue
         (Fixtures.unnamed_product [Fixtures.shot 1]))
  = respond BAD_REQUEST (JError "Name and description are required")
  /\ "uploads/products/c1.jpg"
     ∈ files (fst (Products.post Samples.JSON_sample Samples.numeric_sample Samples.catalogue
                     (Fixtures.unnamed_product [Fixtures.shot 1]))).
Proof.
  destruct (product_create_keeps_files Samples.JSON_sample Samples.numeric_sample Samples.catalogue
              (Fixtures.unnamed_product [Fixtures.shot 1]))
    as [Hfiles Hrefused].
  { simpl. lia. }
  { repeat constructor. }
  split; [apply Hrefused; reflexivity|].
  apply Hfiles. right. exists (Fixtures.shot 1).
  split; [now left|]. split; [discriminate|].
  split; vm_compute; reflexivity.
Defined.

Section UpdateIgnoresFiles.

Variable JSON_parse : string -> result jsval.

Lemma update_product_set_files (st : store) (fs : gset string) (id : Z)
    (u : product_set) :
  update_product (set_files st fs) id u
  = (set_files (fst (update_product st id u)) fs, snd (update_product st id u)).
Proof. unfold update_product. now destruct (product_set_empty u). Qed.

(** The update handler reads and writes the product table only. *)
Lemma update_handler_set_files (st : store) (fs : gset string)
    (req : Products.request) :
  Products.update_handler JSON_parse (set_files st fs) req
  = (set_files (fst (Products.update_handler JSON_parse st req)) fs,
     snd (Products.update_handler JSON_parse st req)).
Proof.
  unfold Products.update_handler.
  destruct (parseInt _) as [id|]; [|reflexivity].
  change (product_by_id (set_files st fs) id) with (product_by_id st id).
  destruct (product_by_id st id) as [[existing|]|e]; [|reflexivity|reflexivity].
  destruct (Products.update_machineData _ _) as [pm|]; [|reflexivity].
  destruct (Products.update_categoryIds _ _) as [pc|]; [|reflexivity].
  rewrite update_product_set_files.
  destruct (update_product st id _) as [st' [updated|e]]; reflexivity.
Qed.

Lemma update_handler_without_files (st : store) (req : Products.request) :
  Products.update_handler JSON_parse st (without_files req)
  = Products.update_handler JSON_parse st req.
Proof. reflexivity. Qed.

End UpdateIgnoresFiles.

(** A product update whose upload goes through is answered as the same
    request without its files, and leaves the tables as that request
    leaves them: the files of its named parts that pass the filter are
    written, and no row refers to them unless the payload itself names
    them. *)
Theorem product_update_ignores_files (JSON_parse : string -> result jsval)
    (st : store) (req : Products.request) :
  (length (Products.file_parts req) <= 10)%nat ->
  List.Forall (fun p => Multer.fieldname p = "images"
                        /\ (Multer.size p < 5 * 1024 * 1024)%N)
              (Products.file_parts req) ->
  snd (Products.put JSON_parse st req)
    = snd (Products.put JSON_parse st (without_files req))
  /\ fst (Products.put JSON_parse st req)
     = set_files (fst (Products.put JSON_parse st (without_files req)))
                 (files (fst (Products.put JSON_parse st req)))
  /\ (forall f, f ∈ files (fst (Products.put JSON_parse st req)) <->
        f ∈ files st
        \/ exists p, In p (Products.file_parts req) /\ Multer.originalname p <> ""
                     /\ passes_filter p = true
                     /\ f = "uploads/products/" ++ Multer.filename p).
Proof.
  intros Hlen Hparts.
  destruct (products_upload_step_through st req Hlen Hparts)
    as (fs & uploaded & Hup & Hfs).
  assert (Hplain : Products.put JSON_parse st (without_files req)
                   = (fst (Products.update_handler JSON_parse st req),
                      tryCatch (snd (Products.update_handler JSON_parse st req)))).
  { unfold Products.put, Products.upload_step, Multer.array. simpl.
    rewrite set_files_same, update_handler_without_files.
    now destruct (Products.update_handler JSON_parse st req). }
  assert (Hput : Products.put JSON_parse st req
                 = (set_files (fst (Products.update_handler JSON_parse st req)) fs,
                    tryCatch (snd (Products.update_handler JSON_parse st req)))).
  { unfold Products.put. rewrite Hup, update_handler_set_files. reflexivity. }
  rewrite Hplain, Hput. simpl.
  split; [reflexivity|]. split; [reflexivity|]. exact Hfs.
Qed.

(** A new price for product 12, sent with a picture: the answer is the
    one of the request without the picture, the picture is on disk,
    and the row's [images] are as they were. *)
Lemma product_update_ignores_files_witness :
  snd (Products.put Samples.JSON_sample Samples.catalogue
         (Fixtures.reprice "12" "1300.00" [Fixtures.shot 1]))
  = snd (Products.put Samples.JSON_sample Samples.catalogue
           (Samples.update_price "12" "1300.00"))
  /\ "uploads/products/c1.jpg"
     ∈ files (fst (Products.put Samples.JSON_sample Samples.catalogue
                     (Fixtures.reprice "12" "1300.00" [Fixtures.shot 1])))
  /\ snd (Products.get
            (fst (Products.put Samples.JSON_sample Samples.catalogue
                    (Samples.update_price "12" "1300.00")))
            (Samples.product_request "12"))
     = respond OK
         (JProductWithCategories
            {| product_id := 12; product_name := "Hydraulic press";
               product_price := Some "1300.00";
               product_isContactForPrice := VBool false;
               product_description := "Four-column hydraulic press";
               product_machineData :=
                 <["categories" := VArr []]> (<["images" := VArr []]> ∅);
               product_showInHero := VBool false;
               product_heroIndex := VNum (Fin 0) |} []).
Proof.
  destruct (product_update_ignores_files Samples.JSON_sample Samples.catalogue
              (Fixtures.reprice "12" "1300.00" [Fixtures.shot 1]))
    as (Hanswer & _ & Hfiles).
  { simpl. lia. }
  { repeat constructor. }
  split; [exact Hanswer|]. split.
  - apply Hfiles. right. exists (Fixtures.shot 1).
    split; [now left|]. split; [discriminate|].
    split; vm_compute; reflexivity.
  - vm_compute. reflexivity.
Defined.

Section CategoryUploadSuccess.

(** The upload of a category request with one named part of the field
    [image] that passes the filter and is within the size limit. *)
Lemma categories_single_through (p : Multer.file_part) (fs : gset string) :
  Multer.originalname p <> "" ->
  Multer.fieldname p = "image" ->
  passes_filter p = true ->
  (Multer.size p < 5 * 1024 * 1024)%N ->
  Multer.single Categories.upload [p] fs
  = ({["uploads/categories/" ++ Multer.filename p]} ∪ fs,
     inr (Some (Multer.store_file Categories.upload p))).
Proof.
  intros Hname Hfield Hpass Hsize.
  unfold Multer.single. simpl.
  destruct (String.eqb_spec (Multer.originalname p) ""); [contradiction|].
  rewrite Hfield. simpl.
  apply categories_filter_spec in Hpass. rewrite Hpass.
  destruct (N.leb_spec (5 * 1024 * 1024) (Multer.size p)); [lia|reflexivity].
Qed.

End CategoryUploadSuccess.

(** A category create that carries a picture and is refused by the
    handler, for a missing name or description (400) or for a taken
    name (409), stores no row and keeps the picture in the file
    store. *)
Theorem category_create_refused_keeps_file (st : store) (req : Categories.request)
    (p : Multer.file_part) :
  Categories.file_parts req = [p] ->
  Multer.originalname p <> "" ->
  Multer.fieldname p = "image" ->
  passes_filter p = true ->
  (Multer.size p < 5 * 1024 * 1024)%N ->
  (truthy_text (Categories.body_name req)
   && truthy_text (Categories.body_description req) = false ->
   Categories.post st req
   = (set_files st ({["uploads/categories/" ++ Multer.filename p]} ∪ files st),
      respond BAD_REQUEST (JError "Name and description are required")))
  /\ (forall name c,
        Categories.body_name req = Some name -> name <> "" ->
        truthy_text (Categories.body_description req) = true ->
        In c (category st) -> category_name c = name ->
        Categories.post st req
        = (set_files st ({["uploads/categories/" ++ Multer.filename p]} ∪ files st),
           respond CONFLICT (JError "Category already exists"))).
Proof.
  intros Hparts Hname Hfield Hpass Hsize.
  unfold Categories.post.
  rewrite Hparts, (categories_single_through p (files st) Hname Hfield Hpass Hsize).
  unfold Categories.create_handler. split.
  - intros Hmissing. rewrite <- negb_andb, Hmissing. reflexivity.
  - intros name c Hbody Hnonempty Hdescription Hin Hc.
    destruct (category_by_name_found (set_files st
                ({["uploads/categories/" ++ Multer.filename p]} ∪ files st))
                c Hin) as [c' Hfound].
    rewrite Hbody, Hdescription. simpl.
    rewrite Hc in Hfound.
    destruct (String.eqb_spec name ""); [contradiction|].
    simpl. rewrite Hfound. reflexivity.
Qed.

(** A second [Pumps], sent with a picture. *)
Lemma category_create_refused_keeps_file_witness :
  exists st',
    Categories.post Samples.two_categories Fixtures.pumps_again
    = (st', respond CONFLICT (JError "Category already exists"))
    /\ category st' = category Samples.two_categories
    /\ "uploads/categories/7a21.png" ∈ files st'.
Proof.
  destruct (category_create_refused_keeps_file Samples.two_categories
              Fixtures.pumps_again (Fixtures.png "image") eq_refl)
    as [_ Hconflict].
  { discriminate. }
  { reflexivity. }
  { vm_compute. reflexivity. }
  { reflexivity. }
  eexists. split.
  - apply (Hconflict "Pumps" Samples.pumps eq_refl).
    + discriminate.
    + reflexivity.
    + rewrite two_categories_rows. now left.
    + reflexivity.
  - split; [reflexivity|].
    apply (bool_decide_unpack _). vm_compute. exact I.
Defined.

(** A picture of exactly the size limit is refused: the product
    create is answered 400, the category create 500, and no file is
    kept. *)
Example file_of_the_size_limit_is_refused :
  Products.post Samples.JSON_sample Samples.numeric_sample Samples.catalogue
                (Samples.new_press [Fixtures.full_size "images"])
  = (Samples.catalogue,
     respond BAD_REQUEST (JError "Upload error: File too large"))
  /\ snd (Categories.post Samples.two_categories
            (Samples.category_request "" (Some "Gauges") (Some "Pressure gauges")
                                      [Fixtures.full_size "image"]))
     = default_error_handler "File too large"
  /\ files (fst (Categories.post Samples.two_categories
                   (Samples.category_request "" (Some "Gauges")
                      (Some "Pressure gauges") [Fixtures.full_size "image"])))
     = files Samples.two_categories.
Proof. repeat split; vm_compute; reflexivity. Qed.

(* ================================================================== *)
(** * The product list *)
(* ================================================================== *)

Section ProductList.

Import Products.

Lemma includes_id_ok (v : option jsval) (id : Z) :
  no_includes v = false -> includes_id v id = Ok (lists_category v id).
Proof. destruct v as [[| | | | | |]|]; simpl; intros H; try reflexivity; discriminate. Qed.

Lemma includes_id_throw (v : option jsval) (id : Z) :
  no_includes v = true ->
  includes_id v id = Throw (Error "machineData.categories?.includes is not a function").
Proof. destruct v as [[| | | | | |]|]; simpl; intros H; try reflexivity; discriminate. Qed.

Lemma resolve_by_filter_ok (st : store) (prod : product_row) :
  category st = [] \/ no_includes (product_machineData prod !! "categories") = false ->
  resolve_by_filter (category st) prod = Ok (snd (with_listed_categories st prod)).
Proof.
  unfold resolve_by_filter, with_listed_categories.
  intros [->|H]; [reflexivity|].
  apply filter_rows_total. intros cat. now apply includes_id_ok.
Qed.

Lemma resolve_by_filter_throw (st : store) (prod : product_row) :
  category st <> [] ->
  no_includes (product_machineData prod !! "categories") = true ->
  resolve_by_filter (category st) prod
  = Throw (Error "machineData.categories?.includes is not a function").
Proof.
  unfold resolve_by_filter. intros Hrows H.
  destruct (category st) as [|cat rows]; [contradiction|].
  simpl. now rewrite (includes_id_throw _ _ H).
Qed.

Lemma map_rows_ok {A B} (f : A -> result B) (g : A -> B) (rows : list A) :
  (forall x, In x rows -> f x = Ok (g x)) ->
  map_rows f rows = Ok (map g rows).
Proof.
  induction rows as [|x rows IH]; intros H; simpl; [reflexivity|].
  rewrite (H x) by now left. rewrite IH; [reflexivity|].
  intros y Hy. apply H. now right.
Qed.

Lemma map_rows_throw {A B} (f : A -> result B) (e : exn) (rows : list A) :
  (forall x, In x rows -> f x = Throw e \/ exists y, f x = Ok y) ->
  (exists x, In x rows /\ f x = Throw e) ->
  map_rows f rows = Throw e.
Proof.
  induction rows as [|x rows IH]; intros Hall (x0 & Hin & Hx0); [destruct Hin|].
  simpl. destruct (Hall x (or_introl eq_refl)) as [->|[y Hy]]; [reflexivity|].
  rewrite Hy. rewrite IH; [reflexivity| |].
  - intros z Hz. apply Hall. now right.
  - destruct Hin as [<-|Hin]; [congruence|eauto].
Qed.

End ProductList.

(** The product list never changes the store. It is answered 500
    exactly when there is a category and some product's [categories]
    entry is a boolean, a number or an object: one such product fails
    the list for all. Otherwise the answer is 200 with every product,
    in table order, each with the categories its entry lists. *)
Theorem product_list_spec (st : store) :
  fst (Products.get_all st) = st
  /\ (status (snd (Products.get_all st)) = INTERNAL_SERVER_ERROR <->
      category st <> []
      /\ exists prod, In prod (product st)
           /\ no_includes (product_machineData prod !! "categories") = true)
  /\ (status (snd (Products.get_all st)) <> INTERNAL_SERVER_ERROR ->
      snd (Products.get_all st)
      = respond OK (JProducts (map (with_listed_categories st) (product st)))).
Proof.
  unfold Products.get_all, Products.list_handler.
  set (f := fun prod => match Products.resolve_by_filter (category st) prod with
                        | Ok productCategories => Ok (prod, productCategories)
                        | Throw e => Throw e
                        end).
  destruct (category st) as [|cat rows] eqn:Hcat.
  - assert (E : Products.map_rows f (product st)
                = Ok (map (with_listed_categories st) (product st))).
    { apply map_rows_ok. intros prod _. unfold f.
      rewrite <- Hcat, (resolve_by_filter_ok st prod) by (left; exact Hcat).
      reflexivity. }
    rewrite E. simpl. split; [reflexivity|]. split; [|reflexivity].
    split; [discriminate|]. intros [H _]. now elim H.
  - destruct (existsb (fun prod => no_includes (product_machineData prod !! "categories"))
                      (product st)) eqn:Hbad.
    + apply existsb_exists in Hbad as (bad & Hin & Hbad).
      assert (E : Products.map_rows f (product st)
                  = Throw (Error "machineData.categories?.includes is not a function")).
      { apply map_rows_throw.
        - intros prod _. unfold f. rewrite <- Hcat.
          destruct (no_includes (product_machineData prod !! "categories")) eqn:Hn.
          + left. rewrite resolve_by_filter_throw; [reflexivity| |exact Hn].
            rewrite Hcat. discriminate.
          + right. rewrite resolve_by_filter_ok by (right; exact Hn). eauto.
        - exists bad. split; [exact Hin|]. unfold f. rewrite <- Hcat.
          rewrite resolve_by_filter_throw; [reflexivity| |exact Hbad].
          rewrite Hcat. discriminate. }
      rewrite E. simpl. split; [reflexivity|]. split; [|intros H; now elim H].
      split; [|reflexivity]. intros _. split; [discriminate|eauto].
    + assert (E : Products.map_rows f (product st)
                  = Ok (map (with_listed_categories st) (product st))).
      { apply map_rows_ok. intros prod Hin. unfold f. rewrite <- Hcat.
        rewrite (resolve_by_filter_ok st prod); [reflexivity|]. right.
        destruct (no_includes _) eqn:Hn; [|reflexivity].
        assert (existsb (fun prod => no_includes (product_machineData prod !! "categories"))
                        (product st) = true)
          by (apply existsb_exists; eauto).
        congruence. }
      rewrite E. simpl. split; [reflexivity|]. split; [|reflexivity].
      split; [discriminate|]. intros (_ & bad & Hin & Hn).
      assert (existsb (fun prod => no_includes (product_machineData prod !! "categories"))
                      (product st) = true)
        by (apply existsb_exists; eauto).
      congruence.
Qed.

(* ================================================================== *)
(** * What the upload filters accept *)
(* ================================================================== *)

Section FilterPattern.

Lemma prefix_spec (p s : string) :
  String.prefix p s = true <-> exists b, s = p ++ b.
Proof.
  revert s. induction p as [|c p IH]; intros s; simpl.
  - split; [eauto|]. intros _. now destruct s.
  - destruct s as [|d s]; simpl; [split; [discriminate|intros [b [=]]]|].
    destruct (Ascii.ascii_dec c d) as [->|Hne].
    + split.
      * intros H. apply IH in H as [b ->]. now exists b.
      * intros [b [= H]]. apply IH. now exists b.
    + split; [discriminate|]. intros [b [= H _]]. congruence.
Qed.

Lemma includes_unfold (p s : string) :
  includes p s
  = String.prefix p s
    || match s with
       | EmptyString => false
       | String _ s' => includes p s'
       end.
Proof. now destruct s. Qed.

(** [s.includes(p)] holds exactly when [p] occurs in [s]. *)
Lemma includes_spec (p s : string) :
  includes p s = true <-> exists a b, s = a ++ p ++ b.
Proof.
  split.
  - induction s as [|c s IH]; rewrite includes_unfold, orb_true_iff.
    + intros [H|[=]]. apply prefix_spec in H as [b H]. now exists "", b.
    + intros [H|H].
      * apply prefix_spec in H as [b H]. now exists "", b.
      * destruct (IH H) as (a & b & ->). now exists (String c a), b.
  - intros (a & b & ->). induction a as [|c a IH]; rewrite includes_unfold.
    + apply orb_true_iff. left. apply prefix_spec. now exists b.
    + simpl. rewrite IH. apply orb_true_r.
Qed.

(** The scan of [path.extname] finds no dot where there is none. *)
Lemma ext_scan_no_dot (rev_chars : list ascii) :
  List.Forall (fun c => c <> "."%char) rev_chars ->
  forall i st, startDot st = (-1)%Z -> startDot (ext_scan rev_chars i st) = (-1)%Z.
Proof.
  induction 1 as [|c rest Hc _ IH]; intros i st Hst; simpl; [exact Hst|].
  destruct (Ascii.eqb c "/").
  - destruct (negb (matchedSlash st)); [exact Hst|now apply IH].
  - destruct (Ascii.eqb_spec c "."); [contradiction|].
    apply IH. destruct (end_ st =? -1)%Z; simpl; rewrite Hst; simpl;
      [reflexivity|exact Hst].
Qed.

Lemma extname_no_dot (name : string) :
  without_char "." name = true -> extname name = "".
Proof.
  unfold without_char, extname. intros H.
  rewrite ext_scan_no_dot; [reflexivity| |reflexivity].
  apply List.Forall_forall. intros c Hin. apply in_rev in Hin.
  rewrite forallb_forall in H. specialize (H c Hin).
  destruct (Ascii.eqb_spec c "."); [discriminate|assumption].
Qed.

End FilterPattern.

(** The pattern of the upload filters is not anchored: a file part
    passes exactly when one of the words [jpeg], [jpg], [png], [webp]
    occurs somewhere in its lower-cased extension and one of them
    occurs somewhere in its MIME type. The two filters differ only in
    how they turn a part down. *)
Theorem passes_filter_spec (p : Multer.file_part) :
  (passes_filter p = true <->
   (exists w a b, In w allowed_words
      /\ toLowerCase (extname (Multer.originalname p)) = a ++ w ++ b)
   /\ (exists w a b, In w allowed_words /\ Multer.mimetype p = a ++ w ++ b))
  /\ (Categories.fileFilter p = Multer.Include <-> passes_filter p = true)
  /\ (Products.fileFilter p = Multer.Include <-> passes_filter p = true)
  /\ (passes_filter p = false ->
      Categories.fileFilter p
        = Multer.Refuse "Only image files (jpeg, jpg, png, webp) are allowed"
      /\ Products.fileFilter p = Multer.Skip).
Proof.
  assert (Htest : forall s, allowedTypes_test s = true <->
                    exists w a b, In w allowed_words /\ s = a ++ w ++ b).
  { intros s. unfold allowedTypes_test, allowed_words.
    rewrite !orb_true_iff, !includes_spec. split.
    - intros [[[(a & b & H)|(a & b & H)]|(a & b & H)]|(a & b & H)];
        [exists "jpeg"|exists "jpg"|exists "png"|exists "webp"];
        exists a, b; simpl; auto 6.
    - intros (w & a & b & Hw & H). simpl in Hw.
      destruct Hw as [<-|[<-|[<-|[<-|[]]]]]; eauto 6. }
  split; [|split; [apply categories_filter_spec|split; [apply products_filter_spec|]]].
  - unfold passes_filter. now rewrite andb_true_iff, !Htest.
  - unfold passes_filter, Categories.fileFilter, Products.fileFilter.
    intros ->. auto.
Qed.

(** A file whose name has no dot has no extension, and both filters
    turn it down whatever its MIME type. *)
Theorem file_without_extension_is_turned_down (p : Multer.file_part) :
  without_char "." (Multer.originalname p) = true ->
  extname (Multer.originalname p) = ""
  /\ passes_filter p = false
  /\ Categories.fileFilter p
     = Multer.Refuse "Only image files (jpeg, jpg, png, webp) are allowed"
  /\ Products.fileFilter p = Multer.Skip.
Proof.
  intros H. apply extname_no_dot in H.
  unfold passes_filter, Categories.fileFilter, Products.fileFilter.
  rewrite H. auto.
Qed.

(** A PNG picture sent under the name [photo]. *)
Lemma file_without_extension_is_turned_down_witness :
  Products.fileFilter (Samples.photo "photo" "image/png") = Multer.Skip.
Proof.
  apply (file_without_extension_is_turned_down (Samples.photo "photo" "image/png")).
  reflexivity.
Defined.

(* ================================================================== *)
(** * Creating a product and reading it back *)
(* ================================================================== *)

Section ProductLifecycle.


(** The upload step of the product routes touches no table. *)
Lemma products_upload_step_tables (st : store) (req : Products.request) :
  fst (Products.upload_step st req)
  = set_files st (files (fst (Products.upload_step st req))).
Proof.
  unfold Products.upload_step.
  destruct (Multer.array _ _ _) as [fs [[code|message]|uploaded]]; reflexivity.
Qed.




End ProductLifecycle.



(* ================================================================== *)
(** * Identities are given out once *)
(* ================================================================== *)

Section IdentitiesKept.

Lemma identities_kept_refl (st : store) : identities_kept st st.
Proof. repeat split; auto; lia. Qed.

Lemma identities_kept_trans (st1 st2 st3 : store) :
  identities_kept st1 st2 -> identities_kept st2 st3 -> identities_kept st1 st3.
Proof.
  intros (Hc & Hci & Hp & Hpi) (Hc' & Hci' & Hp' & Hpi').
  repeat split; try lia.
  - intros i Hi Hlt. apply Hci; [|exact Hlt]. apply Hci'; [exact Hi|lia].
  - intros i Hi Hlt. apply Hpi; [|exact Hlt]. apply Hpi'; [exact Hi|lia].
Qed.

Lemma in_map_snoc {A} (key : A -> Z) (rows : list A) (row : A) (i : Z) :
  In i (map key (rows ++ [row])) -> (i < key row)%Z -> In i (map key rows).
Proof.
  rewrite map_app, in_app_iff. simpl. intros [H|[H|[]]] Hlt; [exact H|lia].
Qed.

Lemma in_map_filter {A} (key : A -> Z) (keep : A -> bool) (rows : list A) (i : Z) :
  In i (map key (List.filter keep rows)) -> In i (map key rows).
Proof.
  rewrite !in_map_iff. intros (r & Hr & Hin). apply filter_In in Hin as [Hin _]. eauto.
Qed.

Lemma identities_kept_insert_category st name description imageUrl :
  identities_kept st (fst (insert_category st name description imageUrl)).
Proof.
  unfold insert_category.
  destruct (varchar 100 name) as [name'|]; [|apply identities_kept_refl].
  destruct (varchar 300 description) as [description'|];
    [|apply identities_kept_refl].
  destruct (_ && _); [apply identities_kept_refl|].
  repeat split; simpl; auto; try lia.
  intros i Hi Hlt. exact (in_map_snoc category_id _ _ i Hi Hlt).
Qed.

Lemma identities_kept_update_category st id u :
  identities_kept st (fst (update_category st id u)).
Proof.
  unfold update_category.
  destruct (category_set_empty u); [apply identities_kept_refl|].
  destruct (varchar_set 100 _) as [name|]; [|apply identities_kept_refl].
  destruct (varchar_set 300 _) as [description|]; [|apply identities_kept_refl].
  destruct (_ && _); [apply identities_kept_refl|].
  repeat split; simpl; auto; try lia.
  intros i Hi _.
  now rewrite (map_key_update category_id (apply_category_set _)) in Hi.
Qed.

Lemma identities_kept_delete_category st id :
  identities_kept st (delete_category st id).
Proof.
  repeat split; simpl; auto; try lia.
  intros i Hi _. exact (in_map_filter category_id _ _ i Hi).
Qed.

Lemma identities_kept_insert_product numeric_in st name description price
    icp md sih hi :
  identities_kept st
    (fst (insert_product numeric_in st name description price icp md sih hi)).
Proof.
  unfold insert_product.
  destruct (varchar 100 name) as [name'|]; [|apply identities_kept_refl].
  destruct (match price with
            | Some text => Some <$> numeric_in text
            | None => Some None
            end) as [price'|]; [|apply identities_kept_refl].
  destruct (integer_in hi) as [hi'|]; [|apply identities_kept_refl].
  repeat split; simpl; auto; try lia.
  intros i Hi Hlt. exact (in_map_snoc product_id _ _ i Hi Hlt).
Qed.

Lemma identities_kept_update_product st id u :
  identities_kept st (fst (update_product st id u)).
Proof.
  unfold update_product.
  destruct (product_set_empty u); [apply identities_kept_refl|].
  repeat split; simpl; auto; try lia.
  intros i Hi _.
  now rewrite (map_key_update product_id (apply_product_set u)) in Hi.
Qed.

Lemma identities_kept_delete_product st id :
  identities_kept st (delete_product st id).
Proof.
  repeat split; simpl; auto; try lia.
  intros i Hi _. exact (in_map_filter product_id _ _ i Hi).
Qed.

Variable JSON_parse : string -> result jsval.
Variable numeric_in : string -> option string.

Lemma identities_kept_tables (st st' : store) :
  category st' = category st -> category_seq st' = category_seq st ->
  product st' = product st -> product_seq st' = product_seq st ->
  identities_kept st st'.
Proof.
  intros Hc Hcs Hp Hps. unfold identities_kept. rewrite Hc, Hcs, Hp, Hps.
  apply identities_kept_refl.
Qed.

(** Every route keeps the identities. *)
Lemma identities_kept_serve (st : store) (c : App.call) :
  identities_kept st (fst (App.serve JSON_parse numeric_in st c)).
Proof.
  destruct c; simpl.
  - unfold Categories.post.
    destruct (Multer.single _ _ _) as [fs [e|file]]; [apply identities_kept_tables; reflexivity|].
    unfold Categories.create_handler.
    destruct (_ || _); [apply identities_kept_tables; reflexivity|].
    destruct (category_by_name _ _); [apply identities_kept_tables; reflexivity|].
    match goal with
    | |- context [insert_category ?s ?n ?d ?i] =>
        pose proof (identities_kept_insert_category s n d i) as H;
        destruct (insert_category s n d i) as [? []]
    end; exact H.
  - apply identities_kept_tables; reflexivity.
  - rewrite categories_get_store. apply identities_kept_tables; reflexivity.
  - unfold Categories.put.
    destruct (Multer.single _ _ _) as [fs [e|file]]; [apply identities_kept_tables; reflexivity|].
    unfold Categories.update_handler.
    destruct (parseInt _); [|apply identities_kept_tables; reflexivity].
    destruct (category_by_id _ _) as [[?|]|?];
      [|apply identities_kept_tables; reflexivity
       |apply identities_kept_tables; reflexivity].
    match goal with
    | |- context [update_category ?s ?n ?u] =>
        pose proof (identities_kept_update_category s n u) as H;
        destruct (update_category s n u) as [? []]
    end; exact H.
  - unfold Categories.delete.
    destruct (validateRequest _ _); [apply identities_kept_tables; reflexivity|].
    unfold Categories.delete_handler.
    destruct (parseInt _); [|apply identities_kept_tables; reflexivity].
    destruct (category_by_id _ _) as [[?|]|?];
      [|apply identities_kept_tables; reflexivity
       |apply identities_kept_tables; reflexivity].
    match goal with
    | |- context [delete_category ?s ?n] =>
        exact (identities_kept_delete_category s n)
    end.
  - unfold Products.post.
    pose proof (products_upload_step_tables st req) as Ht.
    destruct (Products.upload_step st req) as [st1 [resp|uploaded]];
      simpl in Ht; rewrite Ht; [apply identities_kept_tables; reflexivity|].
    unfold Products.create_handler.
    destruct (_ || _); [apply identities_kept_tables; reflexivity|].
    destruct (Products.create_machineData _ _); [|apply identities_kept_tables; reflexivity].
    destruct (Products.create_categoryIds _ _); [|apply identities_kept_tables; reflexivity].
    match goal with
    | |- context [insert_product ?ni ?s ?n ?d ?p ?i ?m ?h ?x] =>
        pose proof (identities_kept_insert_product ni s n d p i m h x) as H;
        destruct (insert_product ni s n d p i m h x) as [? []]
    end; exact H.
  - rewrite products_get_all_store. apply identities_kept_tables; reflexivity.
  - rewrite products_get_store. apply identities_kept_tables; reflexivity.
  - unfold Products.put.
    pose proof (products_upload_step_tables st req) as Ht.
    destruct (Products.upload_step st req) as [st1 [resp|uploaded]];
      simpl in Ht; rewrite Ht; [apply identities_kept_tables; reflexivity|].
    unfold Products.update_handler.
    destruct (parseInt _); [|apply identities_kept_tables; reflexivity].
    destruct (product_by_id _ _) as [[?|]|?];
      [|apply identities_kept_tables; reflexivity
       |apply identities_kept_tables; reflexivity].
    destruct (Products.update_machineData _ _); [|apply identities_kept_tables; reflexivity].
    destruct (Products.update_categoryIds _ _); [|apply identities_kept_tables; reflexivity].
    match goal with
    | |- context [update_product ?s ?n ?u] =>
        pose proof (identities_kept_update_product s n u) as H;
        destruct (update_product s n u) as [? []]
    end; exact H.
  - unfold Products.delete.
    destruct (validateRequest _ _); [apply identities_kept_tables; reflexivity|].
    unfold Products.delete_handler.
    destruct (parseInt _); [|apply identities_kept_tables; reflexivity].
    destruct (product_by_id _ _) as [[?|]|?];
      [|apply identities_kept_tables; reflexivity
       |apply identities_kept_tables; reflexivity].
    apply identities_kept_delete_product.
Qed.

Lemma identities_kept_serve_all (calls : list App.call) :
  forall st, identities_kept st (serve_all JSON_parse numeric_in st calls).
Proof.
  induction calls as [|c calls IH]; intros st; [apply identities_kept_refl|].
  apply (identities_kept_trans _ (fst (App.serve JSON_parse numeric_in st c))).
  - apply identities_kept_serve.
  - apply IH.
Qed.

Lemma identities_ok_serve_all (calls : list App.call) :
  forall st, App.identities_ok st -> App.identities_ok (serve_all JSON_parse numeric_in st calls).
Proof.
  induction calls as [|c calls IH]; intros st H; [exact H|].
  apply IH.
  destruct c; simpl.
  - now apply identities_ok_categories_post.
  - exact H.
  - now rewrite categories_get_store.
  - now apply identities_ok_categories_put.
  - now apply identities_ok_categories_delete.
  - now apply identities_ok_products_post.
  - now rewrite products_get_all_store.
  - now rewrite products_get_store.
  - now apply identities_ok_products_put.
  - now apply identities_ok_products_delete.
Qed.

End IdentitiesKept.

(** Whatever calls the application serves, the identities of a table
    stay distinct and below its sequence, and an identity the sequence
    has passed and no row carries is never given to a row again: the
    identity of a deleted category or product is not reused. *)
Theorem spent_identity_is_not_reused (JSON_parse : string -> result jsval)
    (numeric_in : string -> option string)
    (st : store) (calls : list App.call) (i : Z) :
  (App.identities_ok st -> App.identities_ok (serve_all JSON_parse numeric_in st calls))
  /\ (spent_category_id st i ->
      spent_category_id (serve_all JSON_parse numeric_in st calls) i)
  /\ (spent_product_id st i ->
      spent_product_id (serve_all JSON_parse numeric_in st calls) i).
Proof.
  destruct (identities_kept_serve_all JSON_parse numeric_in calls st) as (Hc & Hci & Hp & Hpi).
  split; [apply identities_ok_serve_all|].
  split; intros [Hlt Hout]; (split; [lia|]); intros Hin; apply Hout; auto.
Qed.

(** After the second category was deleted, two more creates give the
    identities 3 and 4, not 2. *)
Lemma spent_identity_is_not_reused_witness :
  ~ In 2%Z (map category_id
              (category (serve_all Samples.JSON_sample Samples.numeric_sample Fixtures.pumps_only
                           [App.CategoriesPost Samples.new_valves;
                            App.CategoriesPost Fixtures.new_gauges]))).
Proof.
  destruct (spent_identity_is_not_reused Samples.JSON_sample
              Samples.numeric_sample Fixtures.pumps_only
              [App.CategoriesPost Samples.new_valves;
               App.CategoriesPost Fixtures.new_gauges] 2)
    as (_ & Hspent & _).
  apply Hspent. split.
  - vm_compute. reflexivity.
  - vm_compute. intros [H|[]]. discriminate H.
Defined.

(* ================================================================== *)
(** * The token middleware *)
(* ================================================================== *)

Section SplitFacts.

Import AuthMiddleware.

Lemma without_char_cons (sep c : ascii) (s : string) :
  without_char sep (String c s) = true ->
  Ascii.eqb c sep = false /\ without_char sep s = true.
Proof.
  unfold without_char. simpl. intros [H1 H2]%andb_true_iff.
  split; [now apply negb_true_iff|exact H2].
Qed.

Lemma split_no_sep (sep : ascii) (s : string) :
  without_char sep s = true -> split sep s = [s].
Proof.
  induction s as [|c s IH]; [reflexivity|].
  intros [Hc Hs]%without_char_cons. simpl. now rewrite Hc, (IH Hs).
Qed.

Lemma split_sep (sep : ascii) (a b : string) :
  without_char sep a = true ->
  split sep (a ++ String sep b) = a :: split sep b.
Proof.
  induction a as [|c a IH]; simpl.
  - intros _. now rewrite Ascii.eqb_refl.
  - intros [Hc Ha]%without_char_cons. now rewrite Hc, (IH Ha).
Qed.

Lemma append_sep_nonempty (a b : string) (c : ascii) :
  String.eqb (a ++ String c b) "" = false.
Proof. now destruct a. Qed.

End SplitFacts.

(** The middleware answers 401 when there is no [authorization]
    header, when the header holds no space, and when its first space
    is its last character or is followed by another space. Otherwise
    it hands what stands between the first and the second space to the
    verification, whatever scheme the header names before it: the
    request goes on as the verified user, or is answered 403. *)
Theorem authenticateToken_spec (jwt_verify : string -> result Jwt.JWTPayload) :
  AuthMiddleware.authenticateToken jwt_verify None
    = AuthMiddleware.Answer (respond UNAUTHORIZED (JError "Authentication required"))
  /\ (forall h, without_char " " h = true ->
        AuthMiddleware.authenticateToken jwt_verify (Some h)
        = AuthMiddleware.Answer
            (respond UNAUTHORIZED (JError "Authentication required")))
  /\ (forall scheme rest, without_char " " scheme = true ->
        rest = "" \/ (exists r, rest = " " ++ r) ->
        AuthMiddleware.authenticateToken jwt_verify (Some (scheme ++ " " ++ rest))
        = AuthMiddleware.Answer
            (respond UNAUTHORIZED (JError "Authentication required")))
  /\ (forall scheme token h,
        without_char " " scheme = true -> without_char " " token = true ->
        token <> "" ->
        h = scheme ++ " " ++ token
        \/ (exists rest, h = scheme ++ " " ++ token ++ " " ++ rest) ->
        AuthMiddleware.authenticateToken jwt_verify (Some h)
        = match jwt_verify token with
          | Ok user => AuthMiddleware.Next user
          | Throw _ =>
              AuthMiddleware.Answer
                (respond FORBIDDEN (JError "Invalid or expired token"))
          end).
Proof.
  unfold AuthMiddleware.authenticateToken, AuthMiddleware.bearer_token.
  split; [reflexivity|]. split; [|split].
  - intros h Hh. destruct (String.eqb h ""); [reflexivity|].
    now rewrite (split_no_sep " " h Hh).
  - intros scheme rest Hs Hrest.
    change (scheme ++ " " ++ rest) with (scheme ++ String " " rest).
    rewrite append_sep_nonempty, (split_sep " " scheme _ Hs).
    destruct Hrest as [->|[r ->]]; reflexivity.
  - intros scheme token h Hs Ht Hne Hh.
    assert (Hsplit : String.eqb h "" = false
                     /\ AuthMiddleware.split " " h !! 1%nat = Some token).
    { destruct Hh as [->|[rest ->]].
      - change (scheme ++ " " ++ token) with (scheme ++ String " " token).
        rewrite append_sep_nonempty, (split_sep " " scheme _ Hs).
        now rewrite (split_no_sep " " token Ht).
      - change (scheme ++ " " ++ token ++ " " ++ rest)
          with (scheme ++ String " " (token ++ String " " rest)).
        rewrite append_sep_nonempty, (split_sep " " scheme _ Hs).
        now rewrite (split_sep " " token _ Ht). }
    destruct Hsplit as [-> ->]. simpl.
    destruct (String.eqb_spec token ""); [contradiction|reflexivity].
Qed.

(** A valid token is accepted under the scheme [Basic] as under
    [Bearer]; another token is answered 403; a header that ends with
    the space after its scheme, or has two spaces there, is answered
    401. *)
Lemma authenticateToken_spec_witness :
  AuthMiddleware.authenticateToken Fixtures.jwt_verify_sample
    (Some "Basic eyJhbGciOi.eyJ1c2VySWQi.c2lnbmF0dXJl")
  = AuthMiddleware.Next {| Jwt.userId := 1; Jwt.username := "admin" |}
  /\ AuthMiddleware.authenticateToken Fixtures.jwt_verify_sample
       (Some "Bearer eyJhbGciOi.tampered.c2lnbmF0dXJl")
     = AuthMiddleware.Answer (respond FORBIDDEN (JError "Invalid or expired token"))
  /\ AuthMiddleware.authenticateToken Fixtures.jwt_verify_sample (Some "Bearer ")
     = AuthMiddleware.Answer
         (respond UNAUTHORIZED (JError "Authentication required"))
  /\ AuthMiddleware.authenticateToken Fixtures.jwt_verify_sample
       (Some "Bearer  eyJhbGciOi.eyJ1c2VySWQi.c2lnbmF0dXJl")
     = AuthMiddleware.Answer
         (respond UNAUTHORIZED (JError "Authentication required")).
Proof.
  destruct (authenticateToken_spec Fixtures.jwt_verify_sample) as (_ & _ & H0 & H).
  split; [|split; [|split]].
  - apply (H "Basic" "eyJhbGciOi.eyJ1c2VySWQi.c2lnbmF0dXJl");
      [reflexivity|reflexivity|discriminate|left; reflexivity].
  - apply (H "Bearer" "eyJhbGciOi.tampered.c2lnbmF0dXJl");
      [reflexivity|reflexivity|discriminate|left; reflexivity].
  - apply (H0 "Bearer" ""); [reflexivity|now left].
  - apply (H0 "Bearer" " eyJhbGciOi.eyJ1c2VySWQi.c2lnbmF0dXJl");
      [reflexivity|right; eexists; reflexivity].
Defined.

(* ================================================================== *)
(** * The body of a login request *)
(* ================================================================== *)

Section LoginValidation.

Import Auth.

Lemma authSchema_parse_spec (req : request) :
  (login_body_ok req = true ->
   exists username password,
     body_username req = VStr username /\ body_password req = VStr password
     /\ authSchema_parse req = Ok (username, password))
  /\ (login_body_ok req = false ->
      exists issue issues, authSchema_parse req = Throw (ZodError (issue :: issues))).
Proof.
  unfold login_body_ok, authSchema_parse, string_min.
  destruct (body_username req) as [| | | |u| |], (body_password req) as [| | | |p| |];
    cbv beta iota;
    try solve [split; [discriminate|intros _; simpl; eauto]];
    try solve [split; [discriminate
                      |intros _; destruct (String.length u <? 3)%nat; simpl; eauto]].
  split.
  - intros [Hu Hp]%andb_true_iff.
    apply Nat.leb_le in Hu, Hp.
    destruct (Nat.ltb_spec (String.length u) 3); [lia|].
    destruct (Nat.ltb_spec (String.length p) 6); [lia|].
    simpl. eauto.
  - intros H. apply andb_false_iff in H.
    destruct (Nat.ltb_spec (String.length u) 3);
      destruct (Nat.ltb_spec (String.length p) 6); simpl; eauto.
    destruct H as [H|H]; apply Nat.leb_gt in H; lia.
Qed.

End LoginValidation.

(** The login route never changes the store. It answers 400 exactly
    when the body does not have the shape of the schema, with the
    issues of both fields in one answer; under the smaller error
    wrapper the same bodies are answered 500. *)
Theorem login_validates_body (env_JWT_SECRET : option string)
    (bcrypt_compare : string -> string -> bool) (st : store) (req : Auth.request) :
  fst (Auth.login env_JWT_SECRET bcrypt_compare st req) = st
  /\ (status (snd (Auth.login env_JWT_SECRET bcrypt_compare st req)) = BAD_REQUEST
      <-> login_body_ok req = false)
  /\ (login_body_ok req = false ->
      snd (Auth.login_plain env_JWT_SECRET bcrypt_compare st req)
      = respond INTERNAL_SERVER_ERROR (JError "Internal server error"))
  /\ (forall username password,
        Auth.body_username req = VStr username -> (String.length username < 3)%nat ->
        Auth.body_password req = VStr password -> (String.length password < 6)%nat ->
        snd (Auth.login env_JWT_SECRET bcrypt_compare st req)
        = respond BAD_REQUEST
            (JValidationIssues
               [{| issue_path := ["username"];
                   issue_message := "Username must be at least 3 characters" |};
                {| issue_path := ["password"];
                   issue_message := "Password must be at least 6 characters" |}])).
Proof.
  destruct (authSchema_parse_spec req) as [Hok Hbad].
  unfold Auth.login, Auth.login_plain, Auth.login_handler.
  destruct (login_body_ok req) eqn:Hshape.
  - destruct (Hok eq_refl) as (username & password & _ & _ & ->).
    assert (Hstatus : forall r : store * result response,
              r = (st, Ok (respond UNAUTHORIZED (JError "Invalid credentials")))
              \/ (exists t id name, r = (st, Ok (respond OK (JLogin t id name)))) ->
              fst (let '(st', x) := r in (st', tryCatch x)) = st
              /\ status (snd (let '(st', x) := r in (st', tryCatch x))) <> BAD_REQUEST).
    { intros r [->|(t & id & name & ->)]; simpl; split; auto; discriminate. }
    match goal with
    | |- fst (let '(st', x) := ?r in _) = _ /\ _ =>
        destruct (Hstatus r) as [H1 H2]
    end.
    { destruct (users_by_username st username) as [user|]; [|now left].
      destruct (negb _); [now left|right; eauto]. }
    split; [exact H1|]. split; [split; [intros H; now elim H2|discriminate]|].
    split; [discriminate|].
    intros u p Hu Hlu Hp Hlp. exfalso.
    unfold login_body_ok in Hshape. rewrite Hu, Hp in Hshape.
    apply andb_true_iff in Hshape as [H _]. apply Nat.leb_le in H. lia.
  - destruct (Hbad eq_refl) as (issue & issues & Hparse). rewrite Hparse. simpl.
    split; [reflexivity|]. split; [tauto|]. split; [reflexivity|].
    intros u p Hu Hlu Hp Hlp.
    unfold Auth.authSchema_parse, Auth.string_min in Hparse.
    rewrite Hu, Hp in Hparse.
    destruct (Nat.ltb_spec (String.length u) 3); [|lia].
    destruct (Nat.ltb_spec (String.length p) 6); [|lia].
    simpl in Hparse. injection Hparse as <- <-. reflexivity.
Qed.

(** A two-letter username with a five-letter password. *)
Lemma login_validates_body_witness :
  snd (Auth.login None Samples.bcrypt_compare_sample Samples.with_admin
         (Samples.credentials "ad" "s3cre"))
  = respond BAD_REQUEST
      (JValidationIssues
         [{| issue_path := ["username"];
             issue_message := "Username must be at least 3 characters" |};
          {| issue_path := ["password"];
             issue_message := "Password must be at least 6 characters" |}]).
Proof.
  destruct (login_validates_body None Samples.bcrypt_compare_sample Samples.with_admin
              (Samples.credentials "ad" "s3cre")) as (_ & _ & _ & H).
  apply (H "ad" "s3cre"); [reflexivity|simpl; lia|reflexivity|simpl; lia].
Defined.

(* ================================================================== *)
(** * Parameters with a numeric prefix *)
(* ================================================================== *)

Section NumericPrefix.

Lemma chars_app (a b : string) : chars (a ++ b) = (chars a ++ chars b)%list.
Proof. unfold chars. induction a as [|c a IH]; simpl; [reflexivity|now rewrite IH]. Qed.

Lemma not_digit_no_radix_digit (c : ascii) :
  is_digit c = false -> radix_digit 10 c = None.
Proof. destruct c as [[] [] [] [] [] [] [] []]; vm_compute; congruence. Qed.

Lemma digit_not_x (c : ascii) :
  is_digit c = true -> (Ascii.eqb c "x" || Ascii.eqb c "X")%char = false.
Proof. destruct c as [[] [] [] [] [] [] [] []]; vm_compute; congruence. Qed.

Lemma no_radix_prefix (c0 c1 : ascii) (l : list ascii) :
  (Ascii.eqb c1 "x" || Ascii.eqb c1 "X")%char = false ->
  take_radix_prefix false (c0 :: c1 :: l) = None.
Proof.
  intros H. unfold take_radix_prefix.
  destruct c0 as [[] [] [] [] [] [] [] []]; try reflexivity.
  now rewrite H.
Qed.

(** The digits of a run are read up to the first character that is
    not a digit. *)
Lemma span_digits_app (l : list ascii) (c : ascii) (rest : list ascii) :
  radix_digit 10 c = None ->
  forall ds, span_digits 10 l = (ds, []) ->
    span_digits 10 (l ++ c :: rest) = (ds, c :: rest).
Proof.
  intros Hc. induction l as [|a l IH]; intros ds; simpl.
  - intros [= <-]. now rewrite Hc.
  - destruct (radix_digit 10 a) as [d|]; [|discriminate].
    destruct (span_digits 10 l) as [ds' rest'] eqn:Hs.
    intros [= <- ->]. now rewrite (IH ds' eq_refl).
Qed.

(** [parseInt] reads the decimal form of [n] out of a string that goes
    on with something that is not a digit. *)
Lemma parseInt_prefix (n : N) (c : ascii) (junk : string) :
  is_digit c = false ->
  (Ascii.eqb c "x" || Ascii.eqb c "X")%char = false ->
  parseInt (show_N n ++ String c junk) = Some (Z.of_N n).
Proof.
  intros Hc Hx.
  destruct (digits_value_show_N n) as (ds & Hs & Hv & Hne & Hd & Hnil).
  unfold parseInt. rewrite chars_app.
  change (chars (String c junk)) with (c :: chars junk).
  destruct (chars (show_N n)) as [|c0 l] eqn:E; [congruence|].
  inversion Hd as [|? ? Hc0 Hl]; subst.
  simpl app. simpl trim_start. rewrite (digit_not_space c0 Hc0).
  rewrite (digit_no_sign c0 _ Hc0).
  assert (Hprefix : take_radix_prefix false (c0 :: (l ++ c :: chars junk)%list) = None).
  { destruct l as [|c1 l']; simpl app.
    - now apply no_radix_prefix.
    - apply no_radix_prefix, digit_not_x. now inversion Hl. }
  rewrite Hprefix.
  change (c0 :: (l ++ c :: chars junk)%list) with ((c0 :: l) ++ c :: chars junk)%list.
  rewrite (span_digits_app (c0 :: l) c (chars junk)
             (not_digit_no_radix_digit c Hc) ds Hs).
  destruct ds; [congruence|]. now rewrite Hv.
Qed.

Lemma all_digits_prefix (n : N) (c : ascii) (junk : string) :
  is_digit c = false -> all_digits (show_N n ++ String c junk) = false.
Proof.
  intros Hc. unfold all_digits. rewrite chars_app, forallb_app.
  change (chars (String c junk)) with (c :: chars junk).
  match goal with
  | |- context [forallb ?f (c :: ?l)] =>
      change (forallb f (c :: l)) with (is_digit c && forallb f l)
  end.
  rewrite Hc. simpl. now rewrite !andb_false_r.
Qed.

End NumericPrefix.

(** The by-id routes that read their parameter with [parseInt] take a
    parameter that starts with the decimal form of a number and goes
    on with something that is not a digit (nor an [x]) for that
    number: they answer as for the number alone. The delete routes,
    which check the parameter against the pattern first, answer 400
    and leave the store as it is. *)
Theorem numeric_prefix_is_read (st : store) (n : N) (c : ascii) (junk : string)
    (name description : option string) (parts : list Multer.file_part) :
  is_digit c = false -> c <> "x"%char -> c <> "X"%char ->
  Categories.get st (Samples.category_request (show_N n ++ String c junk)
                                              name description parts)
    = Categories.get st (Samples.category_request (show_N n) name description parts)
  /\ Categories.put st (Samples.category_request (show_N n ++ String c junk)
                                                 name description parts)
     = Categories.put st (Samples.category_request (show_N n) name description parts)
  /\ Products.get st (Samples.product_request (show_N n ++ String c junk))
     = Products.get st (Samples.product_request (show_N n))
  /\ Categories.delete st (Samples.category_request (show_N n ++ String c junk)
                                                    name description parts)
     = (st, respond BAD_REQUEST (JValidation [("id", "Invalid")]))
  /\ Products.delete st (Samples.product_request (show_N n ++ String c junk))
     = (st, respond BAD_REQUEST (JValidation [("id", "Invalid")])).
Proof.
  intros Hc Hx HX.
  assert (Hxx : (Ascii.eqb c "x" || Ascii.eqb c "X")%char = false).
  { destruct (Ascii.eqb_spec c "x"); [contradiction|].
    destruct (Ascii.eqb_spec c "X"); [contradiction|reflexivity]. }
  pose proof (parseInt_prefix n c junk Hc Hxx) as Hparse.
  pose proof (all_digits_prefix n c junk Hc) as Hdigits.
  split; [|split; [|split; [|split]]].
  - unfold Categories.get, Categories.get_handler. simpl Categories.params_id.
    now rewrite Hparse, parseInt_show_N.
  - unfold Categories.put, Categories.update_handler. simpl Categories.params_id.
    simpl Categories.file_parts. now rewrite Hparse, parseInt_show_N.
  - unfold Products.get, Products.get_handler. simpl Products.params_id.
    now rewrite Hparse, parseInt_show_N.
  - unfold Categories.delete, Categories.categoryIdSchema, validateRequest,
      idSchema_parse. simpl Categories.params_id. now rewrite Hdigits.
  - unfold Products.delete, Products.productIdSchema, validateRequest,
      idSchema_parse. simpl Products.params_id. now rewrite Hdigits.
Qed.

(** [GET /categories/12abc] on the catalogue is answered with
    category 12. *)
Lemma numeric_prefix_is_read_witness :
  Categories.get Samples.catalogue (Samples.category_request "12abc" None None [])
  = (Samples.catalogue, respond OK (JCategory (Some Samples.pumps12))).
Proof.
  destruct (numeric_prefix_is_read Samples.catalogue 12 "a" "bc" None None [])
    as (Hget & _); [reflexivity|discriminate|discriminate|].
  change (show_N 12 ++ String "a" "bc") with "12abc" in Hget.
  rewrite Hget. reflexivity.
Defined.

(* ================================================================== *)
(** * Updates that set nothing *)
(* ================================================================== *)

(** An update of a stored category that carries no name, no
    description and no file, and an update of a stored product that
    carries no field at all, reach the query builder with nothing to
    set: its error is answered 500 and the store is left as it is. *)
Theorem empty_update_is_answered_500 (JSON_parse : string -> result jsval)
    (st : store) (n : N) :
  (forall row name description,
     NoDup (map category_id (category st)) ->
     In row (category st) -> category_id row = Z.of_N n ->
     truthy_text name = false -> truthy_text description = false ->
     Categories.put st (Samples.category_request (show_N n) name description [])
     = (st, respond INTERNAL_SERVER_ERROR (JError "Internal server error")))
  /\ (forall row,
        NoDup (map product_id (product st)) ->
        In row (product st) -> product_id row = Z.of_N n ->
        Products.put JSON_parse st (Samples.product_request (show_N n))
        = (st, respond INTERNAL_SERVER_ERROR (JError "Internal server error"))).
Proof.
  split.
  - intros row name description Hnd Hin Hid Hname Hdescription.
    unfold Categories.put, Multer.single. simpl Multer.receive. cbv beta iota.
    rewrite set_files_same. unfold Categories.update_handler.
    simpl Categories.params_id. rewrite parseInt_show_N, <- Hid.
    unfold category_by_id. destruct (in_int4 (category_id row)); [|reflexivity].
    rewrite (category_by_id_found st row Hnd Hin).
    simpl Categories.body_name. simpl Categories.body_description.
    rewrite Hname, Hdescription. simpl. now rewrite set_files_same.
  - intros row Hnd Hin Hid.
    unfold Products.put, Products.upload_step, Multer.array. simpl Multer.receive.
    cbv beta iota. rewrite set_files_same. unfold Products.update_handler.
    simpl Products.params_id. rewrite parseInt_show_N, <- Hid.
    unfold product_by_id. destruct (in_int4 (product_id row)); [|reflexivity].
    rewrite (product_by_id_found st row Hnd Hin). reflexivity.
Qed.

(** An update of category 12 and of product 12 of the catalogue with
    nothing in it. *)
Lemma empty_update_is_answered_500_witness :
  Categories.put Samples.catalogue (Samples.category_request "12" None (Some "") [])
  = (Samples.catalogue, respond INTERNAL_SERVER_ERROR (JError "Internal server error"))
  /\ Products.put Samples.JSON_sample Samples.catalogue (Samples.product_request "12")
     = (Samples.catalogue,
        respond INTERNAL_SERVER_ERROR (JError "Internal server error")).
Proof.
  destruct (empty_update_is_answered_500 Samples.JSON_sample Samples.catalogue 12)
    as [Hcategory Hproduct].
  split.
  - apply (Hcategory Samples.pumps12 None (Some ""));
      [apply NoDup_singleton|now left|reflexivity|reflexivity|reflexivity].
  - apply (Hproduct Samples.press12);
      [apply NoDup_singleton|now left|reflexivity].
Defined.

(* ================================================================== *)
(** * What the routes leave alone *)
(* ================================================================== *)

Section Frames.

Variable JSON_parse : string -> result jsval.
Variable numeric_in : string -> option string.

Lemma categories_post_frame st req :
  product (fst (Categories.post st req)) = product st
  /\ product_seq (fst (Categories.post st req)) = product_seq st
  /\ users (fst (Categories.post st req)) = users st.
Proof.
  unfold Categories.post.
  destruct (Multer.single _ _ _) as [fs [e|file]]; [auto|].
  unfold Categories.create_handler.
  destruct (_ || _); [auto|].
  destruct (category_by_name _ _); [auto|].
  unfold insert_category.
  destruct (varchar 100 _); [|auto]. destruct (varchar 300 _); [|auto].
  destruct (_ && _); auto.
Qed.

Lemma categories_put_frame st req :
  product (fst (Categories.put st req)) = product st
  /\ product_seq (fst (Categories.put st req)) = product_seq st
  /\ users (fst (Categories.put st req)) = users st.
Proof.
  unfold Categories.put.
  destruct (Multer.single _ _ _) as [fs [e|file]]; [auto|].
  unfold Categories.update_handler.
  destruct (parseInt _); [|auto].
  destruct (category_by_id _ _) as [[?|]|?]; [|auto|auto].
  unfold update_category. destruct (category_set_empty _); [auto|].
  destruct (varchar_set 100 _) as [name|]; [|auto].
  destruct (varchar_set 300 _) as [description|]; [|auto].
  destruct (_ && _); auto.
Qed.

Lemma categories_delete_frame st req :
  product (fst (Categories.delete st req)) = product st
  /\ product_seq (fst (Categories.delete st req)) = product_seq st
  /\ users (fst (Categories.delete st req)) = users st.
Proof.
  unfold Categories.delete.
  destruct (validateRequest _ _); [auto|].
  unfold Categories.delete_handler.
  destruct (parseInt _); [|auto].
  destruct (category_by_id _ _) as [[?|]|?]; auto.
Qed.

Lemma products_post_frame st req :
  category (fst (Products.post JSON_parse numeric_in st req)) = category st
  /\ category_seq (fst (Products.post JSON_parse numeric_in st req)) = category_seq st
  /\ users (fst (Products.post JSON_parse numeric_in st req)) = users st.
Proof.
  unfold Products.post.
  pose proof (products_upload_step_tables st req) as Ht.
  destruct (Products.upload_step st req) as [st1 [resp|uploaded]];
    simpl in Ht; rewrite Ht; [auto|].
  unfold Products.create_handler.
  destruct (_ || _); [auto|].
  destruct (Products.create_machineData _ _); [|auto].
  destruct (Products.create_categoryIds _ _); [|auto].
  unfold insert_product.
  destruct (varchar 100 _); [|auto].
  destruct (match (if truthy_text _ then _ else _) with
            | Some text => Some <$> numeric_in text
            | None => Some None
            end); [|auto].
  destruct (integer_in _); auto.
Qed.

Lemma products_put_frame st req :
  category (fst (Products.put JSON_parse st req)) = category st
  /\ category_seq (fst (Products.put JSON_parse st req)) = category_seq st
  /\ users (fst (Products.put JSON_parse st req)) = users st.
Proof.
  unfold Products.put.
  pose proof (products_upload_step_tables st req) as Ht.
  destruct (Products.upload_step st req) as [st1 [resp|uploaded]];
    simpl in Ht; rewrite Ht; [auto|].
  unfold Products.update_handler.
  destruct (parseInt _); [|auto].
  destruct (product_by_id _ _) as [[?|]|?]; [|auto|auto].
  destruct (Products.update_machineData _ _); [|auto].
  destruct (Products.update_categoryIds _ _); [|auto].
  unfold update_product. destruct (product_set_empty _); auto.
Qed.

Lemma products_delete_frame st req :
  category (fst (Products.delete st req)) = category st
  /\ category_seq (fst (Products.delete st req)) = category_seq st
  /\ users (fst (Products.delete st req)) = users st
  /\ files (fst (Products.delete st req)) = files st.
Proof.
  unfold Products.delete.
  destruct (validateRequest _ _); [auto|].
  unfold Products.delete_handler.
  destruct (parseInt _); [|auto].
  destruct (product_by_id _ _) as [[?|]|?]; auto.
Qed.

Lemma serve_users st c : users (fst (App.serve JSON_parse numeric_in st c)) = users st.
Proof.
  destruct c; simpl.
  - apply categories_post_frame.
  - reflexivity.
  - now rewrite categories_get_store.
  - apply categories_put_frame.
  - apply categories_delete_frame.
  - apply products_post_frame.
  - now rewrite products_get_all_store.
  - now rewrite products_get_store.
  - apply products_put_frame.
  - apply products_delete_frame.
Qed.

Lemma reachable_users st : App.reachable JSON_parse numeric_in st -> users st = [].
Proof.
  induction 1 as [|st c _ IH]; [reflexivity|]. now rewrite serve_users.
Qed.

End Frames.

(** The category routes leave the product table and its sequence as
    they are, and the product routes the category table and its
    sequence: deleting a category does not touch the products that
    list it. The read routes change nothing, and deleting a product
    removes none of its files. *)
Theorem routers_keep_to_their_table (JSON_parse : string -> result jsval)
    (numeric_in : string -> option string)
    (st : store) (creq : Categories.request) (preq : Products.request) :
  (forall st', st' = fst (Categories.post st creq)
               \/ st' = fst (Categories.put st creq)
               \/ st' = fst (Categories.delete st creq) ->
     product st' = product st /\ product_seq st' = product_seq st)
  /\ (forall st', st' = fst (Products.post JSON_parse numeric_in st preq)
                  \/ st' = fst (Products.put JSON_parse st preq)
                  \/ st' = fst (Products.delete st preq) ->
        category st' = category st /\ category_seq st' = category_seq st)
  /\ fst (Categories.get_all st) = st
  /\ fst (Categories.get st creq) = st
  /\ fst (Products.get_all st) = st
  /\ fst (Products.get st preq) = st
  /\ files (fst (Products.delete st preq)) = files st.
Proof.
  split; [|split].
  - intros st' [-> | [-> | ->]].
    + destruct (categories_post_frame st creq) as (H1 & H2 & _). auto.
    + destruct (categories_put_frame st creq) as (H1 & H2 & _). auto.
    + destruct (categories_delete_frame st creq) as (H1 & H2 & _). auto.
  - intros st' [-> | [-> | ->]].
    + destruct (products_post_frame JSON_parse numeric_in st preq)
        as (H1 & H2 & _). auto.
    + destruct (products_put_frame JSON_parse st preq) as (H1 & H2 & _). auto.
    + destruct (products_delete_frame st preq) as (H1 & H2 & _). auto.
  - split; [reflexivity|]. split; [apply categories_get_store|].
    split; [apply products_get_all_store|]. split; [apply products_get_store|].
    apply products_delete_frame.
Qed.

(** Deleting the second category leaves the product table alone. *)
Lemma routers_keep_to_their_table_witness :
  product (fst (Categories.delete Samples.with_press
                  (Samples.category_request "2" None None [])))
  = product Samples.with_press.
Proof.
  destruct (routers_keep_to_their_table Samples.JSON_sample
              Samples.numeric_sample Samples.with_press
              (Samples.category_request "2" None None [])
              (Samples.product_request "1")) as [H _].
  apply H. right. right. reflexivity.
Defined.

(** No mounted route writes the users table: whatever calls are
    served, it stays as it was. The application started on empty
    tables therefore never has a user, and a login is never answered
    200 there, whatever [bcrypt.compare] says. *)
Theorem no_route_creates_a_user (JSON_parse : string -> result jsval)
    (numeric_in : string -> option string)
    (env_JWT_SECRET : option string) (bcrypt_compare : string -> string -> bool)
    (st : store) (calls : list App.call) (req : Auth.request) :
  users (serve_all JSON_parse numeric_in st calls) = users st
  /\ (App.reachable JSON_parse numeric_in st ->
      status (snd (Auth.login env_JWT_SECRET bcrypt_compare st req)) <> OK).
Proof.
  split.
  - revert st. induction calls as [|c calls IH]; intros st; [reflexivity|].
    change (serve_all JSON_parse numeric_in st (c :: calls))
      with (serve_all JSON_parse numeric_in (fst (App.serve JSON_parse numeric_in st c)) calls).
    rewrite IH. apply serve_users.
  - intros Hreach. apply reachable_users in Hreach.
    unfold Auth.login, Auth.login_handler.
    destruct (Auth.authSchema_parse req) as [[username password]|[errors|message]];
      simpl; try discriminate.
    + unfold users_by_username. rewrite Hreach. simpl. discriminate.
    + destruct (includes _ _); discriminate.
Qed.

(** After two categories were created on empty tables, the right
    password of [admin] is still answered 401. *)
Lemma no_route_creates_a_user_witness :
  status (snd (Auth.login None (fun _ _ => true) Samples.two_categories
                 (Samples.credentials "admin" "s3cret-pass")))
  <> OK.
Proof.
  destruct (no_route_creates_a_user (Samples.JSON_parse_table []) Samples.numeric_sample None
              (fun _ _ => true) Samples.two_categories []
              (Samples.credentials "admin" "s3cret-pass")) as [_ H].
  apply H.
  apply (App.reachable_serve _ _ _ (App.CategoriesPost Samples.new_valves)).
  apply (App.reachable_serve _ _ _ (App.CategoriesPost Samples.new_pumps)).
  apply App.reachable_empty.
Defined.

(* ================================================================== *)
(** * The list and the filters on sample data *)
(* ================================================================== *)

(** The product whose bag holds [categories: 5] fails the list. *)
Lemma product_list_spec_witness :
  status (snd (Products.get_all Samples.bag_with_number)) = INTERNAL_SERVER_ERROR.
Proof.
  destruct (product_list_spec Samples.bag_with_number) as (_ & [_ H] & _).
  apply H. split.
  - vm_compute. discriminate.
  - exists Samples.press_with_number. split.
    + vm_compute. left. reflexivity.
    + vm_compute. reflexivity.
Defined.

(** A file named [pump.jpgx] of type [application/x-png] passes. *)
Lemma passes_filter_spec_witness :
  Products.fileFilter (Samples.photo "pump.jpgx" "application/x-png")
  = Multer.Include.
Proof.
  destruct (passes_filter_spec (Samples.photo "pump.jpgx" "application/x-png"))
    as ([_ Hpass] & _ & [_ Hfilter] & _).
  apply Hfilter, Hpass. split.
  - exists "jpg", ".", "x". split; [simpl; auto|reflexivity].
  - exists "png", "application/x-", "". split; [simpl; auto|reflexivity].
Defined.
